(** * Vulnerability source updaters: Amazon Linux (ALAS) and Debian

    A shallow embedding of the two updaters of [ext/vulnsrc]: the Amazon
    Linux updater (package [amzn]) and the Debian updater (package
    [debian]), together with the properties of their canonicalisation and
    incremental-update logic.

    Go strings are byte strings and are modelled by [string] (lists of
    8-bit [ascii]); Go's [<] on strings is the byte-wise lexicographic
    order, which is [String.ltb]. *)

From Stdlib Require Import ZArith String Ascii List Bool Lia.
From stdpp Require Import base gmap strings list fin_maps.

Local Open Scope Z_scope.
Local Open Scope string_scope.

(** ** Go idioms *)

(** A Go [error] value of the kinds the updaters hand back.  [ErrOther]
    stands for errors created by a collaborator (the datastore) that the
    updaters pass through unchanged. *)
Inductive error : Type :=
  | ErrCouldNotDownload
  | ErrCouldNotParse
  | ErrOther (msg : string).

(** A Go call either returns its results or panics. *)
Inductive outcome (A : Type) : Type :=
  | Returns (a : A)
  | Panics.
Arguments Returns {A} a.
Arguments Panics {A}.

Global Instance outcome_ret : MRet outcome := fun A a => Returns a.

Global Instance outcome_bind : MBind outcome := fun A B k x =>
  match x with
  | Returns a => k a
  | Panics => Panics
  end.

(** ** Package [database] *)

Module Database.

(** Modelled from the spec: the declaration of [database.Severity] is not
    part of the sources at hand.  The canonical scale is the ordered list
    Unknown, Negligible, Low, Medium, High, Critical, and [Compare]
    orders two severities by their position in it. *)
Inductive Severity : Type :=
  | UnknownSeverity
  | NegligibleSeverity
  | LowSeverity
  | MediumSeverity
  | HighSeverity
  | CriticalSeverity.

Definition severityIndex (s : Severity) : Z :=
  match s with
  | UnknownSeverity => 0
  | NegligibleSeverity => 1
  | LowSeverity => 2
  | MediumSeverity => 3
  | HighSeverity => 4
  | CriticalSeverity => 5
  end.

(** Modelled from the spec: [Severity.Compare], positive when the
    receiver is the more severe of the two. *)
Definition Compare (s s2 : Severity) : Z := severityIndex s - severityIndex s2.

(** Modelled from the spec: [database.FeatureType], binary or source
    package. *)
Inductive FeatureType : Type :=
  | NoFeatureType
  | SourcePackage
  | BinaryPackage.

(** Modelled from the spec: the records of the canonical model
    ([database.Namespace], [database.AffectedFeature],
    [database.Vulnerability], [database.VulnerabilityWithAffected]),
    with the fields the updaters fill in. *)
Record Namespace : Type := {
  NsName : string;
  VersionFormat : string
}.

Record AffectedFeature : Type := {
  FeatureType_ : FeatureType;
  AfNamespace : Namespace;
  FeatureName : string;
  AffectedVersion : string;
  FixedInVersion : string
}.

Record Vulnerability : Type := {
  Name : string;
  Link : string;
  Severity_ : Severity;
  Description : string
}.

Record VulnerabilityWithAffected : Type := {
  Vuln : Vulnerability;
  Affected : list AffectedFeature
}.

Global Instance Severity_eq_dec : EqDecision Severity.
Proof. solve_decision. Defined.

End Database.

(** ** Package [vulnsrc] *)

Module Vulnsrc.

(** Modelled from the spec: [vulnsrc.UpdateResponse].  The zero value of
    each field (empty string, nil slice) is the absent value. *)
Record UpdateResponse : Type := {
  FlagName : string;
  FlagValue : string;
  Notes : list string;
  Vulnerabilities : list Database.VulnerabilityWithAffected
}.

Definition emptyResponse : UpdateResponse :=
  {| FlagName := ""; FlagValue := ""; Notes := []; Vulnerabilities := [] |}.

End Vulnsrc.

(** ** Collaborators outside the repository sources

    The version-format oracle, the HTTP client, the decoders of the
    standard library and the datastore are consumed through the calls
    below.  Everything proved about the updaters holds for every
    implementation of them. *)

(** Modelled from the spec: an HTTP response as the updaters use it, a
    status code and a body. *)
Record Response : Type := {
  StatusCode : Z;
  Body : string
}.

(** Modelled from the spec: [httputil.Status2xx], the 2xx-status
    predicate. *)
Definition Status2xx (r : Response) : bool := (StatusCode r / 100 =? 2)%Z.

Class Versionfmt : Type := {
  (** [versionfmt.Valid format version]: [true] when it returns nil. *)
  Valid : string -> string -> bool;
  (** [versionfmt.MaxVersion]. *)
  MaxVersion : string;
  (** [rpm.ParserName] and [dpkg.ParserName]. *)
  rpm_ParserName : string;
  dpkg_ParserName : string
}.

(** The datastore as [database.FindKeyValueAndRollback] sees it: the
    value, whether the key was found, and the error if any. *)
Definition Datastore : Type := string -> string * bool * option error.

Definition FindKeyValueAndRollback (datastore : Datastore) (key : string)
  : string * bool * option error := datastore key.

(** [httputil.GetWithUserAgent]: [None] when the call returns an error
    (a transport-level failure), the response otherwise.  The class gives
    the responses that one run of an updater receives, by URI. *)
Class Httputil : Type := {
  GetWithUserAgent : string -> option Response
}.

(** ** [crypto/sha256] and [encoding/hex]

    The digest the Debian updater takes of the document it decodes, on
    32-bit words carried by [Z] with the wrap-around written out. *)

Module Sha256.

Definition w32 (x : Z) : Z := x mod 2 ^ 32.
Definition add32 (x y : Z) : Z := w32 (x + y).
Definition rotr (n x : Z) : Z := Z.lor (Z.shiftr x n) (w32 (Z.shiftl x (32 - n))).
Definition not32 (x : Z) : Z := Z.lxor x (2 ^ 32 - 1).

Definition Ch (x y z : Z) : Z := Z.lxor (Z.land x y) (Z.land (not32 x) z).
Definition Maj (x y z : Z) : Z :=
  Z.lxor (Z.lxor (Z.land x y) (Z.land x z)) (Z.land y z).
Definition bsig0 (x : Z) : Z := Z.lxor (Z.lxor (rotr 2 x) (rotr 13 x)) (rotr 22 x).
Definition bsig1 (x : Z) : Z := Z.lxor (Z.lxor (rotr 6 x) (rotr 11 x)) (rotr 25 x).
Definition ssig0 (x : Z) : Z := Z.lxor (Z.lxor (rotr 7 x) (rotr 18 x)) (Z.shiftr x 3).
Definition ssig1 (x : Z) : Z := Z.lxor (Z.lxor (rotr 17 x) (rotr 19 x)) (Z.shiftr x 10).

Definition K : list Z :=
  [1116352408; 1899447441; 3049323471; 3921009573; 961987163; 1508970993;
   2453635748; 2870763221; 3624381080; 310598401; 607225278; 1426881987;
   1925078388; 2162078206; 2614888103; 3248222580; 3835390401; 4022224774;
   264347078; 604807628; 770255983; 1249150122; 1555081692; 1996064986;
   2554220882; 2821834349; 2952996808; 3210313671; 3336571891; 3584528711;
   113926993; 338241895; 666307205; 773529912; 1294757372; 1396182291;
   1695183700; 1986661051; 2177026350; 2456956037; 2730485921; 2820302411;
   3259730800; 3345764771; 3516065817; 3600352804; 4094571909; 275423344;
   430227734; 506948616; 659060556; 883997877; 958139571; 1322822218;
   1537002063; 1747873779; 1955562222; 2024104815; 2227730452; 2361852424;
   2428436474; 2756734187; 3204031479; 3329325298].

Definition init : list Z :=
  [1779033703; 3144134277; 1013904242; 2773480762;
   1359893119; 2600822924; 528734635; 1541459225].

(** Padding: the byte 0x80, zero bytes up to 56 modulo 64, and the length
    of the message in bits as a 64-bit big-endian number. *)
Fixpoint bigEndian (n : nat) (x : Z) : list Z :=
  match n with
  | O => []
  | S n' => (x / 2 ^ (8 * Z.of_nat n')) mod 256 :: bigEndian n' x
  end.

Definition pad (msg : list Z) : list Z :=
  let len := Z.of_nat (length msg) in
  let zeros := Z.to_nat ((55 - len) mod 64) in
  (msg ++ [128] ++ repeat 0 zeros ++ bigEndian 8 (8 * len))%list.

Fixpoint words (n : nat) (bytes : list Z) : list Z :=
  match n, bytes with
  | S n', b0 :: b1 :: b2 :: b3 :: rest =>
    (b0 * 2 ^ 24 + b1 * 2 ^ 16 + b2 * 2 ^ 8 + b3) :: words n' rest
  | _, _ => []
  end.

(** The message schedule: [window] holds the sixteen words before the
    one to compute. *)
Fixpoint schedule (n : nat) (window : list Z) : list Z :=
  match n with
  | O => []
  | S n' =>
    let w := add32 (add32 (ssig1 (nth 14 window 0)) (nth 9 window 0))
                   (add32 (ssig0 (nth 1 window 0)) (nth 0 window 0)) in
    w :: schedule n' (tl window ++ [w])%list
  end.

Definition round (st : list Z) (kw : Z * Z) : list Z :=
  match st with
  | [a; b; c; d; e; f; g; h] =>
    let t1 := add32 (add32 (add32 h (bsig1 e)) (add32 (Ch e f g) (fst kw))) (snd kw) in
    let t2 := add32 (bsig0 a) (Maj a b c) in
    [add32 t1 t2; a; b; c; add32 d t1; e; f; g]
  | _ => st
  end.

Definition block (h : list Z) (blockBytes : list Z) : list Z :=
  let w16 := words 16 blockBytes in
  let w := (w16 ++ schedule 48 w16)%list in
  let st := fold_left round (combine K w) h in
  map (fun p => add32 (fst p) (snd p)) (combine h st).

Fixpoint blocks (n : nat) (h : list Z) (bytes : list Z) : list Z :=
  match n with
  | O => h
  | S n' =>
    match bytes with
    | [] => h
    | _ => blocks n' (block h (firstn 64 bytes)) (skipn 64 bytes)
    end
  end.

Definition bytesOf (s : string) : list Z :=
  map (fun c => Z.of_N (N_of_ascii c)) (list_ascii_of_string s).

(** [sha256.New()], the bytes written to it, then [Sum(nil)]: the 32
    bytes of the digest. *)
Definition Sum (s : string) : list Z :=
  let padded := pad (bytesOf s) in
  flat_map (bigEndian 4) (blocks (length padded) init padded).

Definition hexDigit (x : Z) : ascii :=
  if (x <? 10)%Z then ascii_of_N (Z.to_N (48 + x)) else ascii_of_N (Z.to_N (87 + x)).

(** [hex.EncodeToString]: two lower-case digits for each byte. *)
Fixpoint EncodeToString (bytes : list Z) : string :=
  match bytes with
  | [] => EmptyString
  | b :: rest => String (hexDigit (b / 16)) (String (hexDigit (b mod 16)) (EncodeToString rest))
  end.

End Sha256.

(** ** Package [amzn] *)

Module Amzn.

Definition amazonLinux1UpdaterFlag := "amazonLinux1Updater".
Definition amazonLinux1Name := "Amazon Linux 2018.03".
Definition amazonLinux1Namespace := "amzn:2018.03".
Definition amazonLinux1LinkFormat := "https://alas.aws.amazon.com/%s.html".

Definition amazonLinux2UpdaterFlag := "amazonLinux2Updater".
Definition amazonLinux2Name := "Amazon Linux 2".
Definition amazonLinux2Namespace := "amzn:2".
Definition amazonLinux2LinkFormat := "https://alas.aws.amazon.com/AL2/%s.html".

Record updater : Type := {
  UpdaterFlag : string;
  MirrorListURI : string;
  Name : string;
  Namespace : string;
  LinkFormat : string
}.

(** Modelled from the spec: the XML record types ([RepoMd], [UpdateInfo],
    [ALAS] and their parts) are declared in a file of the package that is
    not among the sources; the fields are the ones the updater reads. *)
Record Location : Type := { Href : string }.
Record Repo : Type := { Type_ : string; Location_ : Location }.
Record RepoMd : Type := { RepoList : list Repo }.

Record Updated : Type := { Date : string }.
Record Package : Type := {
  PkgName : string;
  Epoch : string;
  Version : string;
  Release : string
}.
Record ALAS : Type := {
  Id : string;
  Updated_ : Updated;
  Severity : string;
  Description : string;
  Packages : list Package
}.
Record UpdateInfo : Type := { ALASList : list ALAS }.

(** The standard-library calls of the package.  A decoder returns the
    value it filled in and the error, as [Decode] does. *)
Class Stdlib_calls : Type := {
  (** [bufio.NewScanner(body)], one [Scan], then [Text]. *)
  scanFirstLine : string -> string;
  (** [xml.NewDecoder(body).Decode(&repoMd)]. *)
  xml_Decode_RepoMd : string -> RepoMd * option error;
  (** [gzip.NewReader(body)]: the decompressed stream, or an error. *)
  gzip_NewReader : string -> option string;
  (** [xml.NewDecoder(reader).Decode(&updateInfo)]. *)
  xml_Decode_UpdateInfo : string -> UpdateInfo * option error;
  (** [fmt.Sprintf(format, arg)] with one string operand. *)
  Sprintf : string -> string -> string
}.

(** [regexp.MustCompile(`^ALAS2-(.+)$`).FindStringSubmatch(id)]: the
    first group when the identifier matches.  [.] matches every
    character but a newline and [$] only the end of the text, so the
    identifier matches when a non-empty, newline-free text follows the
    prefix. *)
Fixpoint hasNewline (s : string) : bool :=
  match s with
  | EmptyString => false
  | String c r => Ascii.eqb c "010"%char || hasNewline r
  end.

Definition FindStringSubmatch_ALAS2 (id : string) : option string :=
  if String.prefix "ALAS2-" id then
    let rest := String.substring 6 (String.length id - 6) id in
    if String.eqb rest "" || hasNewline rest then None else Some rest
  else None.

(** [strings.TrimSpace]: leading and trailing white space as defined by
    Unicode is removed.  The white-space code points and their UTF-8
    encodings are U+0009..U+000D and U+0020 (one byte), U+0085 and
    U+00A0 (C2 85, C2 A0), U+1680 (E1 9A 80), U+2000..U+200A, U+2028,
    U+2029, U+202F (E2 80 80..8A, A8, A9, AF), U+205F (E2 81 9F) and
    U+3000 (E3 80 80). *)
Definition asciiSpace (c : ascii) : bool :=
  let n := N_of_ascii c in
  ((9 <=? n) && (n <=? 13) || (n =? 32))%N.

Definition isSpace2 (c1 c2 : ascii) : bool :=
  let n1 := N_of_ascii c1 in
  let n2 := N_of_ascii c2 in
  ((n1 =? 194) && ((n2 =? 133) || (n2 =? 160)))%N.

Definition isSpace3 (c1 c2 c3 : ascii) : bool :=
  let n1 := N_of_ascii c1 in
  let n2 := N_of_ascii c2 in
  let n3 := N_of_ascii c3 in
  ((n1 =? 225) && (n2 =? 154) && (n3 =? 128)
   || (n1 =? 226) && (n2 =? 128)
      && ((128 <=? n3) && (n3 <=? 138) || (n3 =? 168) || (n3 =? 169) || (n3 =? 175))
   || (n1 =? 226) && (n2 =? 129) && (n3 =? 159)
   || (n1 =? 227) && (n2 =? 128) && (n3 =? 128))%N.

(** Leading white space: runes are decoded from the front. *)
Fixpoint trimLeft (s : list ascii) : list ascii :=
  match s with
  | [] => s
  | c1 :: r1 =>
    if asciiSpace c1 then trimLeft r1
    else
      match r1 with
      | [] => s
      | c2 :: r2 =>
        if isSpace2 c1 c2 then trimLeft r2
        else
          match r2 with
          | [] => s
          | c3 :: r3 => if isSpace3 c1 c2 c3 then trimLeft r3 else s
          end
      end
  end.

(** Trailing white space: runes are decoded from the back, so on the
    reversed string the bytes of an encoding come last byte first. *)
Fixpoint trimLeftRev (s : list ascii) : list ascii :=
  match s with
  | [] => s
  | c1 :: r1 =>
    if asciiSpace c1 then trimLeftRev r1
    else
      match r1 with
      | [] => s
      | c2 :: r2 =>
        if isSpace2 c2 c1 then trimLeftRev r2
        else
          match r2 with
          | [] => s
          | c3 :: r3 => if isSpace3 c3 c2 c1 then trimLeftRev r3 else s
          end
      end
  end.

Definition trimSpace (s : list ascii) : list ascii :=
  rev (trimLeftRev (rev (trimLeft s))).

Definition TrimSpace (s : string) : string :=
  string_of_list_ascii (trimSpace (list_ascii_of_string s)).

(** [regexp.MustCompile(`\s+`).ReplaceAllString(s, " ")]: the class [\s]
    of the regexp package is tab, newline, form feed, carriage return and
    space; every maximal run of such bytes is replaced by one space.
    [inRun] tells that the byte before belongs to a run already
    replaced. *)
Definition reSpace (c : ascii) : bool :=
  let n := N_of_ascii c in
  ((n =? 9) || (n =? 10) || (n =? 12) || (n =? 13) || (n =? 32))%N.

Fixpoint replaceRuns (inRun : bool) (s : list ascii) : list ascii :=
  match s with
  | [] => []
  | c :: r =>
    if reSpace c then
      if inRun then replaceRuns true r else " "%char :: replaceRuns true r
    else c :: replaceRuns false r
  end.

Definition ReplaceAllString_space (s : string) : string :=
  string_of_list_ascii (replaceRuns false (list_ascii_of_string s)).

Section Updater.

Context {vf : Versionfmt} {http : Httputil} {calls : Stdlib_calls}.

Definition alasToName (u : updater) (alas : ALAS) : string := Id alas.

(** Indexing the nil slice that [FindStringSubmatch] returns for an
    identifier that does not match panics. *)
Definition alasToLink (u : updater) (alas : ALAS) : outcome string :=
  if String.eqb (Name u) amazonLinux1Name then
    Returns (Sprintf (LinkFormat u) (Id alas))
  else if String.eqb (Name u) amazonLinux2Name then
    match FindStringSubmatch_ALAS2 (Id alas) with
    | Some group1 => Returns (Sprintf (LinkFormat u) ("ALAS-" +:+ group1))
    | None => Panics
    end
  else Returns "".

Definition alasToSeverity (u : updater) (alas : ALAS) : Database.Severity :=
  if String.eqb (Severity alas) "low" then Database.LowSeverity
  else if String.eqb (Severity alas) "medium" then Database.MediumSeverity
  else if String.eqb (Severity alas) "important" then Database.HighSeverity
  else if String.eqb (Severity alas) "critical" then Database.CriticalSeverity
  else Database.UnknownSeverity.

Definition alasToDescription (u : updater) (alas : ALAS) : string :=
  ReplaceAllString_space (TrimSpace (Description alas)).

(** The body of the loop over [alas.Packages]; [continue] leaves the
    slice as it is. *)
Definition featureVersionStep (u : updater)
    (featureVersions : list Database.AffectedFeature) (p : Package)
  : list Database.AffectedFeature :=
  let version :=
    if String.eqb (Epoch p) "0"
    then Version p +:+ "-" +:+ Release p
    else Epoch p +:+ ":" +:+ Version p +:+ "-" +:+ Release p in
  if negb (Valid rpm_ParserName version) then featureVersions
  else
    let featureVersion := {|
      Database.AfNamespace := {|
        Database.NsName := Namespace u;
        Database.VersionFormat := rpm_ParserName |};
      Database.FeatureName := PkgName p;
      Database.AffectedVersion := version;
      Database.FeatureType_ := Database.BinaryPackage;
      Database.FixedInVersion :=
        if negb (String.eqb version MaxVersion) then version else "" |} in
    (featureVersions ++ [featureVersion])%list.

Definition alasToFeatureVersions (u : updater) (alas : ALAS)
  : list Database.AffectedFeature :=
  fold_left (featureVersionStep u) (Packages alas) [].

Fixpoint alasListToVulnerabilities_loop (u : updater) (alasList : list ALAS)
    (vulnerabilities : list Database.VulnerabilityWithAffected)
  : outcome (list Database.VulnerabilityWithAffected) :=
  match alasList with
  | [] => Returns vulnerabilities
  | alas :: rest =>
    let featureVersions := alasToFeatureVersions u alas in
    if (0 <? Z.of_nat (length featureVersions))%Z then
      link ← alasToLink u alas;
      let vulnerability := {|
        Database.Vuln := {|
          Database.Name := alasToName u alas;
          Database.Link := link;
          Database.Severity_ := alasToSeverity u alas;
          Database.Description := alasToDescription u alas |};
        Database.Affected := featureVersions |} in
      alasListToVulnerabilities_loop u rest (vulnerabilities ++ [vulnerability])%list
    else alasListToVulnerabilities_loop u rest vulnerabilities
  end.

Definition alasListToVulnerabilities (u : updater) (alasList : list ALAS)
  : outcome (list Database.VulnerabilityWithAffected) :=
  alasListToVulnerabilities_loop u alasList [].

Definition compareTimestamp (date0 date1 : string) : Z :=
  if String.ltb date0 date1 then -1
  else if String.ltb date1 date0 then 1
  else 0.

(** The loop over [repoMd.RepoList], left at the first entry of type
    updateinfo. *)
Fixpoint findUpdateInfoURI (mirrorURI : string) (repoList : list Repo)
    (updateInfoURI : string) : string :=
  match repoList with
  | [] => updateInfoURI
  | repo :: rest =>
    if String.eqb (Type_ repo) "updateinfo"
    then mirrorURI +:+ "/" +:+ Href (Location_ repo)
    else findUpdateInfoURI mirrorURI rest updateInfoURI
  end.

Definition getUpdateInfoURI (u : updater) : string * option error :=
  match GetWithUserAgent (MirrorListURI u) with
  | None => ("", Some ErrCouldNotDownload)
  | Some mirrorListResponse =>
    if negb (Status2xx mirrorListResponse) then ("", Some ErrCouldNotDownload)
    else
      let mirrorURI := scanFirstLine (Body mirrorListResponse) in
      let repoMdURI := mirrorURI +:+ "/repodata/repomd.xml" in
      match GetWithUserAgent repoMdURI with
      | None => ("", Some ErrCouldNotDownload)
      | Some repoMdResponse =>
        if negb (Status2xx repoMdResponse) then ("", Some ErrCouldNotDownload)
        else
          match xml_Decode_RepoMd (Body repoMdResponse) with
          | (_, Some _) => ("", Some ErrCouldNotDownload)
          | (repoMd, None) =>
            let updateInfoURI := findUpdateInfoURI mirrorURI (RepoList repoMd) "" in
            if String.eqb updateInfoURI "" then ("", Some ErrCouldNotDownload)
            else (updateInfoURI, None)
          end
      end
  end.

Definition decodeUpdateInfo (updateInfoReader : string) : UpdateInfo * option error :=
  match xml_Decode_UpdateInfo updateInfoReader with
  | (updateInfo, Some err) => (updateInfo, Some err)
  | (updateInfo, None) => (updateInfo, None)
  end.

Definition getUpdateInfo (u : updater) : UpdateInfo * option error :=
  match getUpdateInfoURI u with
  | (_, Some err) => ({| ALASList := [] |}, Some err)
  | (updateInfoURI, None) =>
    match GetWithUserAgent updateInfoURI with
    | None => ({| ALASList := [] |}, Some ErrCouldNotDownload)
    | Some updateInfoResponse =>
      if negb (Status2xx updateInfoResponse)
      then ({| ALASList := [] |}, Some ErrCouldNotDownload)
      else
        match gzip_NewReader (Body updateInfoResponse) with
        | None => ({| ALASList := [] |}, Some ErrCouldNotParse)
        | Some updateInfoXml =>
          match decodeUpdateInfo updateInfoXml with
          | (_, Some _) => ({| ALASList := [] |}, Some ErrCouldNotParse)
          | (updateInfo, None) => (updateInfo, None)
          end
        end
    end
  end.

(** The body of the loop of [Update] that keeps the advisories issued
    or updated since the previous update, on the pair of [alasList] and
    [timestamp]. *)
Definition selectStep (flagValue : string) (st : list ALAS * string) (alas : ALAS)
  : list ALAS * string :=
  let '(alasList, timestamp) := st in
  if (compareTimestamp (Date (Updated_ alas)) flagValue >? 0)%Z then
    ((alasList ++ [alas])%list,
     if (compareTimestamp (Date (Updated_ alas)) timestamp >? 0)%Z
     then Date (Updated_ alas) else timestamp)
  else (alasList, timestamp).

Definition Update (u : updater) (datastore : Datastore)
  : outcome (Vulnsrc.UpdateResponse * option error) :=
  match FindKeyValueAndRollback datastore (UpdaterFlag u) with
  | (_, _, Some err) => Returns (Vulnsrc.emptyResponse, Some err)
  | (flagValue, found, None) =>
    let flagValue := if negb found then "" else flagValue in
    match getUpdateInfo u with
    | (_, Some err) => Returns (Vulnsrc.emptyResponse, Some err)
    | (updateInfo, None) =>
      let '(alasList, timestamp) :=
        fold_left (selectStep flagValue) (ALASList updateInfo) ([], "") in
      vulnerabilities ← alasListToVulnerabilities u alasList;
      let response := {|
        Vulnsrc.Vulnerabilities := vulnerabilities;
        Vulnsrc.FlagName := if negb (String.eqb timestamp "") then UpdaterFlag u else "";
        Vulnsrc.FlagValue := if negb (String.eqb timestamp "") then timestamp else "";
        Vulnsrc.Notes := [] |} in
      Returns (response, None)
    end
  end.

End Updater.

(** The two updaters registered by [init], with the default mirrors. *)
Definition amazonLinux1Updater : updater := {|
  UpdaterFlag := amazonLinux1UpdaterFlag;
  MirrorListURI := "http://repo.us-west-2.amazonaws.com/2018.03/updates/x86_64/mirror.list";
  Name := amazonLinux1Name;
  Namespace := amazonLinux1Namespace;
  LinkFormat := amazonLinux1LinkFormat |}.

Definition amazonLinux2Updater : updater := {|
  UpdaterFlag := amazonLinux2UpdaterFlag;
  MirrorListURI := "https://cdn.amazonlinux.com/2/core/latest/x86_64/mirror.list";
  Name := amazonLinux2Name;
  Namespace := amazonLinux2Namespace;
  LinkFormat := amazonLinux2LinkFormat |}.

End Amzn.

(** ** Package [debian] *)

Module Debian.

Definition updaterFlag := "debianUpdater".
Definition affectedType := Database.SourcePackage.

(** The decoded document.  Go ranges over a map in an unspecified order:
    a map is given by the list of its entries in the order in which the
    [range] statement of [parseDebianJSON] visits them, and what is
    proved below holds for every such order. *)
Record jsonRel : Type := {
  FixedVersion : string;
  Status : string;
  Urgency : string
}.

Record jsonVuln : Type := {
  Description : string;
  Releases : list (string * jsonRel)
}.

Definition jsonData : Type := list (string * list (string * jsonVuln)).

(** What the package takes from its surroundings: the two package
    variables that the environment may override, the release table of
    package [database], and the JSON decoder.  The decoder reads through
    a [TeeReader]: it returns the bytes it has read, which are the bytes
    written to the digest, then the value and the error of [Decode]. *)
Class Surroundings : Type := {
  url : string;
  cveURLPrefix : string;
  DebianReleasesMapping : gmap string string;
  json_Decode : string -> string * (jsonData * option error)
}.

(** [SeverityFromUrgency] converts the urgency scale used by the Debian
    Security Bug Tracker into a [database.Severity]. *)
Definition SeverityFromUrgency (urgency : string) : Database.Severity :=
  if String.eqb urgency "not yet assigned" then Database.UnknownSeverity
  else if String.eqb urgency "end-of-life" || String.eqb urgency "unimportant"
  then Database.NegligibleSeverity
  else if String.eqb urgency "low" || String.eqb urgency "low*"
          || String.eqb urgency "low**"
  then Database.LowSeverity
  else if String.eqb urgency "medium" || String.eqb urgency "medium*"
          || String.eqb urgency "medium**"
  then Database.MediumSeverity
  else if String.eqb urgency "high" || String.eqb urgency "high*"
          || String.eqb urgency "high**"
  then Database.HighSeverity
  else Database.UnknownSeverity.

Definition setSeverity (severity : Database.Severity)
    (v : Database.VulnerabilityWithAffected) : Database.VulnerabilityWithAffected :=
  {| Database.Vuln := {|
       Database.Name := Database.Name (Database.Vuln v);
       Database.Link := Database.Link (Database.Vuln v);
       Database.Severity_ := severity;
       Database.Description := Database.Description (Database.Vuln v) |};
     Database.Affected := Database.Affected v |}.

Definition appendAffected (pkg : Database.AffectedFeature)
    (v : Database.VulnerabilityWithAffected) : Database.VulnerabilityWithAffected :=
  {| Database.Vuln := Database.Vuln v;
     Database.Affected := (Database.Affected v ++ [pkg])%list |}.

Section Updater.

Context {vf : Versionfmt} {http : Httputil} {env : Surroundings}.

(** The state of the loops of [parseDebianJSON]: the map
    [mvulnerabilities] and the set [unknownReleases].  The map holds
    pointers, and an advisory name is only ever bound to the one
    structure created for it; the map from names to structures is
    that store, written through at once when a structure that is
    already in the map is assigned to. *)
Definition parseState : Type :=
  gmap string Database.VulnerabilityWithAffected * gset string.

(** The body of the innermost loop, for one release of one advisory of
    one package.  Every [continue] returns the state reached so far. *)
Definition releaseStep (pkgName vulnName : string) (vulnNode : jsonVuln)
    (st : parseState) (entry : string * jsonRel) : parseState :=
  let '(mvulnerabilities, unknownReleases) := st in
  let '(releaseName, releaseNode) := entry in
  match DebianReleasesMapping !! releaseName with
  | None => (mvulnerabilities, {[releaseName]} ∪ unknownReleases)
  | Some release =>
    if negb (String.prefix "CVE-" vulnName)
       || String.eqb (Status releaseNode) "undetermined"
    then (mvulnerabilities, unknownReleases)
    else
      let '(vulnerability, vulnerabilityAlreadyExists) :=
        match mvulnerabilities !! vulnName with
        | Some v => (v, true)
        | None =>
          ({| Database.Vuln := {|
                Database.Name := vulnName;
                Database.Link := cveURLPrefix +:+ "/" +:+ vulnName;
                Database.Severity_ := Database.UnknownSeverity;
                Database.Description := Description vulnNode |};
              Database.Affected := [] |}, false)
        end in
      let severity := SeverityFromUrgency (Urgency releaseNode) in
      let vulnerability :=
        if (Database.Compare severity (Database.Severity_ (Database.Vuln vulnerability)) >? 0)%Z
        then setSeverity severity vulnerability
        else vulnerability in
      let mvulnerabilities :=
        if vulnerabilityAlreadyExists
        then <[vulnName := vulnerability]> mvulnerabilities
        else mvulnerabilities in
      let version : option string :=
        if String.eqb (Status releaseNode) "open" then Some MaxVersion
        else if String.eqb (Status releaseNode) "resolved" then
          if negb (Valid dpkg_ParserName (FixedVersion releaseNode)) then None
          else if negb (String.eqb (FixedVersion releaseNode) "0")
               then Some (FixedVersion releaseNode)
               else Some ""
        else Some "" in
      match version with
      | None => (mvulnerabilities, unknownReleases)
      | Some version =>
        if String.eqb version "" then (mvulnerabilities, unknownReleases)
        else
          let fixedInVersion :=
            if negb (String.eqb version MaxVersion) then version else "" in
          let pkg := {|
            Database.FeatureType_ := affectedType;
            Database.FeatureName := pkgName;
            Database.AffectedVersion := version;
            Database.FixedInVersion := fixedInVersion;
            Database.AfNamespace := {|
              Database.NsName := "debian:" +:+ release;
              Database.VersionFormat := dpkg_ParserName |} |} in
          let vulnerability := appendAffected pkg vulnerability in
          (<[vulnName := vulnerability]> mvulnerabilities, unknownReleases)
      end
  end.

Definition vulnStep (pkgName : string) (st : parseState)
    (entry : string * jsonVuln) : parseState :=
  let '(vulnName, vulnNode) := entry in
  fold_left (releaseStep pkgName vulnName vulnNode) (Releases vulnNode) st.

Definition pkgStep (st : parseState)
    (entry : string * list (string * jsonVuln)) : parseState :=
  let '(pkgName, pkgNode) := entry in
  fold_left (vulnStep pkgName) pkgNode st.

(** The vulnerabilities map is converted to a slice by ranging over it;
    the order of the slice is as unspecified as that of the range. *)
Definition parseDebianJSON (data : jsonData)
  : list Database.VulnerabilityWithAffected * gset string :=
  let '(mvulnerabilities, unknownReleases) := fold_left pkgStep data (∅, ∅) in
  ((map_to_list mvulnerabilities).*2, unknownReleases).

(** The deferred function of [buildResponse]. *)
Definition addFlag (hash : string) (r : Vulnsrc.UpdateResponse * option error)
  : Vulnsrc.UpdateResponse * option error :=
  match r with
  | (resp, None) =>
    ({| Vulnsrc.FlagName := updaterFlag;
        Vulnsrc.FlagValue := hash;
        Vulnsrc.Notes := Vulnsrc.Notes resp;
        Vulnsrc.Vulnerabilities := Vulnsrc.Vulnerabilities resp |}, None)
  | (resp, Some err) => (resp, Some err)
  end.

Definition unknownReleaseNote (k : string) : string :=
  "Debian " +:+ k
  +:+ " is not mapped to any version number (eg. Jessie->8). Please update me.".

Definition buildResponse (jsonReader : string) (latestKnownHash : string)
  : Vulnsrc.UpdateResponse * option error :=
  let hash := latestKnownHash in
  let '(teed, (data, err)) := json_Decode jsonReader in
  match err with
  | Some _ => addFlag hash (Vulnsrc.emptyResponse, Some ErrCouldNotParse)
  | None =>
    let hash := Sha256.EncodeToString (Sha256.Sum teed) in
    if String.eqb latestKnownHash hash then addFlag hash (Vulnsrc.emptyResponse, None)
    else
      let '(vulnerabilities, unknownReleases) := parseDebianJSON data in
      let resp := {|
        Vulnsrc.FlagName := "";
        Vulnsrc.FlagValue := "";
        Vulnsrc.Notes := unknownReleaseNote <$> elements unknownReleases;
        Vulnsrc.Vulnerabilities := vulnerabilities |} in
      addFlag hash (resp, None)
  end.

Definition Update (datastore : Datastore) : Vulnsrc.UpdateResponse * option error :=
  match FindKeyValueAndRollback datastore updaterFlag with
  | (_, _, Some err) => (Vulnsrc.emptyResponse, Some err)
  | (latestHash, ok, None) =>
    let latestHash := if negb ok then "" else latestHash in
    match GetWithUserAgent url with
    | None => (Vulnsrc.emptyResponse, Some ErrCouldNotDownload)
    | Some r =>
      if negb (Status2xx r) then (Vulnsrc.emptyResponse, Some ErrCouldNotDownload)
      else
        match buildResponse (Body r) latestHash with
        | (resp, Some err) => (resp, Some err)
        | (resp, None) => (resp, None)
        end
    end
  end.

End Updater.

End Debian.

(** ** Notions used to state the facts about the Amazon updater *)

Module AmznSpec.

Import Amzn.

(** The test of the loop: the advisory was issued or updated after the
    watermark. *)
Definition isNew (flagValue : string) (alas : ALAS) : bool :=
  (compareTimestamp (Date (Updated_ alas)) flagValue >? 0)%Z.

(** A string that begins with the encoding of a white-space character,
    and a reversed string whose original ends with one. *)
Definition startsWithSpace (s : list ascii) : bool :=
  match s with
  | c1 :: r1 =>
    asciiSpace c1
    || match r1 with
       | c2 :: r2 =>
         isSpace2 c1 c2
         || match r2 with
            | c3 :: _ => isSpace3 c1 c2 c3
            | [] => false
            end
       | [] => false
       end
  | [] => false
  end.

Definition startsWithSpaceRev (s : list ascii) : bool :=
  match s with
  | c1 :: r1 =>
    asciiSpace c1
    || match r1 with
       | c2 :: r2 =>
         isSpace2 c2 c1
         || match r2 with
            | c3 :: _ => isSpace3 c3 c2 c1
            | [] => false
            end
       | [] => false
       end
  | [] => false
  end.

Definition endsWithSpace (s : list ascii) : bool := startsWithSpaceRev (rev s).

(** Every byte of the class [\s] is a space, and no space follows a space;
    [afterSpace] tells that the byte before is a space. *)
Fixpoint singleSpaced (afterSpace : bool) (s : list ascii) : bool :=
  match s with
  | [] => true
  | c :: r =>
    if reSpace c
    then Ascii.eqb c " "%char && negb afterSpace && singleSpaced true r
    else singleSpaced false r
  end.

(** Whether a run of [\s] bytes is open at the end of a string that is
    read after a byte in a run ([inRun]), and whether one opens a string. *)
Definition endsInRun (inRun : bool) (s : list ascii) : bool :=
  fold_left (fun _ c => reSpace c) s inRun.

Definition beginsRun (s : list ascii) : bool :=
  match s with
  | c :: _ => reSpace c
  | [] => false
  end.

(** A description is normalised when it neither begins nor ends with white
    space and its runs of [\s] bytes are single spaces. *)
Definition normalised (description : string) : Prop :=
  startsWithSpace (list_ascii_of_string description) = false
  /\ endsWithSpace (list_ascii_of_string description) = false
  /\ singleSpaced false (list_ascii_of_string description) = true.

Section Canonical.

Context {vf : Versionfmt} {http : Httputil} {calls : Stdlib_calls}.

(** The version string that the loop of [alasToFeatureVersions] builds
    for a package. *)
Definition packageVersion (p : Package) : string :=
  if String.eqb (Epoch p) "0"
  then Version p +:+ "-" +:+ Release p
  else Epoch p +:+ ":" +:+ Version p +:+ "-" +:+ Release p.

(** The feature it appends for a package whose version is valid. *)
Definition packageFeature (u : updater) (p : Package) : Database.AffectedFeature := {|
  Database.AfNamespace := {|
    Database.NsName := Namespace u;
    Database.VersionFormat := rpm_ParserName |};
  Database.FeatureName := PkgName p;
  Database.AffectedVersion := packageVersion p;
  Database.FeatureType_ := Database.BinaryPackage;
  Database.FixedInVersion :=
    if negb (String.eqb (packageVersion p) MaxVersion) then packageVersion p else "" |}.

Definition validPackage (p : Package) : bool :=
  Valid rpm_ParserName (packageVersion p).

(** The test of [alasListToVulnerabilities]: the advisory has a feature. *)
Definition hasFeatures (u : updater) (alas : ALAS) : bool :=
  (0 <? Z.of_nat (length (alasToFeatureVersions u alas)))%Z.

(** A vulnerability as [alasListToVulnerabilities] builds it from an
    advisory. *)
Definition builtFrom (u : updater) (alas : ALAS)
    (v : Database.VulnerabilityWithAffected) : Prop :=
  Database.Name (Database.Vuln v) = Id alas
  /\ alasToLink u alas = Returns (Database.Link (Database.Vuln v))
  /\ Database.Severity_ (Database.Vuln v) = alasToSeverity u alas
  /\ Database.Description (Database.Vuln v) = alasToDescription u alas
  /\ Database.Affected v = alasToFeatureVersions u alas
  /\ alasToFeatureVersions u alas <> [].

End Canonical.

End AmznSpec.

(** ** Notions used to state the facts about the Debian updater *)

Module DebianSpec.

Import Debian.

(** A (package, advisory, release) triple of the document, with the
    nodes the loops hold when they reach it. *)
Record triple : Type := {
  tPkgName : string;
  tVulnName : string;
  tVulnNode : jsonVuln;
  tReleaseName : string;
  tReleaseNode : jsonRel
}.

(** The triples of a document, in the order in which the three nested
    loops visit them. *)
Definition triples (data : jsonData) : list triple :=
  flat_map (fun pkgEntry : string * list (string * jsonVuln) =>
    flat_map (fun vulnEntry : string * jsonVuln =>
      map (fun relEntry : string * jsonRel => {|
             tPkgName := fst pkgEntry;
             tVulnName := fst vulnEntry;
             tVulnNode := snd vulnEntry;
             tReleaseName := fst relEntry;
             tReleaseNode := snd relEntry |})
          (Releases (snd vulnEntry)))
      (snd pkgEntry))
    data.

(** The [Affected] list an advisory name is bound to, empty when the name
    is not bound. *)
Definition affectedOf (m : gmap string Database.VulnerabilityWithAffected)
    (vulnName : string) : list Database.AffectedFeature :=
  match m !! vulnName with
  | Some v => Database.Affected v
  | None => []
  end.

Section Canonical.

Context {vf : Versionfmt} {http : Httputil} {env : Surroundings}.

(** The loop body on a triple. *)
Definition tripleStep (st : parseState) (t : triple) : parseState :=
  releaseStep (tPkgName t) (tVulnName t) (tVulnNode t) st
              (tReleaseName t, tReleaseNode t).

(** The features a triple produces: what the loop body binds to its
    advisory when it runs on the empty state. *)
Definition produced (t : triple) : list Database.AffectedFeature :=
  affectedOf (fst (tripleStep (∅, ∅) t)) (tVulnName t).

(** The structure the loop body creates for an advisory name that is not
    bound yet. *)
Definition newVulnerability (t : triple) : Database.VulnerabilityWithAffected := {|
  Database.Vuln := {|
    Database.Name := tVulnName t;
    Database.Link := cveURLPrefix +:+ "/" +:+ tVulnName t;
    Database.Severity_ := Database.UnknownSeverity;
    Database.Description := Description (tVulnNode t) |};
  Database.Affected := [] |}.

(** The loops over a document, as one loop over its triples. *)
Definition parseTriples (ts : list triple) : parseState :=
  fold_left tripleStep ts (∅, ∅).

(** The invariant of the vulnerabilities map: a name is bound to a
    structure of that name with at least one feature. *)
Definition wellFormed (m : gmap string Database.VulnerabilityWithAffected) : Prop :=
  forall n v, m !! n = Some v ->
    Database.Name (Database.Vuln v) = n /\ Database.Affected v <> [].

(** A "resolved" triple whose fixed version is the string 0. *)
Definition resolved0 (t : triple) : bool :=
  String.eqb (Status (tReleaseNode t)) "resolved"
  && String.eqb (FixedVersion (tReleaseNode t)) "0".

(** The severity an advisory name is bound to. *)
Definition severityOf (m : gmap string Database.VulnerabilityWithAffected)
    (vulnName : string) : option Database.Severity :=
  (fun v => Database.Severity_ (Database.Vuln v)) <$> m !! vulnName.

(** The feature the loop body builds for a package, a mapped release and
    a version. *)
Definition releaseFeature (pkgName release version : string) : Database.AffectedFeature := {|
  Database.FeatureType_ := affectedType;
  Database.FeatureName := pkgName;
  Database.AffectedVersion := version;
  Database.FixedInVersion := if negb (String.eqb version MaxVersion) then version else "";
  Database.AfNamespace := {|
    Database.NsName := "debian:" +:+ release;
    Database.VersionFormat := dpkg_ParserName |} |}.

(** The version the loop body determines for a release: [MaxVersion] for
    an open release, the fixed version for a resolved release whose fixed
    version is valid and is not the string 0. *)
Definition releaseVersion (releaseNode : jsonRel) (version : string) : Prop :=
  (Status releaseNode = "open" /\ version = MaxVersion)
  \/ (Status releaseNode = "resolved"
      /\ Valid dpkg_ParserName (FixedVersion releaseNode) = true
      /\ FixedVersion releaseNode <> "0"
      /\ version = FixedVersion releaseNode).

(** What the loop body reads of a triple: of the advisory node it only
    takes the description. *)
Definition tripleKey (t : triple) : string * string * string * string * jsonRel :=
  (tPkgName t, tVulnName t, Description (tVulnNode t), tReleaseName t, tReleaseNode t).

(** The features the triples of a list produce for an advisory name. *)
Definition producedFor (vulnName : string) (ts : list triple)
  : list Database.AffectedFeature :=
  flat_map (fun t => if decide (vulnName = tVulnName t) then produced t else []) ts.

End Canonical.

End DebianSpec.

(** ** Fixtures: concrete surroundings on which the updaters are run *)

Module Fixtures.

(** A version oracle that rejects only the empty version. *)
Definition versionfmt : Versionfmt := {|
  Valid := fun _ version => negb (String.eqb version "");
  MaxVersion := "#MAXV#";
  rpm_ParserName := "rpm";
  dpkg_ParserName := "dpkg" |}.

(** [fmt.Sprintf] on a format whose only verb is one [%s]. *)
Fixpoint sprintf (format arg : string) : string :=
  match format with
  | String "%" (String "s" rest) => arg +:+ rest
  | String c rest => String c (sprintf rest arg)
  | EmptyString => EmptyString
  end.

Definition ok (body : string) : Response := {| StatusCode := 200; Body := body |}.

(** A mirror whose three documents are fetched with status 200, and
    decoders under which the update-info document decodes to
    [updateInfo]. *)
Definition mirrorHttp : Httputil := {|
  GetWithUserAgent := fun uri =>
    if String.eqb uri (Amzn.MirrorListURI Amzn.amazonLinux1Updater)
       || String.eqb uri (Amzn.MirrorListURI Amzn.amazonLinux2Updater)
    then Some (ok "http://mirror")
    else if String.eqb uri "http://mirror/repodata/repomd.xml" then Some (ok "<repomd/>")
    else if String.eqb uri "http://mirror/repodata/updateinfo.xml.gz" then Some (ok "gz")
    else None |}.

Definition repoMd : Amzn.RepoMd := {|
  Amzn.RepoList := [
    {| Amzn.Type_ := "primary";
       Amzn.Location_ := {| Amzn.Href := "repodata/primary.xml.gz" |} |};
    {| Amzn.Type_ := "updateinfo";
       Amzn.Location_ := {| Amzn.Href := "repodata/updateinfo.xml.gz" |} |}] |}.

Definition mirrorCalls (updateInfo : Amzn.UpdateInfo) : Amzn.Stdlib_calls := {|
  Amzn.scanFirstLine := fun body => body;
  Amzn.xml_Decode_RepoMd := fun _ => (repoMd, None);
  Amzn.gzip_NewReader := fun body => Some body;
  Amzn.xml_Decode_UpdateInfo := fun _ => (updateInfo, None);
  Amzn.Sprintf := sprintf |}.

(** A datastore without any key, and one that holds a watermark. *)
Definition emptyDatastore : Datastore := fun _ => ("", false, None).
Definition datastoreWith (value : string) : Datastore := fun _ => (value, true, None).

Definition foo : Amzn.Package := {|
  Amzn.PkgName := "foo"; Amzn.Epoch := "0"; Amzn.Version := "1.2"; Amzn.Release := "3" |}.

Definition bar : Amzn.Package := {|
  Amzn.PkgName := "bar"; Amzn.Epoch := "2"; Amzn.Version := "1.2"; Amzn.Release := "3" |}.

Definition alas1 : Amzn.ALAS := {|
  Amzn.Id := "ALAS-2020-1";
  Amzn.Updated_ := {| Amzn.Date := "2020-01-01 00:00" |};
  Amzn.Severity := "important";
  Amzn.Description := "  A flaw" +:+ String "010" (String "009" "in  foo. ");
  Amzn.Packages := [foo; bar] |}.

(** An advisory without any package. *)
Definition alas2 : Amzn.ALAS := {|
  Amzn.Id := "ALAS-2020-2";
  Amzn.Updated_ := {| Amzn.Date := "2020-02-01 00:00" |};
  Amzn.Severity := "low";
  Amzn.Description := "";
  Amzn.Packages := [] |}.

Definition alas0 : Amzn.ALAS := {|
  Amzn.Id := "ALAS-2019-9";
  Amzn.Updated_ := {| Amzn.Date := "2019-12-31 23:59" |};
  Amzn.Severity := "critical";
  Amzn.Description := "old";
  Amzn.Packages := [foo] |}.

(** The document of three advisories, and the response of the first
    updater on it when the stored watermark is the date of the oldest. *)
Definition threeAdvisories : Amzn.UpdateInfo := {| Amzn.ALASList := [alas0; alas1; alas2] |}.

Definition responseOf (r : outcome (Vulnsrc.UpdateResponse * option error))
  : Vulnsrc.UpdateResponse :=
  match r with
  | Returns (resp, _) => resp
  | Panics => Vulnsrc.emptyResponse
  end.

Definition responseAfter2019 : Vulnsrc.UpdateResponse :=
  Eval vm_compute in
    responseOf (Amzn.Update (vf := versionfmt) (http := mirrorHttp)
                  (calls := mirrorCalls threeAdvisories)
                  Amzn.amazonLinux1Updater (datastoreWith "2019-12-31 23:59")).

(** The release table, with two names for release 10. *)
Definition releases : gmap string string :=
  list_to_map [("jessie", "8"); ("stretch", "9"); ("buster", "10"); ("stable", "10")].

(** A decoder that knows the documents of [documents] and fails on every
    other one; it reads a document to its end. *)
Definition decoder (documents : list (string * Debian.jsonData)) (body : string)
  : string * (Debian.jsonData * option error) :=
  match list_find (fun d : string * Debian.jsonData => String.eqb (fst d) body = true) documents with
  | Some (_, d) => (body, (snd d, None))
  | None => (body, ([], Some (ErrOther "invalid character")))
  end.

Definition surroundings (documents : list (string * Debian.jsonData)) : Debian.Surroundings := {|
  Debian.url := "https://security-tracker.debian.org/tracker/data/json";
  Debian.cveURLPrefix := "https://security-tracker.debian.org/tracker";
  Debian.DebianReleasesMapping := releases;
  Debian.json_Decode := decoder documents |}.

Definition trackerHttp (body : string) : Httputil := {|
  GetWithUserAgent := fun uri =>
    if String.eqb uri "https://security-tracker.debian.org/tracker/data/json"
    then Some (ok body) else None |}.

Definition rel (status fixed urgency : string) : Debian.jsonRel := {|
  Debian.FixedVersion := fixed; Debian.Status := status; Debian.Urgency := urgency |}.

(** One advisory of one package with two releases, as the loop meets it
    when it visits the open release first, and when it visits the resolved
    release first. *)
Definition releasesOpenFirst : list (string * Debian.jsonRel) :=
  [("jessie", rel "open" "" "low"); ("stretch", rel "resolved" "0" "high")].

Definition releasesResolvedFirst : list (string * Debian.jsonRel) :=
  [("stretch", rel "resolved" "0" "high"); ("jessie", rel "open" "" "low")].

Definition document (releases : list (string * Debian.jsonRel)) : Debian.jsonData :=
  [("a", [("CVE-1", {| Debian.Description := "x  y "; Debian.Releases := releases |})])].

(** The tracker serves a body that decodes to the document visited open
    release first; the response of the Debian updater on it. *)
Definition trackerBody : string := "{...}".

Definition trackerSurroundings : Debian.Surroundings :=
  surroundings [(trackerBody, document releasesOpenFirst)].

Definition debianResponse : Vulnsrc.UpdateResponse :=
  Eval vm_compute in
    fst (Debian.Update (vf := versionfmt) (http := trackerHttp trackerBody)
           (env := trackerSurroundings) emptyDatastore).

Definition debianVulnerability : Database.VulnerabilityWithAffected :=
  Eval vm_compute in
    hd {| Database.Vuln := {| Database.Name := ""; Database.Link := "";
                              Database.Severity_ := Database.UnknownSeverity;
                              Database.Description := "" |};
          Database.Affected := [] |}
       (Vulnsrc.Vulnerabilities debianResponse).

Definition amznVulnerability : Database.VulnerabilityWithAffected :=
  Eval vm_compute in
    hd {| Database.Vuln := {| Database.Name := ""; Database.Link := "";
                              Database.Severity_ := Database.UnknownSeverity;
                              Database.Description := "" |};
          Database.Affected := [] |}
       (Vulnsrc.Vulnerabilities responseAfter2019).

(** Decoders under which the repository metadata does not decode. *)
Definition brokenRepoMdCalls : Amzn.Stdlib_calls := {|
  Amzn.scanFirstLine := fun body => body;
  Amzn.xml_Decode_RepoMd := fun _ => ({| Amzn.RepoList := [] |}, Some (ErrOther "EOF"));
  Amzn.gzip_NewReader := fun body => Some body;
  Amzn.xml_Decode_UpdateInfo := fun _ => ({| Amzn.ALASList := [] |}, None);
  Amzn.Sprintf := sprintf |}.

(** Decoders under which the update-info document does not decode. *)
Definition brokenUpdateInfoCalls : Amzn.Stdlib_calls := {|
  Amzn.scanFirstLine := fun body => body;
  Amzn.xml_Decode_RepoMd := fun _ => (repoMd, None);
  Amzn.gzip_NewReader := fun body => Some body;
  Amzn.xml_Decode_UpdateInfo := fun _ => ({| Amzn.ALASList := [] |}, Some (ErrOther "EOF"));
  Amzn.Sprintf := sprintf |}.

(** The response of the first updater on the three advisories when the
    datastore holds no watermark. *)
Definition responseFirstRun : Vulnsrc.UpdateResponse :=
  Eval vm_compute in
    responseOf (Amzn.Update (vf := versionfmt) (http := mirrorHttp)
                  (calls := mirrorCalls threeAdvisories)
                  Amzn.amazonLinux1Updater emptyDatastore).

(** An advisory with an open release, a release resolved in a version, and
    a release that the table does not map; the tracker body that decodes
    to it and the response of the Debian updater on it. *)
Definition releasesMixed : list (string * Debian.jsonRel) :=
  [("jessie", rel "open" "" "low"); ("stretch", rel "resolved" "1.0-1" "high");
   ("potato", rel "open" "" "medium")].

Definition mixedBody : string := "{mixed}".

Definition mixedSurroundings : Debian.Surroundings :=
  surroundings [(mixedBody, document releasesMixed)].

Definition mixedResponse : Vulnsrc.UpdateResponse :=
  Eval vm_compute in
    fst (Debian.Update (vf := versionfmt) (http := trackerHttp mixedBody)
           (env := mixedSurroundings) emptyDatastore).

Definition mixedVulnerability : Database.VulnerabilityWithAffected :=
  Eval vm_compute in
    hd {| Database.Vuln := {| Database.Name := ""; Database.Link := "";
                              Database.Severity_ := Database.UnknownSeverity;
                              Database.Description := "" |};
          Database.Affected := [] |}
       (Vulnsrc.Vulnerabilities mixedResponse).

End Fixtures.

(** ** Facts about the Amazon updater *)

Module AmznFacts.

Import Amzn AmznSpec.

(** *** The order on timestamps *)

Lemma ltb_flip (a b : string) : String.ltb a b = true -> String.ltb b a = false.
Proof.
  unfold String.ltb. rewrite (String.compare_antisym b a).
  destruct (String.compare a b); simpl; congruence.
Qed.

Lemma compareTimestamp_gt (a b : string) :
  (compareTimestamp a b >? 0)%Z = String.ltb b a.
Proof.
  unfold compareTimestamp.
  destruct (String.ltb a b) eqn:Hab.
  - rewrite (ltb_flip _ _ Hab). reflexivity.
  - destruct (String.ltb b a); reflexivity.
Qed.

Lemma ltb_leb (a b : string) : String.ltb b a = negb (String.leb a b).
Proof.
  unfold String.ltb, String.leb. rewrite (String.compare_antisym b a).
  destruct (String.compare a b); reflexivity.
Qed.

Lemma compareTimestamp_le (a b : string) :
  (compareTimestamp a b <= 0)%Z <-> String.le a b.
Proof.
  pose proof (compareTimestamp_gt a b) as Hgt.
  rewrite ltb_leb, Z.gtb_ltb in Hgt.
  unfold String.le. destruct (String.leb a b); simpl in Hgt.
  - apply Z.ltb_ge in Hgt. split; [done | lia].
  - apply Z.ltb_lt in Hgt. split; [lia | done].
Qed.

Lemma compareTimestamp_gt_empty (a : string) :
  (compareTimestamp a "" >? 0)%Z = negb (String.eqb a "").
Proof. rewrite compareTimestamp_gt. destruct a; reflexivity. Qed.

Lemma le_empty (a : string) : String.le a "" -> a = "".
Proof. destruct a; [done|]. unfold String.le. simpl. done. Qed.

Lemma empty_le (a : string) : String.le "" a.
Proof. destruct a; done. Qed.

(** *** The selection loop of [Update] *)

Lemma selectStep_new (flagValue : string) (l : list ALAS) (ts : string) (alas : ALAS) :
  isNew flagValue alas = true ->
  selectStep flagValue (l, ts) alas
  = ((l ++ [alas])%list,
     if (compareTimestamp (Date (Updated_ alas)) ts >? 0)%Z
     then Date (Updated_ alas) else ts).
Proof. unfold isNew, selectStep. intros ->. reflexivity. Qed.

Lemma selectStep_old (flagValue : string) (l : list ALAS) (ts : string) (alas : ALAS) :
  isNew flagValue alas = false -> selectStep flagValue (l, ts) alas = (l, ts).
Proof. unfold isNew, selectStep. intros ->. reflexivity. Qed.

Lemma selectStep_fold (flagValue : string) (l : list ALAS) :
  forall (alasList : list ALAS) (timestamp : string),
    exists timestamp',
      fold_left (selectStep flagValue) l (alasList, timestamp)
      = ((alasList ++ List.filter (isNew flagValue) l)%list, timestamp')
      /\ String.le timestamp timestamp'
      /\ (forall a, a ∈ List.filter (isNew flagValue) l ->
           String.le (Date (Updated_ a)) timestamp')
      /\ (timestamp' = timestamp
          \/ exists a, a ∈ List.filter (isNew flagValue) l
                       /\ timestamp' = Date (Updated_ a)).
Proof.
  induction l as [|alas l IH]; intros alasList timestamp; cbn [fold_left List.filter].
  - exists timestamp. rewrite app_nil_r. repeat split; auto.
    intros a Ha. inversion Ha.
  - destruct (isNew flagValue alas) eqn:Hnew.
    + rewrite (selectStep_new _ _ _ _ Hnew).
      set (ts1 := if (compareTimestamp (Date (Updated_ alas)) timestamp >? 0)%Z
                  then Date (Updated_ alas) else timestamp).
      assert (String.le timestamp ts1 /\ String.le (Date (Updated_ alas)) ts1
              /\ (ts1 = timestamp \/ ts1 = Date (Updated_ alas))) as (Hts & Hd & Hor).
      { subst ts1.
        destruct (compareTimestamp (Date (Updated_ alas)) timestamp >? 0)%Z eqn:Hcmp.
        - repeat split; auto.
          rewrite compareTimestamp_gt, ltb_leb in Hcmp.
          destruct (total String.le timestamp (Date (Updated_ alas))) as [Hle|Hle]; [done|].
          unfold String.le in Hle. destruct (String.leb _ _); [done|]. done.
        - repeat split; auto.
          apply compareTimestamp_le. rewrite Z.gtb_ltb in Hcmp.
          apply Z.ltb_ge in Hcmp. lia. }
      destruct (IH (alasList ++ [alas])%list ts1) as (ts' & Heq & Hle & Hall & Hin).
      exists ts'. rewrite Heq, <- app_assoc. simpl. split; [done|].
      split; [by etrans|]. split.
      * intros a Ha. apply elem_of_cons in Ha as [->|Ha]; [by etrans | by apply Hall].
      * destruct Hin as [->|(a & Ha & ->)].
        -- destruct Hor as [->| ->]; [by left|]. right. exists alas. split; [|done].
           apply elem_of_cons. by left.
        -- right. exists a. split; [|done]. apply elem_of_cons. by right.
    + rewrite (selectStep_old _ _ _ _ Hnew).
      destruct (IH alasList timestamp) as (ts' & Heq & Hle & Hall & Hin).
      exists ts'. rewrite Heq. done.
Qed.

Lemma isNew_date_nonempty (flagValue : string) (a : ALAS) :
  isNew flagValue a = true -> Date (Updated_ a) <> "".
Proof.
  unfold isNew. rewrite compareTimestamp_gt. intros Hlt Heq. rewrite Heq in Hlt.
  destruct flagValue; discriminate.
Qed.

(** *** White space *)

Lemma reSpace_asciiSpace (c : ascii) : reSpace c = true -> asciiSpace c = true.
Proof.
  unfold reSpace, asciiSpace. intros Hc.
  repeat (apply orb_prop in Hc as [Hc|Hc]); apply N.eqb_eq in Hc; rewrite Hc; reflexivity.
Qed.

Lemma reSpace_space : reSpace " "%char = true.
Proof. reflexivity. Qed.

Lemma isSpace2_space_r (c : ascii) : isSpace2 c " "%char = false.
Proof. unfold isSpace2. cbn. by rewrite andb_false_r. Qed.

Lemma isSpace2_space_l (c : ascii) : isSpace2 " "%char c = false.
Proof. reflexivity. Qed.

Lemma isSpace3_space_3 (c1 c2 : ascii) : isSpace3 c1 c2 " "%char = false.
Proof. unfold isSpace3. cbn. by rewrite !andb_false_r. Qed.

Lemma isSpace3_space_2 (c1 c3 : ascii) : isSpace3 c1 " "%char c3 = false.
Proof. unfold isSpace3. cbn. by rewrite !andb_false_r. Qed.

Lemma isSpace3_space_1 (c2 c3 : ascii) : isSpace3 " "%char c2 c3 = false.
Proof. reflexivity. Qed.

(** What is left of a string once the leading white space is removed
    does not begin with white space. *)
Lemma startsWithSpace_trimLeft (s : list ascii) : startsWithSpace (trimLeft s) = false.
Proof.
  remember (length s) as n eqn:Hn. revert s Hn.
  induction n as [n IH] using lt_wf_ind. intros s ->.
  destruct s as [|c1 r1]; [done|]. cbn [trimLeft].
  destruct (asciiSpace c1) eqn:H1; [apply (IH (length r1)); cbn; [lia | done]|].
  destruct r1 as [|c2 r2]; [by cbn; rewrite H1|].
  destruct (isSpace2 c1 c2) eqn:H2; [apply (IH (length r2)); cbn; [lia | done]|].
  destruct r2 as [|c3 r3]; [by cbn; rewrite H1, H2|].
  destruct (isSpace3 c1 c2 c3) eqn:H3; [apply (IH (length r3)); cbn; [lia | done]|].
  cbn. by rewrite H1, H2, H3.
Qed.

Lemma startsWithSpaceRev_trimLeftRev (s : list ascii) :
  startsWithSpaceRev (trimLeftRev s) = false.
Proof.
  remember (length s) as n eqn:Hn. revert s Hn.
  induction n as [n IH] using lt_wf_ind. intros s ->.
  destruct s as [|c1 r1]; [done|]. cbn [trimLeftRev].
  destruct (asciiSpace c1) eqn:H1; [apply (IH (length r1)); cbn; [lia | done]|].
  destruct r1 as [|c2 r2]; [by cbn; rewrite H1|].
  destruct (isSpace2 c2 c1) eqn:H2; [apply (IH (length r2)); cbn; [lia | done]|].
  destruct r2 as [|c3 r3]; [by cbn; rewrite H1, H2|].
  destruct (isSpace3 c3 c2 c1) eqn:H3; [apply (IH (length r3)); cbn; [lia | done]|].
  cbn. by rewrite H1, H2, H3.
Qed.

(** Removing leading white space leaves a suffix. *)
Lemma trimLeftRev_suffix (s : list ascii) : exists p, s = (p ++ trimLeftRev s)%list.
Proof.
  remember (length s) as n eqn:Hn. revert s Hn.
  induction n as [n IH] using lt_wf_ind. intros s ->.
  destruct s as [|c1 r1]; [by exists []|]. cbn [trimLeftRev].
  destruct (asciiSpace c1).
  { destruct (IH (length r1) ltac:(cbn; lia) r1 eq_refl) as [p Hp].
    exists (c1 :: p). cbn. by rewrite <- Hp. }
  destruct r1 as [|c2 r2]; [by exists []|].
  destruct (isSpace2 c2 c1).
  { destruct (IH (length r2) ltac:(cbn; lia) r2 eq_refl) as [p Hp].
    exists (c1 :: c2 :: p). cbn. by rewrite <- Hp. }
  destruct r2 as [|c3 r3]; [by exists []|].
  destruct (isSpace3 c3 c2 c1); [|by exists []].
  destruct (IH (length r3) ltac:(cbn; lia) r3 eq_refl) as [p Hp].
  exists (c1 :: c2 :: c3 :: p). cbn. by rewrite <- Hp.
Qed.

(** A string that begins with white space still does when it is
    extended. *)
Lemma startsWithSpace_app (s q : list ascii) :
  startsWithSpace s = true -> startsWithSpace (s ++ q) = true.
Proof.
  destruct s as [|c1 [|c2 [|c3 r3]]]; cbn; try done.
  - rewrite orb_false_r. by intros ->.
  - rewrite orb_false_r. intros H. apply orb_prop in H as [->| ->]; [done|].
    by rewrite orb_true_r.
Qed.

Lemma startsWithSpace_trimSpace (s : list ascii) : startsWithSpace (trimSpace s) = false.
Proof.
  unfold trimSpace.
  destruct (trimLeftRev_suffix (rev (trimLeft s))) as [p Hp].
  apply (f_equal (@rev ascii)) in Hp. rewrite rev_involutive, rev_app_distr in Hp.
  pose proof (startsWithSpace_trimLeft s) as Hs. rewrite Hp in Hs.
  destruct (startsWithSpace (rev (trimLeftRev (rev (trimLeft s))))) eqn:Ht; [|done].
  by rewrite (startsWithSpace_app _ _ Ht) in Hs.
Qed.

Lemma endsWithSpace_trimSpace (s : list ascii) : endsWithSpace (trimSpace s) = false.
Proof.
  unfold endsWithSpace, trimSpace. rewrite rev_involutive.
  apply startsWithSpaceRev_trimLeftRev.
Qed.

(** The result of the replacement has single spaces only. *)
Lemma singleSpaced_replaceRuns (s : list ascii) :
  forall inRun, singleSpaced inRun (replaceRuns inRun s) = true.
Proof.
  induction s as [|c r IH]; intros inRun; [done|]. cbn [replaceRuns].
  destruct (reSpace c) eqn:Hc.
  - destruct inRun; [apply IH|]. cbn [singleSpaced]. rewrite reSpace_space.
    cbn. apply IH.
  - cbn [singleSpaced]. rewrite Hc. apply IH.
Qed.

Lemma startsWithSpace_replaceRuns (s : list ascii) :
  startsWithSpace s = false -> startsWithSpace (replaceRuns false s) = false.
Proof.
  destruct s as [|c1 r1]; [done|]. cbn [startsWithSpace replaceRuns].
  intros H. apply orb_false_elim in H as [H1 H].
  destruct (reSpace c1) eqn:Hc1; [by rewrite (reSpace_asciiSpace _ Hc1) in H1|].
  cbn [startsWithSpace]. rewrite H1. cbn [orb].
  destruct r1 as [|c2 r2]; [done|]. cbn [replaceRuns].
  apply orb_false_elim in H as [H2 H].
  destruct (reSpace c2) eqn:Hc2.
  { rewrite isSpace2_space_r. cbn [orb].
    destruct (replaceRuns true r2); [done | apply isSpace3_space_2]. }
  rewrite H2. cbn [orb].
  destruct r2 as [|c3 r3]; [done|]. cbn [replaceRuns].
  destruct (reSpace c3) eqn:Hc3; [apply isSpace3_space_3 | done].
Qed.

Lemma startsWithSpaceRev_replaceRuns (s : list ascii) :
  startsWithSpaceRev s = false -> startsWithSpaceRev (replaceRuns false s) = false.
Proof.
  destruct s as [|c1 r1]; [done|]. cbn [startsWithSpaceRev replaceRuns].
  intros H. apply orb_false_elim in H as [H1 H].
  destruct (reSpace c1) eqn:Hc1; [by rewrite (reSpace_asciiSpace _ Hc1) in H1|].
  cbn [startsWithSpaceRev]. rewrite H1. cbn [orb].
  destruct r1 as [|c2 r2]; [done|]. cbn [replaceRuns].
  apply orb_false_elim in H as [H2 H].
  destruct (reSpace c2) eqn:Hc2.
  { rewrite isSpace2_space_l. cbn [orb].
    destruct (replaceRuns true r2); [done | apply isSpace3_space_2]. }
  rewrite H2. cbn [orb].
  destruct r2 as [|c3 r3]; [done|]. cbn [replaceRuns].
  destruct (reSpace c3) eqn:Hc3; [apply isSpace3_space_1 | done].
Qed.

Lemma replaceRuns_app (s1 s2 : list ascii) :
  forall inRun,
    replaceRuns inRun (s1 ++ s2)
    = (replaceRuns inRun s1 ++ replaceRuns (endsInRun inRun s1) s2)%list.
Proof.
  induction s1 as [|c r IH]; intros inRun; [done|].
  cbn [app replaceRuns endsInRun fold_left]. fold (endsInRun (reSpace c) r).
  destruct (reSpace c); [destruct inRun|]; by rewrite IH.
Qed.

Lemma replaceRuns_beginsRun (s : list ascii) :
  replaceRuns false s
  = if beginsRun s then " "%char :: replaceRuns true s else replaceRuns true s.
Proof. destruct s as [|c r]; [done|]. cbn. by destruct (reSpace c). Qed.

Lemma endsInRun_rev (s : list ascii) : endsInRun false (rev s) = beginsRun s.
Proof.
  destruct s as [|c r]; [done|]. cbn [rev beginsRun]. unfold endsInRun.
  by rewrite fold_left_app.
Qed.

(** Replacing the runs of a string read backwards gives the result read
    backwards. *)
Lemma replaceRuns_rev (s : list ascii) :
  rev (replaceRuns false s) = replaceRuns false (rev s).
Proof.
  induction s as [|c r IH]; [done|].
  cbn [rev]. rewrite replaceRuns_app, endsInRun_rev, <- IH.
  cbn [replaceRuns]. destruct (reSpace c) eqn:Hc.
  - cbn [rev]. rewrite (replaceRuns_beginsRun r).
    destruct (beginsRun r); cbn [rev]; by rewrite ?app_nil_r.
  - by cbn [rev].
Qed.

(** The two calls of [alasToDescription] normalise a description. *)
Lemma normalised_description (description : string) :
  normalised (ReplaceAllString_space (TrimSpace description)).
Proof.
  unfold normalised, ReplaceAllString_space, TrimSpace.
  rewrite !list_ascii_of_string_of_list_ascii.
  split; [|split].
  - apply startsWithSpace_replaceRuns, startsWithSpace_trimSpace.
  - unfold endsWithSpace. rewrite replaceRuns_rev.
    apply startsWithSpaceRev_replaceRuns, endsWithSpace_trimSpace.
  - apply singleSpaced_replaceRuns.
Qed.

(** Runs of white space outside the class [\s] are kept: two no-break
    spaces (C2 A0) between two letters, and two vertical tabs. *)
Example nobreak_spaces_kept :
  let nbsp := String "194" (String "160" "") in
  ReplaceAllString_space (TrimSpace ("a" +:+ nbsp +:+ nbsp +:+ "b" +:+ nbsp))
  = "a" +:+ nbsp +:+ nbsp +:+ "b"
  /\ ReplaceAllString_space (TrimSpace (String "011" ("a" +:+ String "011" (String "011" "b"))))
     = "a" +:+ String "011" (String "011" "b").
Proof. vm_compute. split; reflexivity. Qed.

(** *** From advisories to vulnerabilities *)

Section Canonical.

Context {vf : Versionfmt} {http : Httputil} {calls : Stdlib_calls}.

Lemma featureVersionStep_fold (u : updater) (ps : list Package) :
  forall acc,
    fold_left (featureVersionStep u) ps acc
    = (acc ++ map (packageFeature u) (List.filter validPackage ps))%list.
Proof.
  induction ps as [|p ps IH]; intros acc; cbn [fold_left List.filter map].
  - by rewrite app_nil_r.
  - rewrite IH. unfold featureVersionStep, validPackage.
    fold (packageVersion p).
    destruct (Valid rpm_ParserName (packageVersion p)); cbn [negb map].
    + by rewrite <- app_assoc.
    + done.
Qed.

Lemma alasToFeatureVersions_eq (u : updater) (alas : ALAS) :
  alasToFeatureVersions u alas
  = map (packageFeature u) (List.filter validPackage (Packages alas)).
Proof. unfold alasToFeatureVersions. by rewrite featureVersionStep_fold. Qed.

Lemma alasListToVulnerabilities_loop_spec (u : updater) (l : list ALAS) :
  forall acc vs,
    alasListToVulnerabilities_loop u l acc = Returns vs ->
    exists vs', vs = (acc ++ vs')%list
                /\ Forall (fun v => exists a, a ∈ l /\ builtFrom u a v) vs'.
Proof.
  induction l as [|alas l IH]; intros acc vs; cbn [alasListToVulnerabilities_loop].
  - intros [= <-]. exists []. by rewrite app_nil_r.
  - destruct (0 <? Z.of_nat (length (alasToFeatureVersions u alas)))%Z eqn:Hlen.
    + destruct (alasToLink u alas) as [link|] eqn:Hlink; [|discriminate].
      cbn. intros Hloop. apply IH in Hloop as (vs' & -> & Hall).
      eexists (_ :: vs'). rewrite <- app_assoc. split; [reflexivity|].
      constructor.
      * exists alas. split; [apply elem_of_cons; by left|].
        unfold builtFrom; cbn. repeat split; auto.
        intros Hnil. rewrite Hnil in Hlen. discriminate.
      * eapply Forall_impl; [exact Hall|]. cbn.
        intros v (a & Ha & Hb). exists a. split; [|done].
        apply elem_of_cons. by right.
    + intros Hloop. apply IH in Hloop as (vs' & -> & Hall).
      exists vs'. split; [done|].
      eapply Forall_impl; [exact Hall|]. cbn.
      intros v (a & Ha & Hb). exists a. split; [|done].
      apply elem_of_cons. by right.
Qed.

(** [Update] once the watermark is read and the document fetched: the
    advisories newer than the watermark are handed to
    [alasListToVulnerabilities], and [timestamp] is the greatest of
    their dates. *)
Lemma Update_fetched (u : updater) (datastore : Datastore)
    (flagValue : string) (found : bool) (updateInfo : UpdateInfo) :
  FindKeyValueAndRollback datastore (UpdaterFlag u) = (flagValue, found, None) ->
  getUpdateInfo u = (updateInfo, None) ->
  let watermark := if negb found then "" else flagValue in
  let new := List.filter (isNew watermark) (ALASList updateInfo) in
  exists timestamp,
    Update u datastore
    = (vulnerabilities ← alasListToVulnerabilities u new;
       Returns ({| Vulnsrc.Vulnerabilities := vulnerabilities;
                   Vulnsrc.FlagName :=
                     if negb (String.eqb timestamp "") then UpdaterFlag u else "";
                   Vulnsrc.FlagValue :=
                     if negb (String.eqb timestamp "") then timestamp else "";
                   Vulnsrc.Notes := [] |}, None))
    /\ (forall a, a ∈ new -> String.le (Date (Updated_ a)) timestamp)
    /\ (timestamp = "" \/ exists a, a ∈ new /\ timestamp = Date (Updated_ a)).
Proof.
  intros Hfind Hget watermark new. unfold Update. rewrite Hfind, Hget.
  fold watermark.
  destruct (selectStep_fold watermark (ALASList updateInfo) [] "")
    as (ts & Heq & _ & Hall & Hin).
  rewrite Heq. cbn [app]. fold new. exists ts. done.
Qed.

(** [Update] of an updater that is not the Amazon Linux 2 one returns:
    only the link of an Amazon Linux 2 advisory can panic. *)
Lemma alasListToVulnerabilities_loop_returns (u : updater) (l : list ALAS) :
  Name u <> amazonLinux2Name ->
  forall acc, exists vs, alasListToVulnerabilities_loop u l acc = Returns vs.
Proof.
  intros Hname. induction l as [|alas l IH]; intros acc;
    cbn [alasListToVulnerabilities_loop]; [by eexists|].
  destruct (0 <? Z.of_nat (length (alasToFeatureVersions u alas)))%Z; [|apply IH].
  unfold alasToLink. destruct (String.eqb (Name u) amazonLinux1Name); [apply IH|].
  destruct (String.eqb_spec (Name u) amazonLinux2Name) as [Heq|_]; [done | apply IH].
Qed.

(** C4, as the code has it: the versions of the features of an advisory
    are, in the order of its packages, the strings version-release for a
    package of epoch 0 and epoch:version-release for every other package,
    those that the version oracle rejects left out. *)
Theorem alasToFeatureVersions_versions (u : updater) (alas : ALAS) :
  map Database.AffectedVersion (alasToFeatureVersions u alas)
  = List.filter (Valid rpm_ParserName)
      (map (fun p =>
              if String.eqb (Epoch p) "0"
              then Version p +:+ "-" +:+ Release p
              else Epoch p +:+ ":" +:+ Version p +:+ "-" +:+ Release p)
           (Packages alas)).
Proof.
  rewrite alasToFeatureVersions_eq.
  induction (Packages alas) as [|p ps IH]; [done|].
  cbn [List.filter map]. unfold validPackage at 1. fold (packageVersion p).
  destruct (Valid rpm_ParserName (packageVersion p)); cbn [map]; by rewrite IH.
Qed.

(** C1, as the code has it: when [Update] returns without error, the
    watermark of the response is the greatest update timestamp among the
    advisories that pass the watermark filter, whether or not they yield a
    feature, and name and value of the watermark are absent when no
    advisory passes the filter. *)
Theorem Update_watermark (u : updater) (datastore : Datastore)
    (flagValue : string) (found : bool) (updateInfo : UpdateInfo)
    (resp : Vulnsrc.UpdateResponse) :
  FindKeyValueAndRollback datastore (UpdaterFlag u) = (flagValue, found, None) ->
  getUpdateInfo u = (updateInfo, None) ->
  Update u datastore = Returns (resp, None) ->
  let watermark := if found then flagValue else "" in
  let new := List.filter (isNew watermark) (ALASList updateInfo) in
  (new = [] -> Vulnsrc.FlagName resp = "" /\ Vulnsrc.FlagValue resp = "")
  /\ (new <> [] ->
      Vulnsrc.FlagName resp = UpdaterFlag u
      /\ (exists a, a ∈ new /\ Vulnsrc.FlagValue resp = Date (Updated_ a))
      /\ (forall a, a ∈ new ->
           (compareTimestamp (Date (Updated_ a)) (Vulnsrc.FlagValue resp) <= 0)%Z)).
Proof.
  intros Hfind Hget Hret watermark new.
  destruct (Update_fetched u datastore flagValue found updateInfo Hfind Hget)
    as (ts & Hupd & Hall & Hin).
  assert ((if negb found then "" else flagValue) = watermark) as Hw
    by (subst watermark; by destruct found).
  rewrite Hw in Hupd, Hall, Hin. fold new in Hupd, Hall, Hin.
  rewrite Hupd in Hret.
  destruct (alasListToVulnerabilities u new) as [vs|]; [|discriminate].
  cbn in Hret. injection Hret as <-. cbn.
  split.
  - intros Hnil. destruct Hin as [->|(a & Ha & _)]; [done|].
    rewrite Hnil in Ha. inversion Ha.
  - intros Hne.
    assert (ts <> "") as Hts.
    { destruct new as [|a0 rest] eqn:Hnew; [done|].
      assert (a0 ∈ new) as Ha0 by (rewrite Hnew; apply elem_of_cons; by left).
      intros ->. rewrite <- Hnew in Hall. apply Hall, le_empty in Ha0.
      assert (isNew watermark a0 = true) as Hn.
      { assert (In a0 new) as Hi by (rewrite Hnew; by left).
        apply filter_In in Hi. tauto. }
      by apply isNew_date_nonempty in Hn. }
    apply String.eqb_neq in Hts. rewrite Hts. cbn.
    split; [done|]. split.
    + destruct Hin as [->|Hex]; [|done]. by apply String.eqb_neq in Hts.
    + intros a Ha. by apply compareTimestamp_le, Hall.
Qed.

(** C2: when [Update] returns without error, its batch is what
    [alasListToVulnerabilities] makes of the advisories whose timestamp
    is strictly greater than the watermark, and of them alone: every
    vulnerability of the batch is built from such an advisory, and an
    advisory whose timestamp is at most the watermark can be taken out of
    the document without changing the batch. *)
Theorem Update_excludes_old (u : updater) (datastore : Datastore)
    (flagValue : string) (found : bool) (updateInfo : UpdateInfo)
    (resp : Vulnsrc.UpdateResponse) :
  FindKeyValueAndRollback datastore (UpdaterFlag u) = (flagValue, found, None) ->
  getUpdateInfo u = (updateInfo, None) ->
  Update u datastore = Returns (resp, None) ->
  let watermark := if found then flagValue else "" in
  alasListToVulnerabilities u
    (List.filter (fun a => (compareTimestamp (Date (Updated_ a)) watermark >? 0)%Z)
                 (ALASList updateInfo))
  = Returns (Vulnsrc.Vulnerabilities resp)
  /\ (forall v, v ∈ Vulnsrc.Vulnerabilities resp ->
       exists a, a ∈ ALASList updateInfo
                 /\ (compareTimestamp (Date (Updated_ a)) watermark > 0)%Z
                 /\ builtFrom u a v)
  /\ (forall l1 a l2,
       ALASList updateInfo = (l1 ++ a :: l2)%list ->
       (compareTimestamp (Date (Updated_ a)) watermark <= 0)%Z ->
       alasListToVulnerabilities u
         (List.filter (fun a => (compareTimestamp (Date (Updated_ a)) watermark >? 0)%Z)
                      (l1 ++ l2))
       = Returns (Vulnsrc.Vulnerabilities resp)).
Proof.
  intros Hfind Hget Hret watermark.
  destruct (Update_fetched u datastore flagValue found updateInfo Hfind Hget)
    as (ts & Hupd & _).
  assert ((if negb found then "" else flagValue) = watermark) as Hw
    by (subst watermark; by destruct found).
  rewrite Hw in Hupd. rewrite Hupd in Hret.
  change (fun a => (compareTimestamp (Date (Updated_ a)) watermark >? 0)%Z)
    with (isNew watermark).
  destruct (alasListToVulnerabilities u (List.filter (isNew watermark) (ALASList updateInfo)))
    as [vs|] eqn:Hvs; [|discriminate].
  cbn in Hret. injection Hret as <-. cbn.
  split; [done|]. split.
  - intros v Hv.
    apply alasListToVulnerabilities_loop_spec in Hvs as (vs' & -> & Hall).
    rewrite Forall_forall in Hall. cbn [app] in Hv. apply Hall in Hv as (a & Ha & Hb).
    apply list_elem_of_In, filter_In in Ha as [Ha Hn].
    exists a. split; [by apply list_elem_of_In|]. split; [|done].
    unfold isNew in Hn. rewrite Z.gtb_ltb in Hn. apply Z.ltb_lt in Hn. lia.
  - intros l1 a l2 Hdoc Hold. rewrite <- Hvs, Hdoc.
    rewrite !List.filter_app. cbn [List.filter].
    assert (isNew watermark a = false) as ->; [|done].
    unfold isNew. rewrite Z.gtb_ltb. apply Z.ltb_ge. lia.
Qed.

(** Every vulnerability of a response of [Update] is built from an
    advisory of the fetched document that is newer than the watermark. *)
Lemma Update_builtFrom (u : updater) (datastore : Datastore)
    (resp : Vulnsrc.UpdateResponse) (e : option error)
    (v : Database.VulnerabilityWithAffected) :
  Update u datastore = Returns (resp, e) ->
  v ∈ Vulnsrc.Vulnerabilities resp ->
  exists a, a ∈ ALASList (fst (getUpdateInfo u)) /\ builtFrom u a v.
Proof.
  unfold Update.
  destruct (FindKeyValueAndRollback datastore (UpdaterFlag u)) as [[flagValue found] [err|]].
  { intros [= <- <-] Hv. inversion Hv. }
  destruct (getUpdateInfo u) as [updateInfo [err|]].
  { intros [= <- <-] Hv. inversion Hv. }
  destruct (selectStep_fold (if negb found then "" else flagValue) (ALASList updateInfo) [] "")
    as (ts & Heq & _).
  rewrite Heq. cbn [app].
  destruct (alasListToVulnerabilities u _) as [vs|] eqn:Hvs; [|discriminate].
  cbn. intros [= <- <-]. cbn. intros Hv.
  apply alasListToVulnerabilities_loop_spec in Hvs as (vs' & -> & Hall).
  rewrite Forall_forall in Hall. cbn [app] in Hv. apply Hall in Hv as (a & Ha & Hb).
  apply list_elem_of_In, filter_In in Ha as [Ha _].
  exists a. split; [by apply list_elem_of_In | done].
Qed.

(** [Update] of an updater that is not the Amazon Linux 2 one always
    returns. *)
Lemma Update_returns (u : updater) (datastore : Datastore) :
  Name u <> amazonLinux2Name -> exists r, Update u datastore = Returns r.
Proof.
  intros Hname. unfold Update.
  destruct (FindKeyValueAndRollback datastore (UpdaterFlag u)) as [[flagValue found] [err|]];
    [by eexists|].
  destruct (getUpdateInfo u) as [updateInfo [err|]]; [by eexists|].
  destruct (fold_left _ _ _) as [alasList timestamp].
  destruct (alasListToVulnerabilities_loop_returns u alasList Hname []) as [vs Hvs].
  unfold alasListToVulnerabilities. rewrite Hvs. by eexists.
Qed.

(** No batch comes with an error: the response that [Update] returns with
    an error is the empty one. *)
Lemma Update_error_empty (u : updater) (datastore : Datastore)
    (resp : Vulnsrc.UpdateResponse) (err : error) :
  Update u datastore = Returns (resp, Some err) -> resp = Vulnsrc.emptyResponse.
Proof.
  unfold Update.
  destruct (FindKeyValueAndRollback datastore (UpdaterFlag u)) as [[flagValue found] [e|]];
    [by intros [= <- _]|].
  destruct (getUpdateInfo u) as [updateInfo [e|]]; [by intros [= <- _]|].
  destruct (fold_left _ _ _) as [alasList timestamp].
  by destruct (alasListToVulnerabilities u alasList).
Qed.

(** The sibling path: when the update-info document is fetched and does
    not decode, [getUpdateInfo] returns the parse error. *)
Lemma getUpdateInfo_decode_failure (u : updater) (updateInfoURI : string)
    (updateInfoResponse : Response) (updateInfoXml : string)
    (partial : UpdateInfo) (err : error) :
  getUpdateInfoURI u = (updateInfoURI, None) ->
  GetWithUserAgent updateInfoURI = Some updateInfoResponse ->
  Status2xx updateInfoResponse = true ->
  gzip_NewReader (Body updateInfoResponse) = Some updateInfoXml ->
  xml_Decode_UpdateInfo updateInfoXml = (partial, Some err) ->
  getUpdateInfo u = ({| ALASList := [] |}, Some ErrCouldNotParse).
Proof.
  intros Huri Hget H2xx Hgz Hdec. unfold getUpdateInfo, decodeUpdateInfo.
  by rewrite Huri, Hget, H2xx, Hgz, Hdec.
Qed.

(** C8 fails on the code: when the mirror list and the repository
    metadata are fetched with a 2xx status and the metadata does not
    decode as XML, [Update] returns the download error, not the parse
    error, with an empty response. *)
Theorem Update_repomd_decode_failure (u : updater) (datastore : Datastore)
    (flagValue : string) (found : bool)
    (mirrorListResponse repoMdResponse : Response) (partial : RepoMd) (err : error) :
  FindKeyValueAndRollback datastore (UpdaterFlag u) = (flagValue, found, None) ->
  GetWithUserAgent (MirrorListURI u) = Some mirrorListResponse ->
  Status2xx mirrorListResponse = true ->
  GetWithUserAgent (scanFirstLine (Body mirrorListResponse) +:+ "/repodata/repomd.xml")
  = Some repoMdResponse ->
  Status2xx repoMdResponse = true ->
  xml_Decode_RepoMd (Body repoMdResponse) = (partial, Some err) ->
  Update u datastore = Returns (Vulnsrc.emptyResponse, Some ErrCouldNotDownload).
Proof.
  intros Hfind Hml Hml2xx Hmd Hmd2xx Hdec.
  unfold Update, getUpdateInfo, getUpdateInfoURI.
  by rewrite Hfind, Hml, Hml2xx, Hmd, Hmd2xx, Hdec.
Qed.

End Canonical.

(** C4 as stated fails: for the package foo of epoch 0, version 1.2 and
    release 3 the version of the feature is 1.2-3, version before
    release, and not 3-1.2. *)
Lemma alasToFeatureVersions_epoch_0 :
  let alas := {| Id := "ALAS-2020-1"; Updated_ := {| Date := "2020-01-01 00:00" |};
                 Severity := "important"; Description := "";
                 Packages := [Fixtures.foo] |} in
  Epoch Fixtures.foo = "0"
  /\ map Database.AffectedVersion
       (alasToFeatureVersions (vf := Fixtures.versionfmt) amazonLinux1Updater alas)
     = ["1.2-3"]
  /\ "1.2-3" <> Release Fixtures.foo +:+ "-" +:+ Version Fixtures.foo.
Proof. vm_compute. repeat split; try reflexivity. discriminate. Qed.

(** C1 as stated fails: the only advisory of the document passes the
    watermark filter and has no package, so that it yields no feature and
    the batch is empty; the response carries its timestamp as the
    watermark all the same. *)
Lemma Update_watermark_without_feature :
  let updateInfo := {| ALASList := [Fixtures.alas2] |} in
  alasToFeatureVersions (vf := Fixtures.versionfmt) amazonLinux1Updater Fixtures.alas2 = []
  /\ Update (vf := Fixtures.versionfmt) (http := Fixtures.mirrorHttp)
        (calls := Fixtures.mirrorCalls updateInfo)
        amazonLinux1Updater Fixtures.emptyDatastore
     = Returns ({| Vulnsrc.FlagName := "amazonLinux1Updater";
                   Vulnsrc.FlagValue := "2020-02-01 00:00";
                   Vulnsrc.Notes := [];
                   Vulnsrc.Vulnerabilities := [] |}, None).
Proof. vm_compute. split; reflexivity. Qed.

(** The watermark of the run on the three advisories, the stored
    watermark being the date of the oldest. *)
Lemma Update_watermark_witness :
  Vulnsrc.FlagName Fixtures.responseAfter2019 = "amazonLinux1Updater"
  /\ (exists a, a ∈ [Fixtures.alas1; Fixtures.alas2]
                /\ Vulnsrc.FlagValue Fixtures.responseAfter2019 = Date (Updated_ a))
  /\ (forall a, a ∈ [Fixtures.alas1; Fixtures.alas2] ->
        (compareTimestamp (Date (Updated_ a))
           (Vulnsrc.FlagValue Fixtures.responseAfter2019) <= 0)%Z).
Proof.
  destruct (Update_watermark (vf := Fixtures.versionfmt) (http := Fixtures.mirrorHttp)
              (calls := Fixtures.mirrorCalls Fixtures.threeAdvisories)
              amazonLinux1Updater (Fixtures.datastoreWith "2019-12-31 23:59")
              "2019-12-31 23:59" true Fixtures.threeAdvisories
              Fixtures.responseAfter2019) as [_ Hnew].
  - reflexivity.
  - vm_compute. reflexivity.
  - vm_compute. reflexivity.
  - apply Hnew. vm_compute. discriminate.
Defined.

(** The batch of that run is the batch of the two newer advisories. *)
Lemma Update_excludes_old_witness :
  alasListToVulnerabilities (vf := Fixtures.versionfmt)
    (calls := Fixtures.mirrorCalls Fixtures.threeAdvisories) amazonLinux1Updater
    [Fixtures.alas1; Fixtures.alas2]
  = Returns (Vulnsrc.Vulnerabilities Fixtures.responseAfter2019).
Proof.
  destruct (Update_excludes_old (vf := Fixtures.versionfmt) (http := Fixtures.mirrorHttp)
              (calls := Fixtures.mirrorCalls Fixtures.threeAdvisories)
              amazonLinux1Updater (Fixtures.datastoreWith "2019-12-31 23:59")
              "2019-12-31 23:59" true Fixtures.threeAdvisories
              Fixtures.responseAfter2019) as (_ & _ & Hout).
  - reflexivity.
  - vm_compute. reflexivity.
  - vm_compute. reflexivity.
  - apply (Hout [] Fixtures.alas0 [Fixtures.alas1; Fixtures.alas2]).
    + reflexivity.
    + vm_compute. discriminate.
Defined.

(** The run of the first updater when the repository metadata does not
    decode. *)
Lemma Update_repomd_decode_failure_witness :
  Update (vf := Fixtures.versionfmt) (http := Fixtures.mirrorHttp)
    (calls := Fixtures.brokenRepoMdCalls) amazonLinux1Updater Fixtures.emptyDatastore
  = Returns (Vulnsrc.emptyResponse, Some ErrCouldNotDownload).
Proof.
  apply (Update_repomd_decode_failure (vf := Fixtures.versionfmt)
           (http := Fixtures.mirrorHttp) (calls := Fixtures.brokenRepoMdCalls)
           amazonLinux1Updater Fixtures.emptyDatastore "" false
           (Fixtures.ok "http://mirror") (Fixtures.ok "<repomd/>")
           {| RepoList := [] |} (ErrOther "EOF"));
    reflexivity.
Defined.

End AmznFacts.

(** ** Facts about the Debian updater *)

Module DebianFacts.

Import Debian DebianSpec.

Lemma affectedOf_insert (m : gmap string Database.VulnerabilityWithAffected)
    (k n : string) (v : Database.VulnerabilityWithAffected) :
  affectedOf (<[k := v]> m) n
  = if decide (n = k) then Database.Affected v else affectedOf m n.
Proof.
  unfold affectedOf. destruct (decide (n = k)) as [->|Hne].
  - by rewrite lookup_insert_eq.
  - by rewrite lookup_insert_ne.
Qed.

Lemma affectedOf_empty (n : string) : affectedOf ∅ n = [].
Proof. unfold affectedOf. by rewrite lookup_empty. Qed.

Section Canonical.

Context {vf : Versionfmt} {http : Httputil} {env : Surroundings}.

(** The three nested loops visit the triples one after the other. *)
Lemma pkgStep_fold (data : jsonData) :
  forall st, fold_left pkgStep data st = fold_left tripleStep (triples data) st.
Proof.
  unfold triples.
  induction data as [|[pkgName pkgNode] data IH]; intros st; [done|].
  cbn [fold_left flat_map]. rewrite fold_left_app, IH. f_equal.
  unfold pkgStep. cbn [fst snd]. clear IH. revert st.
  induction pkgNode as [|[vulnName vulnNode] pkgNode IH]; intros st; [done|].
  cbn [fold_left flat_map]. rewrite fold_left_app, IH. f_equal.
  unfold vulnStep. cbn [fst snd]. clear IH. revert st.
  induction (Releases vulnNode) as [|[releaseName releaseNode] rels IH]; intros st; [done|].
  cbn [fold_left map]. by rewrite IH.
Qed.

(** What a step does to the [Affected] lists: the features the triple
    produces are appended to the list of its advisory, and nothing else
    changes. *)
Lemma tripleStep_affected (st : parseState) (t : triple) (n : string) :
  affectedOf (fst (tripleStep st t)) n
  = (affectedOf (fst st) n
     ++ if decide (n = tVulnName t) then produced t else [])%list.
Proof.
  destruct st as [m unk]. destruct t as [pkgName vulnName vulnNode releaseName releaseNode].
  unfold produced, tripleStep, releaseStep. cbn [fst snd tPkgName tVulnName tVulnNode tReleaseName tReleaseNode].
  rewrite lookup_empty.
  destruct (DebianReleasesMapping !! releaseName) as [release|]; cbn [fst];
    [|rewrite affectedOf_empty; by destruct (decide _); rewrite app_nil_r].
  destruct (negb (String.prefix "CVE-" vulnName) || String.eqb (Status releaseNode) "undetermined");
    cbn [fst]; [rewrite affectedOf_empty; by destruct (decide _); rewrite app_nil_r|].
  assert (forall s (v : Database.VulnerabilityWithAffected),
            Database.Affected
              (if (Database.Compare s (Database.Severity_ (Database.Vuln v)) >? 0)%Z
               then setSeverity s v else v) = Database.Affected v) as Hsev.
  { intros s v. by destruct (_ >? _)%Z. }
  destruct (m !! vulnName) as [v|] eqn:Hm;
    (destruct (String.eqb (Status releaseNode) "open");
     [|destruct (String.eqb (Status releaseNode) "resolved");
       [destruct (Valid dpkg_ParserName (FixedVersion releaseNode)); cbn [negb];
        [destruct (String.eqb (FixedVersion releaseNode) "0"); cbn [negb]|]|]]);
    change (String.eqb "" "") with true;
    repeat match goal with
           | |- context [String.eqb ?a ""] => destruct (String.eqb a "")
           end;
    cbn [fst]; rewrite ?affectedOf_insert, ?affectedOf_empty;
    destruct (decide (n = vulnName)) as [->|Hne];
    repeat case_decide; try done;
    rewrite ?app_nil_r; unfold appendAffected; cbn [Database.Affected];
    rewrite ?Hsev; unfold affectedOf; rewrite ?Hm; cbn [Database.Affected app];
    try done.
Qed.

(** What a step does to the map: nothing, or it binds the name of the
    advisory to the structure it was bound to (a fresh one if it was not
    bound), with name, link and description as they were, and it only
    binds a fresh structure together with a feature. *)
Lemma tripleStep_map (m : gmap string Database.VulnerabilityWithAffected)
    (unk : gset string) (t : triple) :
  fst (tripleStep (m, unk) t) = m
  \/ exists v',
      fst (tripleStep (m, unk) t) = <[tVulnName t := v']> m
      /\ Database.Name (Database.Vuln v')
         = Database.Name (Database.Vuln (default (newVulnerability t) (m !! tVulnName t)))
      /\ Database.Description (Database.Vuln v')
         = Database.Description (Database.Vuln (default (newVulnerability t) (m !! tVulnName t)))
      /\ Database.Link (Database.Vuln v')
         = Database.Link (Database.Vuln (default (newVulnerability t) (m !! tVulnName t)))
      /\ (exists l, Database.Affected v'
                    = (Database.Affected (default (newVulnerability t) (m !! tVulnName t))
                       ++ l)%list)
      /\ (m !! tVulnName t = None -> Database.Affected v' <> []).
Proof.
  destruct t as [pkgName vulnName vulnNode releaseName releaseNode].
  unfold tripleStep, releaseStep, newVulnerability.
  cbn [fst snd tPkgName tVulnName tVulnNode tReleaseName tReleaseNode].
  destruct (DebianReleasesMapping !! releaseName) as [release|]; cbn [fst]; [|by left].
  destruct (negb (String.prefix "CVE-" vulnName) || String.eqb (Status releaseNode) "undetermined");
    cbn [fst]; [by left|].
  destruct (m !! vulnName) as [v|] eqn:Hm;
    (destruct (String.eqb (Status releaseNode) "open");
     [|destruct (String.eqb (Status releaseNode) "resolved");
       [destruct (Valid dpkg_ParserName (FixedVersion releaseNode)); cbn [negb];
        [destruct (String.eqb (FixedVersion releaseNode) "0"); cbn [negb]|]|]]);
    change (String.eqb "" "") with true;
    repeat match goal with
           | |- context [String.eqb ?a ""] => destruct (String.eqb a "")
           end;
    repeat match goal with
           | |- context [(?a >? 0)%Z] => destruct (a >? 0)%Z
           end;
    cbn [fst default]; rewrite ?insert_insert_eq; try (by left);
    right; eexists; (split; [reflexivity|]);
    unfold appendAffected, setSeverity; cbn;
    (split; [done|]); (split; [done|]); (split; [done|]);
    (split; [first [by eexists | exists []; by rewrite app_nil_r]|]);
    try (intros; discriminate);
    intros _; by destruct (Database.Affected _).
Qed.

Lemma tripleStep_wellFormed (st : parseState) (t : triple) :
  wellFormed (fst st) -> wellFormed (fst (tripleStep st t)).
Proof.
  destruct st as [m unk]. cbn [fst]. intros Hwf.
  destruct (tripleStep_map m unk t) as [->|(v' & -> & Hname & _ & _ & [l Hl] & Hnew)];
    [done|].
  intros n v. destruct (decide (n = tVulnName t)) as [->|Hne].
  - rewrite lookup_insert_eq. intros [= <-].
    destruct (m !! tVulnName t) as [v0|] eqn:Hm; cbn in Hname, Hl.
    + destruct (Hwf _ _ Hm) as [Hn0 Ha0]. split; [congruence|].
      rewrite Hl. by destruct (Database.Affected v0).
    + split; [done | by apply Hnew].
  - rewrite lookup_insert_ne by done. apply Hwf.
Qed.

Lemma parseTriples_wellFormed (ts : list triple) : wellFormed (fst (parseTriples ts)).
Proof.
  unfold parseTriples.
  assert (forall st, wellFormed (fst st) -> wellFormed (fst (fold_left tripleStep ts st)))
    as Hfold.
  { induction ts as [|t ts IH]; intros st Hst; [done|].
    cbn [fold_left]. by apply IH, tripleStep_wellFormed. }
  apply Hfold. intros n v. cbn [fst]. by rewrite lookup_empty.
Qed.

(** The [Affected] list an advisory ends with is made of the features its
    triples produce, in the order of the visit. *)
Lemma parseTriples_affected (ts : list triple) (n : string) :
  affectedOf (fst (parseTriples ts)) n = producedFor n ts.
Proof.
  unfold parseTriples.
  assert (forall st, affectedOf (fst (fold_left tripleStep ts st)) n
                     = (affectedOf (fst st) n ++ producedFor n ts)%list) as Hfold.
  { induction ts as [|t ts IH]; intros st; cbn [fold_left producedFor flat_map].
    - by rewrite app_nil_r.
    - rewrite IH, tripleStep_affected. by rewrite <- app_assoc. }
  rewrite Hfold. cbn [fst]. by rewrite affectedOf_empty.
Qed.

Lemma parseDebianJSON_triples (data : jsonData) :
  parseDebianJSON data
  = ((map_to_list (fst (parseTriples (triples data)))).*2,
     snd (parseTriples (triples data))).
Proof.
  unfold parseDebianJSON, parseTriples. rewrite pkgStep_fold.
  by destruct (fold_left tripleStep (triples data) (∅, ∅)).
Qed.

(** The batch holds the structures the map binds. *)
Lemma elem_of_parseDebianJSON (data : jsonData) (v : Database.VulnerabilityWithAffected) :
  v ∈ fst (parseDebianJSON data)
  <-> exists n, fst (parseTriples (triples data)) !! n = Some v.
Proof.
  rewrite parseDebianJSON_triples. cbn [fst]. rewrite list_elem_of_fmap. split.
  - intros ([n v'] & -> & Hin). apply elem_of_map_to_list in Hin. by exists n.
  - intros [n Hn]. exists (n, v). split; [done|]. by apply elem_of_map_to_list.
Qed.

Lemma elem_of_triples (data : jsonData) (t : triple) :
  t ∈ triples data
  <-> exists pkgNode,
      (tPkgName t, pkgNode) ∈ data
      /\ (tVulnName t, tVulnNode t) ∈ pkgNode
      /\ (tReleaseName t, tReleaseNode t) ∈ Releases (tVulnNode t).
Proof.
  unfold triples. rewrite list_elem_of_In, in_flat_map. split.
  - intros ([pkgName pkgNode] & Hp & Hin). cbn [fst snd] in Hin.
    apply in_flat_map in Hin as ([vulnName vulnNode] & Hv & Hin). cbn [fst snd] in Hin.
    apply in_map_iff in Hin as ([releaseName releaseNode] & <- & Hr). cbn.
    exists pkgNode. by rewrite !list_elem_of_In.
  - intros (pkgNode & Hp & Hv & Hr).
    apply list_elem_of_In in Hp. apply list_elem_of_In in Hv. apply list_elem_of_In in Hr.
    exists (tPkgName t, pkgNode). split; [done|]. cbn [fst snd].
    apply in_flat_map. exists (tVulnName t, tVulnNode t). split; [done|]. cbn [fst snd].
    apply in_map_iff. exists (tReleaseName t, tReleaseNode t). split; [|done].
    by destruct t.
Qed.

Lemma elem_of_producedFor (ts : list triple) (t : triple) (f : Database.AffectedFeature) :
  t ∈ ts -> f ∈ produced t -> f ∈ producedFor (tVulnName t) ts.
Proof.
  intros Ht Hf. unfold producedFor. rewrite list_elem_of_In, in_flat_map.
  exists t. rewrite <- !list_elem_of_In. split; [done|]. by rewrite decide_True.
Qed.

(** An advisory with a feature is in the batch, under its name. *)
Lemma parseDebianJSON_feature (data : jsonData) (t : triple) (f : Database.AffectedFeature) :
  t ∈ triples data -> f ∈ produced t ->
  exists v, v ∈ fst (parseDebianJSON data)
            /\ Database.Name (Database.Vuln v) = tVulnName t
            /\ f ∈ Database.Affected v.
Proof.
  intros Ht Hf.
  pose proof (elem_of_producedFor _ _ _ Ht Hf) as Hin.
  rewrite <- parseTriples_affected in Hin. unfold affectedOf in Hin.
  destruct (fst (parseTriples (triples data)) !! tVulnName t) as [v|] eqn:Hm;
    [|by inversion Hin].
  exists v. split; [apply elem_of_parseDebianJSON; by exists (tVulnName t)|].
  split; [|done]. by apply (parseTriples_wellFormed _ _ _ Hm).
Qed.

(** The description of a structure of the map is the description of one
    of the triples visited for its name. *)
Lemma parseTriples_description (ts : list triple) (n : string)
    (v : Database.VulnerabilityWithAffected) :
  fst (parseTriples ts) !! n = Some v ->
  exists t, t ∈ ts /\ tVulnName t = n
            /\ Database.Description (Database.Vuln v) = Description (tVulnNode t).
Proof.
  unfold parseTriples.
  assert (forall done st,
    (forall n v, fst st !! n = Some v ->
       exists t, t ∈ done /\ tVulnName t = n
                 /\ Database.Description (Database.Vuln v) = Description (tVulnNode t)) ->
    forall n v, fst (fold_left tripleStep ts st) !! n = Some v ->
       exists t, t ∈ (done ++ ts)%list /\ tVulnName t = n
                 /\ Database.Description (Database.Vuln v) = Description (tVulnNode t))
    as Hfold.
  { induction ts as [|t ts IH]; intros done st Hst n' v'; cbn [fold_left].
    - rewrite app_nil_r. apply Hst.
    - replace (done ++ t :: ts)%list with ((done ++ [t]) ++ ts)%list
        by (by rewrite <- app_assoc).
      apply IH. clear n' v'. intros n' v'. destruct st as [m unk]. cbn [fst] in *.
      destruct (tripleStep_map m unk t) as [->|(w & -> & _ & Hdesc & _)].
      + intros Hl. destruct (Hst _ _ Hl) as (t0 & Ht0 & Hrest).
        exists t0. split; [|done]. apply elem_of_app. by left.
      + destruct (decide (n' = tVulnName t)) as [->|Hne].
        * rewrite lookup_insert_eq. intros [= <-].
          destruct (m !! tVulnName t) as [v0|] eqn:Hm; cbn in Hdesc.
          -- destruct (Hst _ _ Hm) as (t0 & Ht0 & Hn0 & Hd0).
             exists t0. split; [apply elem_of_app; by left|]. split; [done | congruence].
          -- exists t. split; [apply elem_of_app; right; apply elem_of_cons; by left|].
             done.
        * rewrite lookup_insert_ne by done. intros Hl.
          destruct (Hst _ _ Hl) as (t0 & Ht0 & Hrest).
          exists t0. split; [|done]. apply elem_of_app. by left. }
  intros Hl. apply (Hfold [] (∅, ∅)); [|done].
  intros n' v'. cbn [fst]. by rewrite lookup_empty.
Qed.

(** The feature an "open" triple produces. *)
Lemma produced_open (t : triple) :
  Status (tReleaseNode t) = "open" ->
  produced t
  = match DebianReleasesMapping !! tReleaseName t with
    | Some release =>
      if negb (String.prefix "CVE-" (tVulnName t)) || String.eqb MaxVersion ""
      then []
      else [{| Database.FeatureType_ := affectedType;
               Database.FeatureName := tPkgName t;
               Database.AffectedVersion := MaxVersion;
               Database.FixedInVersion := "";
               Database.AfNamespace := {|
                 Database.NsName := "debian:" +:+ release;
                 Database.VersionFormat := dpkg_ParserName |} |}]
    | None => []
    end.
Proof.
  intros Hopen. unfold produced, tripleStep, releaseStep. rewrite Hopen, lookup_empty.
  destruct (DebianReleasesMapping !! tReleaseName t) as [release|];
    [|by rewrite affectedOf_empty].
  destruct (String.prefix "CVE-" (tVulnName t)); cbn [negb orb String.eqb Ascii.eqb Bool.eqb fst];
    [|by rewrite affectedOf_empty].
  destruct (String.eqb MaxVersion ""); cbn [fst]; [by rewrite affectedOf_empty|].
  rewrite affectedOf_insert, decide_True by done.
  rewrite String.eqb_refl. cbn [negb]. by destruct (_ >? _)%Z.
Qed.

(** A "resolved" triple whose fixed version is the string 0 produces no
    feature. *)
Lemma produced_resolved_0 (t : triple) :
  Status (tReleaseNode t) = "resolved" -> FixedVersion (tReleaseNode t) = "0" ->
  produced t = [].
Proof.
  intros Hres Hfix. unfold produced, tripleStep, releaseStep.
  rewrite Hres, Hfix, lookup_empty.
  destruct (DebianReleasesMapping !! tReleaseName t) as [release|];
    [|by rewrite affectedOf_empty].
  destruct (String.prefix "CVE-" (tVulnName t)); cbn [negb orb String.eqb Ascii.eqb Bool.eqb fst];
    [|by rewrite affectedOf_empty].
  destruct (Valid dpkg_ParserName "0"); cbn [negb fst]; by rewrite affectedOf_empty.
Qed.

Lemma producedFor_skip (n : string) (ts : list triple) (skip : triple -> bool) :
  (forall t, skip t = true -> produced t = []) ->
  producedFor n ts = producedFor n (List.filter (fun t => negb (skip t)) ts).
Proof.
  intros Hskip. induction ts as [|t ts IH]; [done|].
  cbn [producedFor flat_map List.filter]. fold (producedFor n ts). rewrite IH.
  destruct (skip t) eqn:Ht; cbn [negb flat_map].
  - rewrite (Hskip _ Ht). by destruct (decide _).
  - done.
Qed.

(** C5: the loop body, run on a release whose status is "open", only ever
    appends to an [Affected] list a feature whose [AffectedVersion] is
    [MaxVersion] and whose [FixedInVersion] is empty; and when the release
    is mapped, the advisory is a CVE and [MaxVersion] is not the empty
    string, the batch holds the advisory with that feature for the package
    and the release. *)
Theorem open_triple_feature (data : jsonData) (pkgName : string)
    (pkgNode : list (string * jsonVuln)) (vulnName : string) (vulnNode : jsonVuln)
    (releaseName : string) (releaseNode : jsonRel) :
  (pkgName, pkgNode) ∈ data ->
  (vulnName, vulnNode) ∈ pkgNode ->
  (releaseName, releaseNode) ∈ Releases vulnNode ->
  Status releaseNode = "open" ->
  (forall st n, exists l,
      affectedOf (fst (releaseStep pkgName vulnName vulnNode st (releaseName, releaseNode))) n
      = (affectedOf (fst st) n ++ l)%list
      /\ forall f, f ∈ l ->
           Database.AffectedVersion f = MaxVersion /\ Database.FixedInVersion f = "")
  /\ (forall release,
        DebianReleasesMapping !! releaseName = Some release ->
        String.prefix "CVE-" vulnName = true ->
        MaxVersion <> "" ->
        exists v, v ∈ fst (parseDebianJSON data)
                  /\ Database.Name (Database.Vuln v) = vulnName
                  /\ {| Database.FeatureType_ := Database.SourcePackage;
                        Database.FeatureName := pkgName;
                        Database.AffectedVersion := MaxVersion;
                        Database.FixedInVersion := "";
                        Database.AfNamespace := {|
                          Database.NsName := "debian:" +:+ release;
                          Database.VersionFormat := dpkg_ParserName |} |}
                     ∈ Database.Affected v).
Proof.
  intros Hp Hv Hr Hopen.
  set (t := {| tPkgName := pkgName; tVulnName := vulnName; tVulnNode := vulnNode;
               tReleaseName := releaseName; tReleaseNode := releaseNode |}).
  pose proof (produced_open t Hopen) as Hprod. cbn in Hprod.
  split.
  - intros st n. pose proof (tripleStep_affected st t n) as Hstep.
    unfold tripleStep in Hstep. cbn in Hstep.
    eexists. split; [exact Hstep|].
    intros f Hf. destruct (decide (n = vulnName)); [|by inversion Hf].
    rewrite Hprod in Hf. destruct (DebianReleasesMapping !! releaseName); [|by inversion Hf].
    destruct (negb (String.prefix "CVE-" vulnName) || String.eqb MaxVersion "");
      [by inversion Hf|].
    apply list_elem_of_singleton in Hf as ->. done.
  - intros release Hrel Hcve Hmax.
    apply (parseDebianJSON_feature data t).
    + apply elem_of_triples. by exists pkgNode.
    + rewrite Hprod, Hrel, Hcve. apply String.eqb_neq in Hmax. rewrite Hmax. cbn.
      by apply list_elem_of_singleton.
Qed.

(** C6: the loop body, run on a "resolved" release whose fixed version is
    the string 0, leaves every [Affected] list as it is and binds no new
    name; and the [Affected] list of every advisory of the batch is made of
    the features produced by the triples of the document that are not
    such releases. *)
Theorem resolved_0_no_feature :
  (forall pkgName vulnName vulnNode releaseName releaseNode st n,
      Status releaseNode = "resolved" ->
      FixedVersion releaseNode = "0" ->
      let st' := releaseStep pkgName vulnName vulnNode st (releaseName, releaseNode) in
      affectedOf (fst st') n = affectedOf (fst st) n
      /\ (wellFormed (fst st) -> fst st' !! n = None <-> fst st !! n = None))
  /\ (forall data v,
        v ∈ fst (parseDebianJSON data) ->
        Database.Affected v
        = producedFor (Database.Name (Database.Vuln v))
            (List.filter (fun t => negb (resolved0 t)) (triples data))).
Proof.
  assert (forall t, resolved0 t = true -> produced t = []) as Hskip.
  { intros t Ht. unfold resolved0 in Ht. apply andb_prop in Ht as [H1 H2].
    apply String.eqb_eq in H1, H2. by apply produced_resolved_0. }
  split.
  - intros pkgName vulnName vulnNode releaseName releaseNode st n Hres Hfix st'.
    set (t := {| tPkgName := pkgName; tVulnName := vulnName; tVulnNode := vulnNode;
                 tReleaseName := releaseName; tReleaseNode := releaseNode |}).
    assert (produced t = []) as Hprod by (by apply produced_resolved_0).
    assert (forall n, affectedOf (fst st') n = affectedOf (fst st) n) as Haff.
    { intros n'. pose proof (tripleStep_affected st t n') as Hstep.
      unfold tripleStep in Hstep. cbn in Hstep. fold st' in Hstep.
      rewrite Hstep, Hprod. destruct (decide _); by rewrite app_nil_r. }
    split; [apply Haff|]. intros Hwf.
    assert (wellFormed (fst st')) as Hwf' by (by apply (tripleStep_wellFormed st t)).
    specialize (Haff n). unfold affectedOf in Haff.
    destruct (fst st' !! n) as [v'|] eqn:H1, (fst st !! n) as [v|] eqn:H2; try done.
    + destruct (Hwf' _ _ H1) as [_ Hne]. by rewrite Haff in Hne.
    + destruct (Hwf _ _ H2) as [_ Hne]. by rewrite <- Haff in Hne.
  - intros data v Hv. apply elem_of_parseDebianJSON in Hv as [n Hn].
    destruct (parseTriples_wellFormed _ _ _ Hn) as [-> _].
    rewrite <- (producedFor_skip _ _ resolved0 Hskip), <- parseTriples_affected.
    unfold affectedOf. by rewrite Hn.
Qed.

(** The batch of [buildResponse] is empty or the batch of
    [parseDebianJSON] on the decoded document. *)
Lemma buildResponse_vulnerabilities (jsonReader latestKnownHash : string) :
  Vulnsrc.Vulnerabilities (fst (buildResponse jsonReader latestKnownHash)) = []
  \/ exists teed data,
      json_Decode jsonReader = (teed, (data, None))
      /\ Vulnsrc.Vulnerabilities (fst (buildResponse jsonReader latestKnownHash))
         = fst (parseDebianJSON data).
Proof.
  unfold buildResponse.
  destruct (json_Decode jsonReader) as [teed [data [err|]]]; [by left|].
  destruct (String.eqb _ _); [by left|].
  right. exists teed, data. split; [done|]. by destruct (parseDebianJSON data).
Qed.

Lemma Update_vulnerabilities (datastore : Datastore) :
  Vulnsrc.Vulnerabilities (fst (Update datastore)) = []
  \/ exists r teed data,
      GetWithUserAgent url = Some r
      /\ json_Decode (Body r) = (teed, (data, None))
      /\ Vulnsrc.Vulnerabilities (fst (Update datastore)) = fst (parseDebianJSON data).
Proof.
  unfold Update.
  destruct (FindKeyValueAndRollback datastore updaterFlag) as [[latestHash ok] [err|]];
    [by left|].
  destruct (GetWithUserAgent url) as [r|]; [|by left].
  destruct (negb (Status2xx r)); [by left|].
  destruct (buildResponse_vulnerabilities (Body r) (if negb ok then "" else latestHash))
    as [Hnil|(teed & data & Hdec & Heq)].
  - left. by destruct (buildResponse _ _) as [resp [e|]].
  - right. exists r, teed, data. split; [done|]. split; [done|].
    by destruct (buildResponse _ _) as [resp [e|]].
Qed.

Lemma parseDebianJSON_affected_nonempty (data : jsonData)
    (v : Database.VulnerabilityWithAffected) :
  v ∈ fst (parseDebianJSON data) -> Database.Affected v <> [].
Proof.
  intros Hv. apply elem_of_parseDebianJSON in Hv as [n Hn].
  by apply (parseTriples_wellFormed _ _ _ Hn).
Qed.

(** The records of one advisory are merged: no two vulnerabilities of the
    batch have the same name. *)
Lemma parseDebianJSON_names_NoDup (data : jsonData) :
  NoDup (map (fun v => Database.Name (Database.Vuln v)) (fst (parseDebianJSON data))).
Proof.
  rewrite parseDebianJSON_triples. cbn [fst].
  pose proof (parseTriples_wellFormed (triples data)) as Hwf.
  pose proof (NoDup_fst_map_to_list (fst (parseTriples (triples data)))) as Hnd.
  replace (map (fun v => Database.Name (Database.Vuln v))
               (map_to_list (fst (parseTriples (triples data)))).*2)
    with ((map_to_list (fst (parseTriples (triples data)))).*1); [done|].
  assert (Forall (fun kv : string * Database.VulnerabilityWithAffected =>
                    Database.Name (Database.Vuln (snd kv)) = fst kv)
                 (map_to_list (fst (parseTriples (triples data))))) as Hall.
  { apply Forall_forall. intros [k v] Hin. apply elem_of_map_to_list in Hin.
    by apply (Hwf _ _ Hin). }
  clear Hnd Hwf. induction Hall as [|[k v] l Hkv _ IH]; [done|].
  cbn in *. by rewrite Hkv, IH.
Qed.

(** The merge of severities is idempotent: visiting a triple a second time
    leaves every severity as the first visit left it. *)
Lemma tripleStep_twice_severity (st : parseState) (t : triple) (n : string) :
  severityOf (fst (tripleStep (tripleStep st t) t)) n
  = severityOf (fst (tripleStep st t)) n.
Proof.
  destruct st as [m unk]. destruct t as [pkgName vulnName vulnNode releaseName releaseNode].
  unfold tripleStep, releaseStep, severityOf.
  cbn [fst snd tPkgName tVulnName tVulnNode tReleaseName tReleaseNode].
  destruct (DebianReleasesMapping !! releaseName) as [release|] eqn:Hrel; cbn [fst];
    rewrite ?Hrel; [|done].
  destruct (negb (String.prefix "CVE-" vulnName) || String.eqb (Status releaseNode) "undetermined")
    eqn:Hskip; rewrite ?Hrel, ?Hskip; [done|].
  destruct (m !! vulnName) as [v|] eqn:Hm;
    (destruct (String.eqb (Status releaseNode) "open");
     [|destruct (String.eqb (Status releaseNode) "resolved");
       [destruct (Valid dpkg_ParserName (FixedVersion releaseNode)); cbn [negb];
        [destruct (String.eqb (FixedVersion releaseNode) "0"); cbn [negb]|]|]]);
    change (String.eqb "" "") with true;
    repeat match goal with
           | |- context [String.eqb ?a ""] => destruct (String.eqb a "")
           end;
    cbn [fst]; rewrite ?Hrel, ?Hskip, ?lookup_insert_eq, ?Hm; cbn [fst];
    rewrite ?insert_insert_eq;
    (destruct (decide (n = vulnName)) as [->|Hne];
     [rewrite ?lookup_insert_eq | rewrite ?lookup_insert_ne by done; done]);
    try done;
    cbn [fmap option_fmap option_map]; f_equal;
    unfold appendAffected, setSeverity;
    repeat (match goal with
            | |- context [(Database.Compare ?a ?b >? 0)%Z] =>
              lazymatch b with
              | context [if _ then _ else _] => fail
              | _ =>
                first [ replace (Database.Compare a b >? 0)%Z with false
                          by (unfold Database.Compare; rewrite Z.sub_diag; reflexivity)
                      | destruct (Database.Compare a b >? 0)%Z eqn:? ]
              end
            end; cbn);
    try done; cbn in *; congruence.
Qed.

(** No batch comes with an error: the response that the Debian [Update]
    returns with an error is the empty one. *)
Lemma Debian_Update_error_empty (datastore : Datastore) (err : error) :
  snd (Update datastore) = Some err -> fst (Update datastore) = Vulnsrc.emptyResponse.
Proof.
  unfold Update.
  destruct (FindKeyValueAndRollback datastore updaterFlag) as [[latestHash ok] [e|]];
    [done|].
  destruct (GetWithUserAgent url) as [r|]; [|done].
  destruct (negb (Status2xx r)); [done|].
  unfold buildResponse.
  destruct (json_Decode (Body r)) as [teed [data [e|]]]; [done|].
  destruct (String.eqb _ _); [done|].
  by destruct (parseDebianJSON data).
Qed.


End Canonical.



(** C7 fails on the code: the same document, one advisory with an open
    release of urgency low and a resolved release of fixed version 0 and
    urgency high, yields severity High when the open release is visited
    first and severity Low when the resolved release is visited first. *)
Lemma severity_depends_on_visit_order :
  let parse := parseDebianJSON (vf := Fixtures.versionfmt)
                 (env := Fixtures.surroundings []) in
  Fixtures.releasesOpenFirst ≡ₚ Fixtures.releasesResolvedFirst
  /\ map (fun v => (Database.Name (Database.Vuln v), Database.Severity_ (Database.Vuln v)))
         (fst (parse (Fixtures.document Fixtures.releasesOpenFirst)))
     = [("CVE-1", Database.HighSeverity)]
  /\ map (fun v => (Database.Name (Database.Vuln v), Database.Severity_ (Database.Vuln v)))
         (fst (parse (Fixtures.document Fixtures.releasesResolvedFirst)))
     = [("CVE-1", Database.LowSeverity)]
  /\ map Database.Affected (fst (parse (Fixtures.document Fixtures.releasesOpenFirst)))
     = map Database.Affected (fst (parse (Fixtures.document Fixtures.releasesResolvedFirst))).
Proof.
  split; [apply perm_swap|]. vm_compute. repeat split; reflexivity.
Qed.

(** The open release of jessie in the fixture document. *)
Lemma open_triple_feature_witness :
  exists v,
    v ∈ fst (parseDebianJSON (vf := Fixtures.versionfmt) (env := Fixtures.trackerSurroundings)
               (Fixtures.document Fixtures.releasesOpenFirst))
    /\ Database.Name (Database.Vuln v) = "CVE-1"
    /\ {| Database.FeatureType_ := Database.SourcePackage;
          Database.FeatureName := "a";
          Database.AffectedVersion := "#MAXV#";
          Database.FixedInVersion := "";
          Database.AfNamespace := {|
            Database.NsName := "debian:8";
            Database.VersionFormat := "dpkg" |} |}
       ∈ Database.Affected v.
Proof.
  destruct (open_triple_feature (vf := Fixtures.versionfmt)
              (env := Fixtures.trackerSurroundings)
              (Fixtures.document Fixtures.releasesOpenFirst)
              "a"
              [("CVE-1", {| Description := "x  y ";
                            Releases := Fixtures.releasesOpenFirst |})]
              "CVE-1"
              {| Description := "x  y "; Releases := Fixtures.releasesOpenFirst |}
              "jessie" (Fixtures.rel "open" "" "low")) as [_ Hbatch].
  - apply list_elem_of_In. simpl. left. reflexivity.
  - apply list_elem_of_In. simpl. left. reflexivity.
  - apply list_elem_of_In. simpl. left. reflexivity.
  - reflexivity.
  - apply (Hbatch "8").
    + vm_compute. reflexivity.
    + reflexivity.
    + simpl. discriminate.
Defined.

(** The resolved release of stretch in the fixture document. *)
Lemma resolved_0_no_feature_witness :
  affectedOf
    (fst (releaseStep (vf := Fixtures.versionfmt) (env := Fixtures.trackerSurroundings)
            "a" "CVE-1"
            {| Description := "x  y "; Releases := Fixtures.releasesOpenFirst |}
            (∅, ∅) ("stretch", Fixtures.rel "resolved" "0" "high")))
    "CVE-1"
  = affectedOf ∅ "CVE-1"
  /\ Database.Affected Fixtures.debianVulnerability
     = producedFor (vf := Fixtures.versionfmt) (env := Fixtures.trackerSurroundings)
         (Database.Name (Database.Vuln Fixtures.debianVulnerability))
         (List.filter (fun t => negb (resolved0 t))
            (triples (Fixtures.document Fixtures.releasesOpenFirst))).
Proof.
  destruct (resolved_0_no_feature (vf := Fixtures.versionfmt)
              (env := Fixtures.trackerSurroundings)) as [Hstep Hbatch].
  split.
  - apply (Hstep "a" "CVE-1"
             {| Description := "x  y "; Releases := Fixtures.releasesOpenFirst |}
             "stretch" (Fixtures.rel "resolved" "0" "high") (∅, ∅) "CVE-1").
    + reflexivity.
    + reflexivity.
  - apply (Hbatch (Fixtures.document Fixtures.releasesOpenFirst)
             Fixtures.debianVulnerability).
    apply list_elem_of_In. vm_compute. left. reflexivity.
Defined.

End DebianFacts.

(** ** Facts about both updaters *)

Module UpdaterFacts.

Section Both.

Context {vf : Versionfmt} {http : Httputil}
        {calls : Amzn.Stdlib_calls} {env : Debian.Surroundings}.

(** C10: every vulnerability of the batch of a response of the Amazon
    updater, and every vulnerability of the batch of a response of the
    Debian updater, has at least one affected feature. *)
Theorem batch_affected_nonempty :
  (forall u datastore resp e v,
      Amzn.Update u datastore = Returns (resp, e) ->
      v ∈ Vulnsrc.Vulnerabilities resp ->
      Database.Affected v <> [])
  /\ (forall datastore v,
        v ∈ Vulnsrc.Vulnerabilities (fst (Debian.Update datastore)) ->
        Database.Affected v <> []).
Proof.
  split.
  - intros u datastore resp e v Hret Hv.
    destruct (AmznFacts.Update_builtFrom u datastore resp e v Hret Hv)
      as (a & _ & _ & _ & _ & _ & Haff & Hne).
    by rewrite Haff.
  - intros datastore v Hv.
    destruct (DebianFacts.Update_vulnerabilities datastore)
      as [Hnil|(r & teed & data & _ & _ & Heq)].
    + rewrite Hnil in Hv. inversion Hv.
    + rewrite Heq in Hv. by apply DebianFacts.parseDebianJSON_affected_nonempty in Hv.
Qed.

(** C9, as the code has it: the description of every vulnerability of a
    response of the Amazon updater is the description of an advisory of
    the document with its outer white space trimmed and every run of
    tabs, newlines, form feeds, carriage returns and spaces replaced by
    one space, and it is normalised; the description of every
    vulnerability of a response of the Debian updater is the description
    of a record of that advisory in the decoded document, as it is. *)
Theorem batch_descriptions :
  (forall u datastore resp e v,
      Amzn.Update u datastore = Returns (resp, e) ->
      v ∈ Vulnsrc.Vulnerabilities resp ->
      (exists a, a ∈ Amzn.ALASList (fst (Amzn.getUpdateInfo u))
                 /\ Database.Description (Database.Vuln v)
                    = Amzn.ReplaceAllString_space (Amzn.TrimSpace (Amzn.Description a)))
      /\ AmznSpec.normalised (Database.Description (Database.Vuln v)))
  /\ (forall datastore v,
        v ∈ Vulnsrc.Vulnerabilities (fst (Debian.Update datastore)) ->
        exists r teed data pkgName pkgNode vulnNode,
          GetWithUserAgent Debian.url = Some r
          /\ Debian.json_Decode (Body r) = (teed, (data, None))
          /\ (pkgName, pkgNode) ∈ data
          /\ (Database.Name (Database.Vuln v), vulnNode) ∈ pkgNode
          /\ Database.Description (Database.Vuln v) = Debian.Description vulnNode).
Proof.
  split.
  - intros u datastore resp e v Hret Hv.
    destruct (AmznFacts.Update_builtFrom u datastore resp e v Hret Hv)
      as (a & Ha & _ & _ & _ & Hdesc & _).
    unfold Amzn.alasToDescription in Hdesc. split.
    + by exists a.
    + rewrite Hdesc. apply AmznFacts.normalised_description.
  - intros datastore v Hv.
    destruct (DebianFacts.Update_vulnerabilities datastore)
      as [Hnil|(r & teed & data & Hget & Hdec & Heq)].
    { rewrite Hnil in Hv. inversion Hv. }
    rewrite Heq in Hv. apply DebianFacts.elem_of_parseDebianJSON in Hv as [n Hn].
    destruct (DebianFacts.parseTriples_wellFormed _ _ _ Hn) as [Hname _].
    apply DebianFacts.parseTriples_description in Hn as (t & Ht & Hvn & Hdesc).
    apply DebianFacts.elem_of_triples in Ht as (pkgNode & Hp & Hvuln & _).
    exists r, teed, data, (DebianSpec.tPkgName t), pkgNode, (DebianSpec.tVulnNode t).
    split; [done|]. split; [done|]. split; [done|]. split; [|done].
    by rewrite Hname, <- Hvn.
Qed.

End Both.

(** C9 as stated fails: the Debian updater emits the description of the
    tracker with its two inner spaces and its trailing space. *)
Lemma debian_description_not_normalised :
  map (fun v => Database.Description (Database.Vuln v))
      (Vulnsrc.Vulnerabilities
         (fst (Debian.Update (vf := Fixtures.versionfmt)
                 (http := Fixtures.trackerHttp Fixtures.trackerBody)
                 (env := Fixtures.trackerSurroundings) Fixtures.emptyDatastore)))
  = ["x  y "]
  /\ ~ AmznSpec.normalised "x  y "
  /\ Amzn.ReplaceAllString_space (Amzn.TrimSpace "x  y ") = "x y".
Proof.
  split; [vm_compute; reflexivity|]. split; [|vm_compute; reflexivity].
  intros (_ & Hend & _). vm_compute in Hend. discriminate.
Qed.

(** The descriptions of the first vulnerability of each fixture
    response. *)
Lemma batch_descriptions_witness :
  AmznSpec.normalised (Database.Description (Database.Vuln Fixtures.amznVulnerability))
  /\ exists r teed data pkgName pkgNode vulnNode,
      GetWithUserAgent (Httputil := Fixtures.trackerHttp Fixtures.trackerBody)
        (Debian.url (Surroundings := Fixtures.trackerSurroundings)) = Some r
      /\ Debian.json_Decode (Surroundings := Fixtures.trackerSurroundings) (Body r)
         = (teed, (data, None))
      /\ (pkgName, pkgNode) ∈ data
      /\ (Database.Name (Database.Vuln Fixtures.debianVulnerability), vulnNode) ∈ pkgNode
      /\ Database.Description (Database.Vuln Fixtures.debianVulnerability)
         = Debian.Description vulnNode.
Proof.
  destruct (batch_descriptions (vf := Fixtures.versionfmt) (http := Fixtures.mirrorHttp)
              (calls := Fixtures.mirrorCalls Fixtures.threeAdvisories)
              (env := Fixtures.trackerSurroundings)) as [Hamzn _].
  destruct (batch_descriptions (vf := Fixtures.versionfmt)
              (http := Fixtures.trackerHttp Fixtures.trackerBody)
              (calls := Fixtures.mirrorCalls Fixtures.threeAdvisories)
              (env := Fixtures.trackerSurroundings)) as [_ Hdebian].
  split.
  - apply (Hamzn Amzn.amazonLinux1Updater (Fixtures.datastoreWith "2019-12-31 23:59")
             Fixtures.responseAfter2019 None Fixtures.amznVulnerability).
    + vm_compute. reflexivity.
    + apply list_elem_of_In. simpl. left. reflexivity.
  - apply (Hdebian Fixtures.emptyDatastore Fixtures.debianVulnerability).
    apply list_elem_of_In. vm_compute. left. reflexivity.
Defined.

(** The features of the first vulnerability of each fixture response. *)
Lemma batch_affected_nonempty_witness :
  Database.Affected Fixtures.amznVulnerability <> []
  /\ Database.Affected Fixtures.debianVulnerability <> [].
Proof.
  destruct (batch_affected_nonempty (vf := Fixtures.versionfmt)
              (http := Fixtures.trackerHttp Fixtures.trackerBody)
              (calls := Fixtures.mirrorCalls Fixtures.threeAdvisories)
              (env := Fixtures.trackerSurroundings)) as [_ Hdebian].
  destruct (batch_affected_nonempty (vf := Fixtures.versionfmt)
              (http := Fixtures.mirrorHttp)
              (calls := Fixtures.mirrorCalls Fixtures.threeAdvisories)
              (env := Fixtures.trackerSurroundings)) as [Hamzn _].
  split.
  - apply (Hamzn Amzn.amazonLinux1Updater (Fixtures.datastoreWith "2019-12-31 23:59")
             Fixtures.responseAfter2019 None Fixtures.amznVulnerability).
    + vm_compute. reflexivity.
    + apply list_elem_of_In. simpl. left. reflexivity.
  - apply (Hdebian Fixtures.emptyDatastore Fixtures.debianVulnerability).
    apply list_elem_of_In. vm_compute. left. reflexivity.
Defined.

End UpdaterFacts.

(** ** Further properties of the Amazon updater *)

Module AmznProperties.

Import Amzn AmznSpec AmznFacts.

Lemma compare_refl (a : string) : String.compare a a = Eq.
Proof.
  induction a as [|c a IH]; [done|]. cbn.
  unfold Ascii.compare. by rewrite N.compare_refl.
Qed.

Lemma compareTimestamp_compare (a b : string) :
  compareTimestamp a b
  = match String.compare a b with Lt => -1 | Eq => 0 | Gt => 1 end%Z.
Proof.
  unfold compareTimestamp, String.ltb. rewrite (String.compare_antisym a b).
  by destruct (String.compare b a).
Qed.

(** [compareTimestamp] is a three-way comparison for a total order: its
    values are -1, 0 and 1, swapping the arguments negates the result, the
    result is 0 exactly for equal strings, and "at most" is transitive. *)
Theorem compareTimestamp_order (a b c : string) :
  (compareTimestamp a b = -1 \/ compareTimestamp a b = 0 \/ compareTimestamp a b = 1)%Z
  /\ (compareTimestamp a b = - compareTimestamp b a)%Z
  /\ (compareTimestamp a b = 0%Z <-> a = b)
  /\ ((compareTimestamp a b <= 0)%Z -> (compareTimestamp b c <= 0)%Z ->
      (compareTimestamp a c <= 0)%Z).
Proof.
  split; [|split; [|split]].
  - rewrite compareTimestamp_compare. destruct (String.compare a b); auto.
  - rewrite !compareTimestamp_compare, (String.compare_antisym a b).
    by destruct (String.compare b a).
  - rewrite compareTimestamp_compare. split.
    + destruct (String.compare a b) eqn:Hc; try done.
      intros _. by apply String.compare_eq_iff.
    + intros ->. by rewrite compare_refl.
  - rewrite !compareTimestamp_le. intros Hab Hbc. by etrans.
Qed.

(** The order on a year boundary and two later dates. *)
Lemma compareTimestamp_order_witness :
  (compareTimestamp "2019-12-31 23:59" "2020-02-01 00:00" <= 0)%Z.
Proof.
  destruct (compareTimestamp_order "2019-12-31 23:59" "2020-01-01 00:00" "2020-02-01 00:00")
    as (_ & _ & _ & Htrans).
  apply Htrans; vm_compute; discriminate.
Defined.

Lemma trimLeft_id (s : list ascii) : startsWithSpace s = false -> trimLeft s = s.
Proof.
  destruct s as [|c1 [|c2 [|c3 r3]]]; cbn; try done.
  - rewrite orb_false_r. by intros ->.
  - rewrite orb_false_r. intros H. apply orb_false_elim in H as [-> ->]. done.
  - intros H. apply orb_false_elim in H as [-> H].
    apply orb_false_elim in H as [-> ->]. done.
Qed.

Lemma trimLeftRev_id (s : list ascii) : startsWithSpaceRev s = false -> trimLeftRev s = s.
Proof.
  destruct s as [|c1 [|c2 [|c3 r3]]]; cbn; try done.
  - rewrite orb_false_r. by intros ->.
  - rewrite orb_false_r. intros H. apply orb_false_elim in H as [-> ->]. done.
  - intros H. apply orb_false_elim in H as [-> H].
    apply orb_false_elim in H as [-> ->]. done.
Qed.

Lemma replaceRuns_id (s : list ascii) :
  forall inRun, singleSpaced inRun s = true -> replaceRuns inRun s = s.
Proof.
  induction s as [|c r IH]; intros inRun; [done|]. cbn.
  destruct (reSpace c).
  - intros H. apply andb_prop in H as [H Hr]. apply andb_prop in H as [Hc Hb].
    apply Ascii.eqb_eq in Hc as ->. destruct inRun; [done|]. by rewrite IH.
  - intros Hr. by rewrite IH.
Qed.

(** A description is normalised exactly when the two calls of
    [alasToDescription] leave it as it is; in particular they are
    idempotent. *)
Theorem normalised_fixpoint (description : string) :
  (normalised description
   <-> ReplaceAllString_space (TrimSpace description) = description)
  /\ ReplaceAllString_space (TrimSpace (ReplaceAllString_space (TrimSpace description)))
     = ReplaceAllString_space (TrimSpace description).
Proof.
  assert (forall d, normalised d -> ReplaceAllString_space (TrimSpace d) = d) as Hfix.
  { intros d (Hs & He & Hr). unfold ReplaceAllString_space, TrimSpace, trimSpace.
    rewrite list_ascii_of_string_of_list_ascii.
    rewrite (trimLeft_id _ Hs), (trimLeftRev_id _ He), rev_involutive.
    rewrite (replaceRuns_id _ _ Hr). apply string_of_list_ascii_of_string. }
  split.
  - split; [apply Hfix|]. intros <-. apply normalised_description.
  - apply Hfix, normalised_description.
Qed.





Section Canonical.

Context {vf : Versionfmt} {http : Httputil} {calls : Stdlib_calls}.

(** The timestamp that [Update] tracks is empty only when no advisory is
    newer than the watermark. *)
Lemma tracked_timestamp_empty (watermark timestamp : string) (new : list ALAS) :
  new = List.filter (isNew watermark) new ->
  (forall a, a ∈ new -> String.le (Date (Updated_ a)) timestamp) ->
  timestamp = "" -> new = [].
Proof.
  intros Hnew Hall ->. destruct new as [|a0 rest]; [done|]. exfalso.
  assert (a0 ∈ a0 :: rest) as Ha0 by (apply elem_of_cons; by left).
  pose proof (le_empty _ (Hall _ Ha0)) as Hdate.
  assert (In a0 (List.filter (isNew watermark) (a0 :: rest))) as Hin
    by (rewrite <- Hnew; by left).
  apply filter_In in Hin as [_ Hn]. by apply isNew_date_nonempty in Hn.
Qed.

Lemma filter_none {A} (f : A -> bool) (l : list A) :
  (forall a, In a l -> f a = false) -> List.filter f l = [].
Proof.
  induction l as [|x l IH]; [done|]. intros Hall. cbn.
  rewrite (Hall x) by (by left). apply IH. intros a Ha. apply Hall. by right.
Qed.

Lemma filter_andb {A} (f g : A -> bool) (l : list A) :
  List.filter g (List.filter f l) = List.filter (fun a => f a && g a) l.
Proof.
  induction l as [|x l IH]; [done|]. cbn.
  destruct (f x); cbn; [|done]. destruct (g x); by rewrite IH.
Qed.

Lemma filter_filter_same {A} (f : A -> bool) (l : list A) :
  List.filter f l = List.filter f (List.filter f l).
Proof.
  induction l as [|x l IH]; [done|]. cbn. destruct (f x) eqn:Hx; [|done].
  cbn. by rewrite Hx, <- IH.
Qed.

(** The watermark only moves forward: a watermark that a response of
    [Update] carries is strictly greater than the stored one, and a
    response without a watermark has an empty batch. *)
Theorem Update_watermark_advances (u : updater) (datastore : Datastore)
    (flagValue : string) (found : bool) (updateInfo : UpdateInfo)
    (resp : Vulnsrc.UpdateResponse) :
  FindKeyValueAndRollback datastore (UpdaterFlag u) = (flagValue, found, None) ->
  getUpdateInfo u = (updateInfo, None) ->
  Update u datastore = Returns (resp, None) ->
  (Vulnsrc.FlagValue resp <> "" ->
   (compareTimestamp (Vulnsrc.FlagValue resp) (if found then flagValue else "") > 0)%Z)
  /\ (Vulnsrc.FlagValue resp = "" ->
      Vulnsrc.FlagName resp = "" /\ Vulnsrc.Vulnerabilities resp = []).
Proof.
  intros Hfind Hget Hret.
  destruct (Update_fetched u datastore flagValue found updateInfo Hfind Hget)
    as (ts & Hupd & Hall & Hin).
  assert ((if negb found then "" else flagValue) = (if found then flagValue else "")) as Hw
    by (by destruct found).
  rewrite Hw in Hupd, Hall, Hin. set (watermark := if found then flagValue else "") in *.
  rewrite Hupd in Hret.
  destruct (alasListToVulnerabilities u _) as [vs|] eqn:Hvs; [|discriminate].
  cbn in Hret. injection Hret as <-. cbn. split.
  - destruct (String.eqb_spec ts "") as [->|Hne]; [done|]. cbn. intros _.
    destruct Hin as [->|(a & Ha & ->)]; [done|].
    apply list_elem_of_In, filter_In in Ha as [_ Hn].
    unfold isNew in Hn. rewrite Z.gtb_ltb in Hn. apply Z.ltb_lt in Hn. lia.
  - destruct (String.eqb_spec ts "") as [Hts|Hne]; cbn; [|done]. intros _.
    split; [done|].
    rewrite (tracked_timestamp_empty watermark ts _ (filter_filter_same _ _) Hall Hts) in Hvs.
    by injection Hvs as <-.
Qed.

(** A second run on the same document, once the watermark of the first
    response is stored, makes no progress: its response is empty. *)
Theorem Update_rerun_empty (u : updater) (datastore datastore' : Datastore)
    (flagValue : string) (found : bool) (updateInfo : UpdateInfo)
    (resp : Vulnsrc.UpdateResponse) :
  FindKeyValueAndRollback datastore (UpdaterFlag u) = (flagValue, found, None) ->
  getUpdateInfo u = (updateInfo, None) ->
  Update u datastore = Returns (resp, None) ->
  Vulnsrc.FlagValue resp <> "" ->
  FindKeyValueAndRollback datastore' (UpdaterFlag u)
  = (Vulnsrc.FlagValue resp, true, None) ->
  Update u datastore' = Returns (Vulnsrc.emptyResponse, None).
Proof.
  intros Hfind Hget Hret Hflag Hfind'.
  destruct (Update_fetched u datastore flagValue found updateInfo Hfind Hget)
    as (ts & Hupd & Hall & Hin).
  set (watermark := if negb found then "" else flagValue) in *.
  rewrite Hupd in Hret.
  destruct (alasListToVulnerabilities u _) as [vs|] eqn:Hvs; [|discriminate].
  cbn in Hret. injection Hret as <-. cbn in Hflag, Hfind'.
  destruct (String.eqb_spec ts "") as [Hts|Hne]; cbn in Hflag, Hfind'; [done|].
  assert (String.le watermark ts /\ watermark <> ts) as [Hwt Hwne].
  { destruct Hin as [->|(a & Ha & ->)]; [done|].
    apply list_elem_of_In, filter_In in Ha as [_ Hn]. unfold isNew in Hn.
    rewrite compareTimestamp_gt, ltb_leb in Hn. apply negb_true_iff in Hn. split.
    - destruct (total String.le watermark (Date (Updated_ a))) as [Hle|Hle]; [done|].
      unfold String.le in Hle. by rewrite Hn in Hle.
    - intros Heq. rewrite <- Heq in Hn.
      pose proof (reflexivity (R := String.le) watermark) as Hrefl.
      unfold String.le in Hrefl. by rewrite Hn in Hrefl. }
  assert (List.filter (isNew ts) (ALASList updateInfo) = []) as Hnone.
  { apply filter_none. intros a Ha. unfold isNew.
    rewrite Z.gtb_ltb. apply Z.ltb_ge.
    pose proof (proj2 (compareTimestamp_le (Date (Updated_ a)) ts)) as Hle.
    apply Hle. destruct (isNew watermark a) eqn:Hn.
    - apply Hall, list_elem_of_In, filter_In. by split.
    - etrans; [|exact Hwt]. apply compareTimestamp_le.
      unfold isNew in Hn. rewrite Z.gtb_ltb in Hn. by apply Z.ltb_ge in Hn. }
  destruct (Update_fetched u datastore' ts true updateInfo Hfind' Hget)
    as (ts' & Hupd' & _ & Hin').
  cbn [negb] in Hupd', Hin'. rewrite Hnone in Hupd', Hin'.
  destruct Hin' as [->|(a & Ha & _)]; [exact Hupd' | inversion Ha].
Qed.

(** A missing watermark is the empty baseline: whatever value comes with
    a key that was not found, the batch is built from all the advisories
    whose date is not empty. *)
Theorem Update_missing_watermark (u : updater) (datastore : Datastore)
    (flagValue : string) (updateInfo : UpdateInfo) (resp : Vulnsrc.UpdateResponse) :
  FindKeyValueAndRollback datastore (UpdaterFlag u) = (flagValue, false, None) ->
  getUpdateInfo u = (updateInfo, None) ->
  Update u datastore = Returns (resp, None) ->
  alasListToVulnerabilities u
    (List.filter (fun a => negb (String.eqb (Date (Updated_ a)) "")) (ALASList updateInfo))
  = Returns (Vulnsrc.Vulnerabilities resp).
Proof.
  intros Hfind Hget Hret.
  destruct (Update_fetched u datastore flagValue false updateInfo Hfind Hget)
    as (ts & Hupd & _).
  cbn [negb] in Hupd. rewrite Hupd in Hret.
  assert (List.filter (isNew "") (ALASList updateInfo)
          = List.filter (fun a => negb (String.eqb (Date (Updated_ a)) ""))
                        (ALASList updateInfo)) as Heq.
  { apply List.filter_ext. intros a. apply compareTimestamp_gt_empty. }
  rewrite Heq in Hret.
  destruct (alasListToVulnerabilities u _) as [vs|]; [|discriminate].
  cbn in Hret. by injection Hret as <-.
Qed.

(** The features of an advisory: each has a version that the oracle
    accepts for the rpm format, the namespace of the updater with that
    format, the binary type, and the version as [FixedInVersion] unless
    the version is [MaxVersion]; they are the features of the packages
    with a valid version, in the order of the packages. *)
Theorem alasToFeatureVersions_features (u : updater) (alas : ALAS) :
  Forall (fun f =>
            Valid rpm_ParserName (Database.AffectedVersion f) = true
            /\ Database.AfNamespace f
               = {| Database.NsName := Namespace u;
                    Database.VersionFormat := rpm_ParserName |}
            /\ Database.FeatureType_ f = Database.BinaryPackage
            /\ Database.FixedInVersion f
               = if String.eqb (Database.AffectedVersion f) MaxVersion
                 then "" else Database.AffectedVersion f)
         (alasToFeatureVersions u alas)
  /\ map Database.FeatureName (alasToFeatureVersions u alas)
     = map PkgName
         (List.filter (fun p => Valid rpm_ParserName (packageVersion p)) (Packages alas))
  /\ (length (alasToFeatureVersions u alas) <= length (Packages alas))%nat.
Proof.
  rewrite alasToFeatureVersions_eq. unfold validPackage. split; [|split].
  - apply Forall_forall. intros f Hf.
    apply list_elem_of_In, in_map_iff in Hf as (p & <- & Hp).
    apply filter_In in Hp as [_ Hvalid]. cbn.
    repeat split; [done|]. by destruct (String.eqb _ _).
  - rewrite map_map. reflexivity.
  - rewrite length_map. apply List.filter_length_le.
Qed.

Lemma substring_full (s : string) : String.substring 0 (String.length s) s = s.
Proof. induction s as [|c s IH]; [done|]. cbn. by rewrite IH. Qed.

Lemma FindStringSubmatch_ALAS2_prefixed (rest : string) :
  FindStringSubmatch_ALAS2 ("ALAS2-" +:+ rest)
  = if String.eqb rest "" || hasNewline rest then None else Some rest.
Proof.
  unfold FindStringSubmatch_ALAS2.
  assert (String.prefix "ALAS2-" ("ALAS2-" +:+ rest) = true) as ->.
  { by destruct rest. }
  replace (String.substring 6 (String.length ("ALAS2-" +:+ rest) - 6) ("ALAS2-" +:+ rest))
    with rest; [done|].
  change (String.length ("ALAS2-" +:+ rest) - 6)%nat with (String.length rest - 0)%nat.
  rewrite Nat.sub_0_r. symmetry. apply substring_full.
Qed.

Lemma prefix_ALAS2 (id : string) :
  String.prefix "ALAS2-" id = true -> exists rest, id = "ALAS2-" +:+ rest.
Proof.
  intros H. apply String.prefix_correct in H.
  destruct id as [|c1 [|c2 [|c3 [|c4 [|c5 [|c6 rest]]]]]]; try discriminate.
  cbn in H. injection H as -> -> -> -> -> ->. by exists rest.
Qed.

Lemma FindStringSubmatch_ALAS2_spec (id group1 : string) :
  FindStringSubmatch_ALAS2 id = Some group1
  <-> id = "ALAS2-" +:+ group1 /\ group1 <> "" /\ hasNewline group1 = false.
Proof.
  split.
  - intros H. destruct (String.prefix "ALAS2-" id) eqn:Hp.
    + apply prefix_ALAS2 in Hp as [rest ->].
      rewrite FindStringSubmatch_ALAS2_prefixed in H.
      destruct (String.eqb rest "") eqn:Hne; [done|].
      destruct (hasNewline rest) eqn:Hnl; [done|].
      cbn in H. injection H as <-. by apply String.eqb_neq in Hne.
    + unfold FindStringSubmatch_ALAS2 in H. by rewrite Hp in H.
  - intros (-> & Hne & Hnl). rewrite FindStringSubmatch_ALAS2_prefixed, Hnl.
    apply String.eqb_neq in Hne. by rewrite Hne.
Qed.

(** The link of an advisory.  Only the Amazon Linux 2 updater can panic,
    and it does exactly when the identifier is not the prefix ALAS2-
    followed by a non-empty text without a newline; for such an
    identifier the link is the format applied to ALAS- and that text. *)
Theorem alasToLink_panics (u : updater) (alas : ALAS) :
  (Name u <> amazonLinux2Name -> exists link, alasToLink u alas = Returns link)
  /\ (Name u = amazonLinux2Name ->
      (alasToLink u alas = Panics
       <-> ~ exists rest, Id alas = "ALAS2-" +:+ rest /\ rest <> ""
                          /\ hasNewline rest = false)
      /\ (forall rest,
            Id alas = "ALAS2-" +:+ rest -> rest <> "" -> hasNewline rest = false ->
            alasToLink u alas = Returns (Sprintf (LinkFormat u) ("ALAS-" +:+ rest)))).
Proof.
  unfold alasToLink. split.
  - intros Hname. destruct (String.eqb (Name u) amazonLinux1Name); [by eexists|].
    destruct (String.eqb_spec (Name u) amazonLinux2Name); [done | by eexists].
  - intros ->. cbn [String.eqb]. change (String.eqb amazonLinux2Name amazonLinux1Name) with false.
    rewrite String.eqb_refl. split.
    + destruct (FindStringSubmatch_ALAS2 (Id alas)) as [g|] eqn:Hf.
      * split; [done|]. intros Hno. exfalso. apply Hno. exists g.
        by apply FindStringSubmatch_ALAS2_spec.
      * split; [|done]. intros _ (rest & Hid & Hne & Hnl).
        assert (FindStringSubmatch_ALAS2 (Id alas) = Some rest) as Hs
          by (by apply FindStringSubmatch_ALAS2_spec).
        congruence.
    + intros rest Hid Hne Hnl.
      assert (FindStringSubmatch_ALAS2 (Id alas) = Some rest) as ->
        by (by apply FindStringSubmatch_ALAS2_spec).
      done.
Qed.

Lemma alasListToVulnerabilities_loop_order (u : updater) (l : list ALAS) :
  forall acc vs,
    alasListToVulnerabilities_loop u l acc = Returns vs ->
    exists vs', vs = (acc ++ vs')%list
                /\ Forall2 (builtFrom u) (List.filter (hasFeatures u) l) vs'.
Proof.
  induction l as [|alas l IH]; intros acc vs;
    cbn [alasListToVulnerabilities_loop List.filter].
  - intros [= <-]. exists []. rewrite app_nil_r. split; [done | constructor].
  - unfold hasFeatures at 1.
    destruct (0 <? Z.of_nat (length (alasToFeatureVersions u alas)))%Z eqn:Hlen.
    + destruct (alasToLink u alas) as [link|] eqn:Hlink; [|discriminate].
      cbn. intros Hloop. apply IH in Hloop as (vs' & -> & Hall).
      eexists (_ :: vs'). rewrite <- app_assoc. split; [reflexivity|].
      constructor; [|done]. unfold builtFrom; cbn. repeat split; auto.
      intros Hnil. rewrite Hnil in Hlen. discriminate.
    + apply IH.
Qed.

Lemma alasListToVulnerabilities_loop_panics (u : updater) (l : list ALAS) :
  forall acc,
    alasListToVulnerabilities_loop u l acc = Panics
    <-> exists a, a ∈ l /\ hasFeatures u a = true /\ alasToLink u a = Panics.
Proof.
  induction l as [|alas l IH]; intros acc; cbn [alasListToVulnerabilities_loop].
  - split; [done|]. intros (a & Ha & _). inversion Ha.
  - destruct (0 <? Z.of_nat (length (alasToFeatureVersions u alas)))%Z eqn:Hlen.
    + destruct (alasToLink u alas) as [link|] eqn:Hlink; cbn.
      * rewrite IH. split.
        -- intros (a & Ha & Hrest). exists a. split; [|done]. apply elem_of_cons. by right.
        -- intros (a & Ha & Hf & Hp). apply elem_of_cons in Ha as [->|Ha]; [congruence|].
           by exists a.
      * split; [|done]. intros _. exists alas. split; [apply elem_of_cons; by left|].
        by split.
    + rewrite IH. split.
      * intros (a & Ha & Hrest). exists a. split; [|done]. apply elem_of_cons. by right.
      * intros (a & Ha & Hf & Hp). apply elem_of_cons in Ha as [->|Ha].
        -- unfold hasFeatures in Hf. congruence.
        -- by exists a.
Qed.

(** The batch follows the document: when [Update] returns without error,
    its vulnerabilities are, one for one and in the order of the
    document, built from the advisories that are newer than the watermark
    and have a feature. *)
Theorem Update_batch_order (u : updater) (datastore : Datastore)
    (flagValue : string) (found : bool) (updateInfo : UpdateInfo)
    (resp : Vulnsrc.UpdateResponse) :
  FindKeyValueAndRollback datastore (UpdaterFlag u) = (flagValue, found, None) ->
  getUpdateInfo u = (updateInfo, None) ->
  Update u datastore = Returns (resp, None) ->
  Forall2 (builtFrom u)
    (List.filter
       (fun a => isNew (if found then flagValue else "") a && hasFeatures u a)
       (ALASList updateInfo))
    (Vulnsrc.Vulnerabilities resp).
Proof.
  intros Hfind Hget Hret.
  destruct (Update_fetched u datastore flagValue found updateInfo Hfind Hget)
    as (ts & Hupd & _).
  assert ((if negb found then "" else flagValue) = (if found then flagValue else "")) as Hw
    by (by destruct found).
  rewrite Hw, Hupd in *.
  destruct (alasListToVulnerabilities u _) as [vs|] eqn:Hvs; [|discriminate].
  cbn in Hret. injection Hret as <-. cbn.
  apply alasListToVulnerabilities_loop_order in Hvs as (vs' & -> & Hall).
  cbn [app]. by rewrite <- filter_andb.
Qed.

(** [Update] panics exactly when the watermark is read, the document is
    fetched, and some advisory newer than the watermark has a feature and
    a link that panics. *)
Theorem Update_panics (u : updater) (datastore : Datastore) :
  Update u datastore = Panics
  <-> exists flagValue found updateInfo a,
      FindKeyValueAndRollback datastore (UpdaterFlag u) = (flagValue, found, None)
      /\ getUpdateInfo u = (updateInfo, None)
      /\ a ∈ ALASList updateInfo
      /\ isNew (if found then flagValue else "") a = true
      /\ alasToFeatureVersions u a <> []
      /\ alasToLink u a = Panics.
Proof.
  split.
  - intros Hp.
    destruct (FindKeyValueAndRollback datastore (UpdaterFlag u))
      as [[flagValue found] [err|]] eqn:Hfind.
    { unfold Update in Hp. by rewrite Hfind in Hp. }
    destruct (getUpdateInfo u) as [updateInfo [err|]] eqn:Hget.
    { unfold Update in Hp. by rewrite Hfind, Hget in Hp. }
    destruct (Update_fetched u datastore flagValue found updateInfo Hfind Hget)
      as (ts & Hupd & _).
    assert ((if negb found then "" else flagValue) = (if found then flagValue else ""))
      as Hw by (by destruct found).
    rewrite Hw, Hp in Hupd.
    destruct (alasListToVulnerabilities u _) as [vs|] eqn:Hvs; [discriminate|].
    apply alasListToVulnerabilities_loop_panics in Hvs as (a & Ha & Hf & Hlink).
    apply list_elem_of_In, filter_In in Ha as [Ha Hn].
    exists flagValue, found, updateInfo, a. repeat split; auto.
    + by apply list_elem_of_In.
    + intros Hnil. unfold hasFeatures in Hf. by rewrite Hnil in Hf.
  - intros (flagValue & found & updateInfo & a & Hfind & Hget & Ha & Hn & Hf & Hlink).
    destruct (Update_fetched u datastore flagValue found updateInfo Hfind Hget)
      as (ts & Hupd & _).
    assert ((if negb found then "" else flagValue) = (if found then flagValue else ""))
      as Hw by (by destruct found).
    rewrite Hw in Hupd. rewrite Hupd.
    assert (alasListToVulnerabilities u
              (List.filter (isNew (if found then flagValue else "")) (ALASList updateInfo))
            = Panics) as ->; [|done].
    apply alasListToVulnerabilities_loop_panics. exists a. split; [|split; [|done]].
    + apply list_elem_of_In, filter_In. split; [by apply list_elem_of_In | done].
    + unfold hasFeatures. destruct (alasToFeatureVersions u a); [done|].
      apply Z.ltb_lt. cbn [length]. lia.
Qed.

Lemma findUpdateInfoURI_spec (mirrorURI : string) (repoList : list Repo) :
  (Forall (fun repo => Type_ repo <> "updateinfo") repoList
   /\ findUpdateInfoURI mirrorURI repoList "" = "")
  \/ (exists before repo after,
        repoList = (before ++ repo :: after)%list
        /\ Forall (fun repo => Type_ repo <> "updateinfo") before
        /\ Type_ repo = "updateinfo"
        /\ findUpdateInfoURI mirrorURI repoList ""
           = mirrorURI +:+ "/" +:+ Href (Location_ repo)).
Proof.
  induction repoList as [|repo l IH]; cbn [findUpdateInfoURI].
  - left. by split.
  - destruct (String.eqb_spec (Type_ repo) "updateinfo") as [Heq|Hne].
    + right. exists [], repo, l. by repeat split.
    + destruct IH as [[Hall Hnone]|(before & r & after & -> & Hall & Ht & Heq)].
      * left. split; [by constructor | done].
      * right. exists (repo :: before), r, after. repeat split; auto.
Qed.

Lemma append_nonempty (a b : string) : b <> "" -> a +:+ b <> "".
Proof. intros Hb. destruct a; [done|]. discriminate. Qed.

(** The address of the update-info document: [getUpdateInfoURI] succeeds
    exactly when the mirror list and the repository metadata are fetched
    with a 2xx status, the metadata decodes and lists an entry of type
    updateinfo; the address is then that of the first such entry under
    the first mirror, and it is not empty. *)
Theorem getUpdateInfoURI_first_entry (u : updater) (updateInfoURI : string) :
  getUpdateInfoURI u = (updateInfoURI, None)
  <-> exists mirrorListResponse repoMdResponse repoMd before repo after,
      GetWithUserAgent (MirrorListURI u) = Some mirrorListResponse
      /\ Status2xx mirrorListResponse = true
      /\ GetWithUserAgent
           (scanFirstLine (Body mirrorListResponse) +:+ "/repodata/repomd.xml")
         = Some repoMdResponse
      /\ Status2xx repoMdResponse = true
      /\ xml_Decode_RepoMd (Body repoMdResponse) = (repoMd, None)
      /\ RepoList repoMd = (before ++ repo :: after)%list
      /\ Forall (fun repo => Type_ repo <> "updateinfo") before
      /\ Type_ repo = "updateinfo"
      /\ updateInfoURI
         = scanFirstLine (Body mirrorListResponse) +:+ "/" +:+ Href (Location_ repo)
      /\ updateInfoURI <> "".
Proof.
  unfold getUpdateInfoURI. split.
  - destruct (GetWithUserAgent (MirrorListURI u)) as [mlr|] eqn:Hml; [|done].
    destruct (Status2xx mlr) eqn:Hml2; [|done]. cbn [negb].
    destruct (GetWithUserAgent (scanFirstLine (Body mlr) +:+ "/repodata/repomd.xml"))
      as [mdr|] eqn:Hmd; [|done].
    destruct (Status2xx mdr) eqn:Hmd2; [|done]. cbn [negb].
    destruct (xml_Decode_RepoMd (Body mdr)) as [repoMd [err|]] eqn:Hdec; [done|].
    destruct (findUpdateInfoURI_spec (scanFirstLine (Body mlr)) (RepoList repoMd))
      as [[_ Hnone]|(before & repo & after & Hlist & Hall & Ht & Heq)].
    + by rewrite Hnone.
    + rewrite Heq.
      assert (scanFirstLine (Body mlr) +:+ "/" +:+ Href (Location_ repo) <> "") as Hne.
      { apply append_nonempty. discriminate. }
      apply String.eqb_neq in Hne as Hb. rewrite Hb. intros [= <-].
      exists mlr, mdr, repoMd, before, repo, after. by repeat split.
  - intros (mlr & mdr & repoMd & before & repo & after
            & -> & -> & -> & -> & -> & Hlist & Hall & Ht & -> & Hne).
    cbn [negb].
    destruct (findUpdateInfoURI_spec (scanFirstLine (Body mlr)) (RepoList repoMd))
      as [[Hnone _]|(before' & repo' & after' & Hlist' & Hall' & Ht' & Heq)].
    + rewrite Hlist in Hnone. apply Forall_app in Hnone as [_ Hnone].
      apply Forall_cons in Hnone as [Hnone _]. done.
    + rewrite Heq.
      assert (repo' = repo) as ->.
      { rewrite Hlist in Hlist'. clear -Hlist' Hall Hall' Ht Ht'.
        revert before' Hlist' Hall'.
        induction before as [|b before IH]; intros [|b' before'] Hl Hall'.
        - by injection Hl as ->.
        - injection Hl as -> _. apply Forall_cons in Hall' as [Hb _]. done.
        - injection Hl as <- _. apply Forall_cons in Hall as [Hb _]. done.
        - injection Hl as _ Hl. apply Forall_cons in Hall as [_ Hall].
          apply Forall_cons in Hall' as [_ Hall']. by apply (IH Hall before'). }
      apply String.eqb_neq in Hne. by rewrite Hne.
Qed.

(** The errors of [Update]: an error of the datastore is returned as it
    is, every other error is the download error or the parse error, the
    parse error only comes from decompressing or decoding an update-info
    document that was fetched with a 2xx status, and the response that
    comes with an error is empty. *)
Theorem Update_errors (u : updater) (datastore : Datastore)
    (resp : Vulnsrc.UpdateResponse) (err : error) :
  Update u datastore = Returns (resp, Some err) ->
  resp = Vulnsrc.emptyResponse
  /\ ((exists flagValue found,
         FindKeyValueAndRollback datastore (UpdaterFlag u) = (flagValue, found, Some err))
      \/ err = ErrCouldNotDownload
      \/ (err = ErrCouldNotParse
          /\ exists updateInfoURI updateInfoResponse,
              getUpdateInfoURI u = (updateInfoURI, None)
              /\ GetWithUserAgent updateInfoURI = Some updateInfoResponse
              /\ Status2xx updateInfoResponse = true
              /\ (gzip_NewReader (Body updateInfoResponse) = None
                  \/ exists updateInfoXml partial e,
                      gzip_NewReader (Body updateInfoResponse) = Some updateInfoXml
                      /\ xml_Decode_UpdateInfo updateInfoXml = (partial, Some e)))).
Proof.
  intros Hret. split; [by apply (Update_error_empty u datastore resp err)|].
  unfold Update in Hret.
  destruct (FindKeyValueAndRollback datastore (UpdaterFlag u))
    as [[flagValue found] [e|]] eqn:Hfind.
  { simplify_eq. left. by exists flagValue, found. }
  right.
  destruct (getUpdateInfo u) as [updateInfo [e|]] eqn:Hget.
  - simplify_eq. unfold getUpdateInfo in Hget.
    destruct (getUpdateInfoURI u) as [uri [e|]] eqn:Huri.
    { simplify_eq. left. unfold getUpdateInfoURI in Huri.
      repeat match type of Huri with
             | context [match ?x with _ => _ end] => destruct x
             end; by simplify_eq. }
    destruct (GetWithUserAgent uri) as [r|] eqn:Hr; [|simplify_eq; by left].
    destruct (Status2xx r) eqn:H2xx; cbn [negb] in Hget; [|simplify_eq; by left].
    right. destruct (gzip_NewReader (Body r)) as [xml|] eqn:Hgz.
    + unfold decodeUpdateInfo in Hget.
      destruct (xml_Decode_UpdateInfo xml) as [partial [e|]] eqn:Hdec; [|done].
      simplify_eq. split; [done|]. exists uri, r. repeat split; auto.
      right. by exists xml, partial, e.
    + simplify_eq. split; [done|]. exists uri, r. repeat split; auto.
  - destruct (fold_left _ _ _) as [alasList timestamp].
    by destruct (alasListToVulnerabilities u alasList).
Qed.

End Canonical.

(** *** The properties on the fixture mirror *)

(** The description of the fixture advisory, once normalised. *)
Lemma normalised_fixpoint_witness : normalised "A flaw in foo.".
Proof.
  apply (proj1 (normalised_fixpoint "A flaw in foo.")). vm_compute. reflexivity.
Defined.

(** The watermark of the run after 2019 is past the stored one. *)
Lemma Update_watermark_advances_witness :
  (compareTimestamp (Vulnsrc.FlagValue Fixtures.responseAfter2019) "2019-12-31 23:59" > 0)%Z.
Proof.
  destruct (Update_watermark_advances (vf := Fixtures.versionfmt)
              (http := Fixtures.mirrorHttp)
              (calls := Fixtures.mirrorCalls Fixtures.threeAdvisories)
              amazonLinux1Updater (Fixtures.datastoreWith "2019-12-31 23:59")
              "2019-12-31 23:59" true Fixtures.threeAdvisories
              Fixtures.responseAfter2019) as [Hadvance _].
  - reflexivity.
  - vm_compute. reflexivity.
  - vm_compute. reflexivity.
  - apply Hadvance. vm_compute. discriminate.
Defined.

(** The run that follows the run after 2019, on the same document. *)
Lemma Update_rerun_empty_witness :
  Update (vf := Fixtures.versionfmt) (http := Fixtures.mirrorHttp)
    (calls := Fixtures.mirrorCalls Fixtures.threeAdvisories) amazonLinux1Updater
    (Fixtures.datastoreWith (Vulnsrc.FlagValue Fixtures.responseAfter2019))
  = Returns (Vulnsrc.emptyResponse, None).
Proof.
  apply (Update_rerun_empty (vf := Fixtures.versionfmt) (http := Fixtures.mirrorHttp)
           (calls := Fixtures.mirrorCalls Fixtures.threeAdvisories)
           amazonLinux1Updater (Fixtures.datastoreWith "2019-12-31 23:59")
           (Fixtures.datastoreWith (Vulnsrc.FlagValue Fixtures.responseAfter2019))
           "2019-12-31 23:59" true Fixtures.threeAdvisories Fixtures.responseAfter2019).
  - reflexivity.
  - vm_compute. reflexivity.
  - vm_compute. reflexivity.
  - vm_compute. discriminate.
  - reflexivity.
Defined.

(** The first run on the three advisories, which all carry a date. *)
Lemma Update_missing_watermark_witness :
  alasListToVulnerabilities (vf := Fixtures.versionfmt)
    (calls := Fixtures.mirrorCalls Fixtures.threeAdvisories) amazonLinux1Updater
    (List.filter (fun a => negb (String.eqb (Date (Updated_ a)) ""))
       (ALASList Fixtures.threeAdvisories))
  = Returns (Vulnsrc.Vulnerabilities Fixtures.responseFirstRun).
Proof.
  apply (Update_missing_watermark (vf := Fixtures.versionfmt) (http := Fixtures.mirrorHttp)
           (calls := Fixtures.mirrorCalls Fixtures.threeAdvisories)
           amazonLinux1Updater Fixtures.emptyDatastore "" Fixtures.threeAdvisories
           Fixtures.responseFirstRun).
  - reflexivity.
  - vm_compute. reflexivity.
  - vm_compute. reflexivity.
Defined.

(** An identifier of the first distribution under the second updater. *)
Lemma alasToLink_panics_witness :
  alasToLink (calls := Fixtures.mirrorCalls Fixtures.threeAdvisories)
    amazonLinux2Updater Fixtures.alas1 = Panics.
Proof.
  destruct (alasToLink_panics (calls := Fixtures.mirrorCalls Fixtures.threeAdvisories)
              amazonLinux2Updater Fixtures.alas1) as [_ Hsecond].
  destruct (Hsecond eq_refl) as [Hpanics _].
  apply Hpanics. intros (rest & Hid & _). vm_compute in Hid. discriminate.
Defined.

(** The batch of the run after 2019 follows the document. *)
Lemma Update_batch_order_witness :
  Forall2 (builtFrom (vf := Fixtures.versionfmt)
             (calls := Fixtures.mirrorCalls Fixtures.threeAdvisories) amazonLinux1Updater)
    (List.filter
       (fun a => isNew "2019-12-31 23:59" a
                 && hasFeatures (vf := Fixtures.versionfmt) amazonLinux1Updater a)
       (ALASList Fixtures.threeAdvisories))
    (Vulnsrc.Vulnerabilities Fixtures.responseAfter2019).
Proof.
  apply (Update_batch_order (vf := Fixtures.versionfmt) (http := Fixtures.mirrorHttp)
           (calls := Fixtures.mirrorCalls Fixtures.threeAdvisories)
           amazonLinux1Updater (Fixtures.datastoreWith "2019-12-31 23:59")
           "2019-12-31 23:59" true Fixtures.threeAdvisories Fixtures.responseAfter2019).
  - reflexivity.
  - vm_compute. reflexivity.
  - vm_compute. reflexivity.
Defined.

(** The second updater on a document of the first distribution. *)
Lemma Update_panics_witness :
  Update (vf := Fixtures.versionfmt) (http := Fixtures.mirrorHttp)
    (calls := Fixtures.mirrorCalls Fixtures.threeAdvisories) amazonLinux2Updater
    Fixtures.emptyDatastore
  = Panics.
Proof.
  apply (Update_panics (vf := Fixtures.versionfmt) (http := Fixtures.mirrorHttp)
           (calls := Fixtures.mirrorCalls Fixtures.threeAdvisories)
           amazonLinux2Updater Fixtures.emptyDatastore).
  exists "", false, Fixtures.threeAdvisories, Fixtures.alas0.
  split; [reflexivity|]. split; [vm_compute; reflexivity|].
  split; [apply list_elem_of_In; simpl; left; reflexivity|].
  split; [vm_compute; reflexivity|].
  split; vm_compute; [discriminate | reflexivity].
Defined.

(** The update-info entry of the fixture repository metadata. *)
Lemma getUpdateInfoURI_first_entry_witness :
  getUpdateInfoURI (http := Fixtures.mirrorHttp)
    (calls := Fixtures.mirrorCalls Fixtures.threeAdvisories) amazonLinux1Updater
  = ("http://mirror/repodata/updateinfo.xml.gz", None).
Proof.
  apply (getUpdateInfoURI_first_entry (http := Fixtures.mirrorHttp)
           (calls := Fixtures.mirrorCalls Fixtures.threeAdvisories)
           amazonLinux1Updater "http://mirror/repodata/updateinfo.xml.gz").
  exists (Fixtures.ok "http://mirror"), (Fixtures.ok "<repomd/>"), Fixtures.repoMd,
    [{| Type_ := "primary"; Location_ := {| Href := "repodata/primary.xml.gz" |} |}],
    {| Type_ := "updateinfo"; Location_ := {| Href := "repodata/updateinfo.xml.gz" |} |},
    [].
  split; [reflexivity|]. split; [reflexivity|]. split; [reflexivity|].
  split; [reflexivity|]. split; [reflexivity|]. split; [reflexivity|].
  split; [repeat constructor; simpl; discriminate|].
  split; [reflexivity|]. split; [reflexivity | discriminate].
Defined.

(** The run on a mirror whose update-info document does not decode. *)
Lemma Update_errors_witness :
  exists updateInfoURI updateInfoResponse,
    getUpdateInfoURI (http := Fixtures.mirrorHttp) (calls := Fixtures.brokenUpdateInfoCalls)
      amazonLinux1Updater = (updateInfoURI, None)
    /\ GetWithUserAgent (Httputil := Fixtures.mirrorHttp) updateInfoURI
       = Some updateInfoResponse
    /\ Status2xx updateInfoResponse = true
    /\ (gzip_NewReader (Stdlib_calls := Fixtures.brokenUpdateInfoCalls)
          (Body updateInfoResponse) = None
        \/ exists updateInfoXml partial e,
            gzip_NewReader (Stdlib_calls := Fixtures.brokenUpdateInfoCalls)
              (Body updateInfoResponse) = Some updateInfoXml
            /\ xml_Decode_UpdateInfo (Stdlib_calls := Fixtures.brokenUpdateInfoCalls)
                 updateInfoXml = (partial, Some e)).
Proof.
  destruct (Update_errors (vf := Fixtures.versionfmt) (http := Fixtures.mirrorHttp)
              (calls := Fixtures.brokenUpdateInfoCalls)
              amazonLinux1Updater Fixtures.emptyDatastore
              Vulnsrc.emptyResponse ErrCouldNotParse)
    as [_ [(flagValue & found & Hstore)|[Hdownload|[_ Hparse]]]].
  - vm_compute. reflexivity.
  - vm_compute in Hstore. discriminate.
  - discriminate.
  - exact Hparse.
Defined.

End AmznProperties.

(** ** Further properties of the Debian updater *)

Module DebianProperties.

Import Debian DebianSpec DebianFacts.

(** The digest has 32 bytes and its hexadecimal form 64 characters. *)
Lemma round_length (st : list Z) (kw : Z * Z) :
  length st = 8%nat -> length (Sha256.round st kw) = 8%nat.
Proof.
  destruct st as [|a [|b [|c [|d [|e [|f [|g [|h [|i st]]]]]]]]]; try discriminate.
  done.
Qed.

Lemma block_length (h blockBytes : list Z) :
  length h = 8%nat -> length (Sha256.block h blockBytes) = 8%nat.
Proof.
  intros Hh. unfold Sha256.block. rewrite length_map, List.length_combine.
  assert (forall kws st, length st = 8%nat ->
                         length (fold_left Sha256.round kws st) = 8%nat) as Hfold.
  { induction kws as [|kw kws IH]; intros st Hst; [done|]. cbn.
    by apply IH, round_length. }
  rewrite Hfold by done. rewrite Hh. reflexivity.
Qed.

Lemma blocks_length (n : nat) :
  forall h bytes, length h = 8%nat -> length (Sha256.blocks n h bytes) = 8%nat.
Proof.
  induction n as [|n IH]; intros h bytes Hh; [done|]. cbn.
  destruct bytes; [done|]. by apply IH, block_length.
Qed.

Lemma Sum_length (s : string) : length (Sha256.Sum s) = 32%nat.
Proof.
  unfold Sha256.Sum.
  assert (forall l, length (flat_map (Sha256.bigEndian 4) l) = (4 * length l)%nat) as Hflat.
  { induction l as [|x l IH]; [done|]. cbn [flat_map]. rewrite length_app, IH. cbn. lia. }
  rewrite Hflat, blocks_length; done.
Qed.

Lemma EncodeToString_length (bytes : list Z) :
  String.length (Sha256.EncodeToString bytes) = (2 * length bytes)%nat.
Proof. induction bytes as [|b l IH]; [done|]. cbn. rewrite IH. lia. Qed.

Section Canonical.

Context {vf : Versionfmt} {http : Httputil} {env : Surroundings}.

(** The features of a triple: at most one, for a mapped release of a CVE
    advisory with a version. *)
Lemma produced_elem (t : triple) (f : Database.AffectedFeature) :
  f ∈ produced t
  <-> exists release version,
      DebianReleasesMapping !! tReleaseName t = Some release
      /\ String.prefix "CVE-" (tVulnName t) = true
      /\ releaseVersion (tReleaseNode t) version
      /\ version <> ""
      /\ f = releaseFeature (tPkgName t) release version.
Proof.
  destruct t as [pkgName vulnName vulnNode releaseName releaseNode].
  unfold produced, tripleStep, releaseStep, releaseVersion, releaseFeature.
  cbn [fst snd tPkgName tVulnName tVulnNode tReleaseName tReleaseNode].
  rewrite lookup_empty.
  destruct (DebianReleasesMapping !! releaseName) as [release|]; cbn [fst];
    [|rewrite affectedOf_empty; split; [by intros H; inversion H | by intros (? & ? & ? & _)]].
  destruct (String.prefix "CVE-" vulnName); cbn [negb orb fst];
    [|rewrite affectedOf_empty; split;
      [by intros H; inversion H | by intros (? & ? & _ & ? & _)]].
  destruct (String.eqb_spec (Status releaseNode) "undetermined") as [Hu|Hu]; cbn [fst].
  { rewrite affectedOf_empty. split; [by intros H; inversion H|].
    intros (? & ? & _ & _ & [[Hs _]|[Hs _]] & _); congruence. }
  destruct (String.eqb_spec (Status releaseNode) "open") as [Ho|Ho].
  { destruct (String.eqb_spec MaxVersion "") as [Hm|Hm]; cbn [fst].
    - rewrite affectedOf_empty. split; [by intros H; inversion H|].
      intros (? & ? & _ & _ & [[_ ->]|[Hs _]] & Hne & _); congruence.
    - rewrite affectedOf_insert, decide_True by done.
      assert (forall v : Database.VulnerabilityWithAffected,
                Database.Affected
                  (if (Database.Compare (SeverityFromUrgency (Urgency releaseNode))
                         (Database.Severity_ (Database.Vuln v)) >? 0)%Z
                   then setSeverity (SeverityFromUrgency (Urgency releaseNode)) v else v)
                = Database.Affected v) as Hsev by (intros v; by destruct (_ >? _)%Z).
      unfold appendAffected. cbn [Database.Affected]. rewrite Hsev. cbn [Database.Affected app].
      rewrite list_elem_of_singleton. split.
      + intros ->. exists release, MaxVersion. repeat split; auto.
      + intros (r & ver & [= <-] & _ & [[_ ->]|[Hs _]] & _ & ->); [done | congruence]. }
  destruct (String.eqb_spec (Status releaseNode) "resolved") as [Hr|Hr].
  2:{ change (String.eqb "" "") with true. cbn [fst]. rewrite affectedOf_empty.
      split; [by intros H; inversion H|].
      intros (? & ? & _ & _ & [[Hs _]|[Hs _]] & _); congruence. }
  destruct (Valid dpkg_ParserName (FixedVersion releaseNode)) eqn:Hv; cbn [negb fst].
  2:{ rewrite affectedOf_empty. split; [by intros H; inversion H|].
      intros (? & ? & _ & _ & [[Hs _]|(_ & Hv' & _)] & _); congruence. }
  destruct (String.eqb_spec (FixedVersion releaseNode) "0") as [H0|H0]; cbn [negb].
  { change (String.eqb "" "") with true. cbn [fst]. rewrite affectedOf_empty.
    split; [by intros H; inversion H|].
    intros (? & ? & _ & _ & [[Hs _]|(_ & _ & H0' & _)] & _); congruence. }
  destruct (String.eqb_spec (FixedVersion releaseNode) "") as [He|He]; cbn [fst].
  { rewrite affectedOf_empty. split; [by intros H; inversion H|].
    intros (? & ? & _ & _ & [[Hs _]|(_ & _ & _ & ->)] & Hne & _); congruence. }
  rewrite affectedOf_insert, decide_True by done.
  assert (forall v : Database.VulnerabilityWithAffected,
            Database.Affected
              (if (Database.Compare (SeverityFromUrgency (Urgency releaseNode))
                     (Database.Severity_ (Database.Vuln v)) >? 0)%Z
               then setSeverity (SeverityFromUrgency (Urgency releaseNode)) v else v)
            = Database.Affected v) as Hsev by (intros v; by destruct (_ >? _)%Z).
  unfold appendAffected. cbn [Database.Affected]. rewrite Hsev. cbn [Database.Affected app].
  rewrite list_elem_of_singleton. split.
  - intros ->. exists release, (FixedVersion releaseNode). repeat split; auto.
  - intros (r & ver & [= <-] & _ & [[Hs _]|(_ & _ & _ & ->)] & _ & ->); [congruence | done].
Qed.

Lemma elem_of_producedFor_inv (n : string) (ts : list triple)
    (f : Database.AffectedFeature) :
  f ∈ producedFor n ts -> exists t, t ∈ ts /\ tVulnName t = n /\ f ∈ produced t.
Proof.
  unfold producedFor. rewrite list_elem_of_In, in_flat_map.
  intros (t & Ht & Hf). exists t. split; [by apply list_elem_of_In|].
  destruct (decide (n = tVulnName t)) as [->|]; [|done].
  split; [done | by apply list_elem_of_In].
Qed.

Lemma batch_affected (data : jsonData) (v : Database.VulnerabilityWithAffected) :
  v ∈ fst (parseDebianJSON data) ->
  Database.Affected v = producedFor (Database.Name (Database.Vuln v)) (triples data).
Proof.
  intros Hv. apply elem_of_parseDebianJSON in Hv as [n Hn].
  destruct (parseTriples_wellFormed _ _ _ Hn) as [-> _].
  rewrite <- parseTriples_affected. unfold affectedOf. by rewrite Hn.
Qed.

(** Where the features of the batch come from: every feature of every
    vulnerability is the feature of a package and a mapped release of
    that advisory in the document, which is a CVE; its version is
    [MaxVersion] for an open release and the valid fixed version, other
    than 0, of a resolved release, never the empty string; it is of source
    type, in the namespace of the mapped release with the dpkg format,
    and its [FixedInVersion] is the version, or empty when the version is
    [MaxVersion]. *)
Theorem batch_feature_origin (data : jsonData)
    (v : Database.VulnerabilityWithAffected) (f : Database.AffectedFeature) :
  v ∈ fst (parseDebianJSON data) ->
  f ∈ Database.Affected v ->
  exists pkgName pkgNode vulnNode releaseName releaseNode release,
    (pkgName, pkgNode) ∈ data
    /\ (Database.Name (Database.Vuln v), vulnNode) ∈ pkgNode
    /\ (releaseName, releaseNode) ∈ Releases vulnNode
    /\ String.prefix "CVE-" (Database.Name (Database.Vuln v)) = true
    /\ DebianReleasesMapping !! releaseName = Some release
    /\ ((Status releaseNode = "open" /\ Database.AffectedVersion f = MaxVersion)
        \/ (Status releaseNode = "resolved"
            /\ Valid dpkg_ParserName (FixedVersion releaseNode) = true
            /\ FixedVersion releaseNode <> "0"
            /\ Database.AffectedVersion f = FixedVersion releaseNode))
    /\ Database.AffectedVersion f <> ""
    /\ Database.FeatureName f = pkgName
    /\ Database.FeatureType_ f = Database.SourcePackage
    /\ Database.AfNamespace f
       = {| Database.NsName := "debian:" +:+ release;
            Database.VersionFormat := dpkg_ParserName |}
    /\ Database.FixedInVersion f
       = if String.eqb (Database.AffectedVersion f) MaxVersion
         then "" else Database.AffectedVersion f.
Proof.
  intros Hv Hf. rewrite (batch_affected data v Hv) in Hf.
  apply elem_of_producedFor_inv in Hf as (t & Ht & Hn & Hf).
  apply elem_of_triples in Ht as (pkgNode & Hp & Hvuln & Hrel).
  apply produced_elem in Hf as (release & version & Hmap & Hcve & Hver & Hne & ->).
  exists (tPkgName t), pkgNode, (tVulnNode t), (tReleaseName t), (tReleaseNode t), release.
  rewrite <- Hn. cbn. repeat split; auto. by destruct (String.eqb version MaxVersion).
Qed.

(** A resolved release with a valid fixed version: for a mapped release
    of a CVE advisory whose fixed version is valid, is not 0 and is not
    empty, the batch holds the advisory with the feature of the package
    at that version. *)
Theorem resolved_triple_feature (data : jsonData) (pkgName : string)
    (pkgNode : list (string * jsonVuln)) (vulnName : string) (vulnNode : jsonVuln)
    (releaseName : string) (releaseNode : jsonRel) (release : string) :
  (pkgName, pkgNode) ∈ data ->
  (vulnName, vulnNode) ∈ pkgNode ->
  (releaseName, releaseNode) ∈ Releases vulnNode ->
  Status releaseNode = "resolved" ->
  Valid dpkg_ParserName (FixedVersion releaseNode) = true ->
  FixedVersion releaseNode <> "0" ->
  FixedVersion releaseNode <> "" ->
  DebianReleasesMapping !! releaseName = Some release ->
  String.prefix "CVE-" vulnName = true ->
  exists v, v ∈ fst (parseDebianJSON data)
            /\ Database.Name (Database.Vuln v) = vulnName
            /\ {| Database.FeatureType_ := Database.SourcePackage;
                  Database.FeatureName := pkgName;
                  Database.AffectedVersion := FixedVersion releaseNode;
                  Database.FixedInVersion :=
                    if String.eqb (FixedVersion releaseNode) MaxVersion
                    then "" else FixedVersion releaseNode;
                  Database.AfNamespace := {|
                    Database.NsName := "debian:" +:+ release;
                    Database.VersionFormat := dpkg_ParserName |} |}
               ∈ Database.Affected v.
Proof.
  intros Hp Hv Hr Hres Hvalid H0 Hne Hmap Hcve.
  set (t := {| tPkgName := pkgName; tVulnName := vulnName; tVulnNode := vulnNode;
               tReleaseName := releaseName; tReleaseNode := releaseNode |}).
  apply (parseDebianJSON_feature data t).
  - apply elem_of_triples. by exists pkgNode.
  - apply produced_elem. exists release, (FixedVersion releaseNode).
    unfold releaseVersion, releaseFeature. cbn. repeat split; auto.
    by destruct (String.eqb _ _).
Qed.

(** Which advisories are emitted: the batch holds a vulnerability of a
    given name exactly when the document has, under that name, a CVE
    advisory with a mapped release that is open, or resolved with a valid
    fixed version other than 0, whose version is not the empty string. *)
Theorem batch_names (data : jsonData) (vulnName : string) :
  (exists v, v ∈ fst (parseDebianJSON data)
             /\ Database.Name (Database.Vuln v) = vulnName)
  <-> exists pkgName pkgNode vulnNode releaseName releaseNode release version,
      (pkgName, pkgNode) ∈ data
      /\ (vulnName, vulnNode) ∈ pkgNode
      /\ (releaseName, releaseNode) ∈ Releases vulnNode
      /\ String.prefix "CVE-" vulnName = true
      /\ DebianReleasesMapping !! releaseName = Some release
      /\ releaseVersion releaseNode version
      /\ version <> "".
Proof.
  split.
  - intros (v & Hv & <-).
    pose proof (parseDebianJSON_affected_nonempty data v Hv) as Hne.
    destruct (Database.Affected v) as [|f l] eqn:Haff; [done|].
    assert (f ∈ Database.Affected v) as Hf by (rewrite Haff; apply elem_of_cons; by left).
    rewrite (batch_affected data v Hv) in Hf.
    apply elem_of_producedFor_inv in Hf as (t & Ht & Hn & Hf).
    apply elem_of_triples in Ht as (pkgNode & Hp & Hvuln & Hrel).
    apply produced_elem in Hf as (release & version & Hmap & Hcve & Hver & Hnev & _).
    exists (tPkgName t), pkgNode, (tVulnNode t), (tReleaseName t), (tReleaseNode t),
      release, version.
    rewrite <- Hn. by repeat split.
  - intros (pkgName & pkgNode & vulnNode & releaseName & releaseNode & release & version
            & Hp & Hv & Hr & Hcve & Hmap & Hver & Hne).
    set (t := {| tPkgName := pkgName; tVulnName := vulnName; tVulnNode := vulnNode;
                 tReleaseName := releaseName; tReleaseNode := releaseNode |}).
    destruct (parseDebianJSON_feature data t (releaseFeature pkgName release version))
      as (v & Hin & Hname & _).
    + apply elem_of_triples. by exists pkgNode.
    + apply produced_elem. by exists release, version.
    + by exists v.
Qed.

(** A step that changes the map is a step on a mapped release of a CVE
    advisory whose status is determined; it binds the name of the advisory
    to the structure it was bound to, or to a fresh one, with the larger
    of its severity and the severity of the urgency of the release. *)
Lemma tripleStep_insert (m : gmap string Database.VulnerabilityWithAffected)
    (unk : gset string) (t : triple) :
  fst (tripleStep (m, unk) t) = m
  \/ exists v' release,
      DebianReleasesMapping !! tReleaseName t = Some release
      /\ String.prefix "CVE-" (tVulnName t) = true
      /\ Status (tReleaseNode t) <> "undetermined"
      /\ fst (tripleStep (m, unk) t) = <[tVulnName t := v']> m
      /\ Database.Severity_ (Database.Vuln v')
         = (let base := default (newVulnerability t) (m !! tVulnName t) in
            let severity := SeverityFromUrgency (Urgency (tReleaseNode t)) in
            if (Database.Compare severity (Database.Severity_ (Database.Vuln base)) >? 0)%Z
            then severity else Database.Severity_ (Database.Vuln base))
      /\ Database.Name (Database.Vuln v')
         = Database.Name (Database.Vuln (default (newVulnerability t) (m !! tVulnName t)))
      /\ Database.Link (Database.Vuln v')
         = Database.Link (Database.Vuln (default (newVulnerability t) (m !! tVulnName t))).
Proof.
  destruct t as [pkgName vulnName vulnNode releaseName releaseNode].
  unfold tripleStep, releaseStep, newVulnerability.
  cbn [fst snd tPkgName tVulnName tVulnNode tReleaseName tReleaseNode].
  destruct (DebianReleasesMapping !! releaseName) as [release|]; cbn [fst]; [|by left].
  destruct (String.prefix "CVE-" vulnName); cbn [negb orb fst]; [|by left].
  destruct (String.eqb_spec (Status releaseNode) "undetermined") as [Hu|Hu];
    cbn [fst]; [by left|].
  destruct (m !! vulnName) as [v|] eqn:Hm;
    (destruct (String.eqb (Status releaseNode) "open");
     [|destruct (String.eqb (Status releaseNode) "resolved");
       [destruct (Valid dpkg_ParserName (FixedVersion releaseNode)); cbn [negb];
        [destruct (String.eqb (FixedVersion releaseNode) "0"); cbn [negb]|]|]]);
    change (String.eqb "" "") with true;
    repeat match goal with
           | |- context [String.eqb ?a ""] => destruct (String.eqb a "")
           end;
    cbn [fst default]; rewrite ?insert_insert_eq; try (by left);
    right; eexists; exists release;
    (split; [reflexivity|]); (split; [reflexivity|]); (split; [exact Hu|]);
    (split; [reflexivity|]);
    unfold appendAffected, setSeverity; cbn;
    repeat match goal with
           | |- context [(?a >? 0)%Z] => destruct (a >? 0)%Z
           end;
    cbn; done.
Qed.

Lemma fold_tripleStep_inv (P : string -> Database.VulnerabilityWithAffected -> Prop)
    (ts : list triple) :
  (forall m unk t n v,
      t ∈ ts ->
      (forall n v, m !! n = Some v -> P n v) ->
      fst (tripleStep (m, unk) t) !! n = Some v -> P n v) ->
  forall n v, fst (parseTriples ts) !! n = Some v -> P n v.
Proof.
  intros Hstep. unfold parseTriples.
  assert (forall ts' st,
             (forall t, t ∈ ts' -> t ∈ ts) ->
             (forall n v, fst st !! n = Some v -> P n v) ->
             forall n v, fst (fold_left tripleStep ts' st) !! n = Some v -> P n v)
    as Hfold.
  { induction ts' as [|t ts' IH]; intros st Hsub Hst; [done|]. cbn [fold_left].
    apply IH.
    - intros t' Ht'. apply Hsub, elem_of_cons. by right.
    - destruct st as [m unk]. intros n v. apply Hstep; [|done].
      apply Hsub, elem_of_cons. by left. }
  apply (Hfold ts); [done|]. intros n v. cbn [fst]. by rewrite lookup_empty.
Qed.

Lemma batch_name_link (data : jsonData) (v : Database.VulnerabilityWithAffected) :
  v ∈ fst (parseDebianJSON data) ->
  String.prefix "CVE-" (Database.Name (Database.Vuln v)) = true
  /\ Database.Link (Database.Vuln v)
     = cveURLPrefix +:+ "/" +:+ Database.Name (Database.Vuln v).
Proof.
  intros Hv. apply elem_of_parseDebianJSON in Hv as [n Hn].
  revert n v Hn.
  apply (fold_tripleStep_inv
           (fun n v => String.prefix "CVE-" (Database.Name (Database.Vuln v)) = true
                       /\ Database.Link (Database.Vuln v)
                          = cveURLPrefix +:+ "/" +:+ Database.Name (Database.Vuln v))).
  intros m unk t n v _ Hm.
  destruct (tripleStep_insert m unk t)
    as [->|(v' & release & _ & Hcve & _ & -> & _ & Hname & Hlink)]; [apply Hm|].
  destruct (decide (n = tVulnName t)) as [->|Hne].
  - rewrite lookup_insert_eq. intros [= <-]. rewrite Hname, Hlink.
    destruct (m !! tVulnName t) as [v0|] eqn:H0; cbn; [by apply (Hm _ _ H0) | done].
  - rewrite lookup_insert_ne by done. apply Hm.
Qed.

(** The vulnerabilities of the batch are CVE advisories, no two of the
    same name, each with the link of its name under the tracker prefix. *)
Theorem batch_names_links (data : jsonData) :
  NoDup (map (fun v => Database.Name (Database.Vuln v)) (fst (parseDebianJSON data)))
  /\ forall v, v ∈ fst (parseDebianJSON data) ->
       String.prefix "CVE-" (Database.Name (Database.Vuln v)) = true
       /\ Database.Link (Database.Vuln v)
          = cveURLPrefix +:+ "/" +:+ Database.Name (Database.Vuln v).
Proof.
  split; [apply parseDebianJSON_names_NoDup | apply batch_name_link].
Qed.

Lemma tripleStep_unknown (st : parseState) (t : triple) :
  snd (tripleStep st t)
  = match DebianReleasesMapping !! tReleaseName t with
    | None => {[tReleaseName t]} ∪ snd st
    | Some _ => snd st
    end.
Proof.
  destruct st as [m unk]. unfold tripleStep, releaseStep.
  destruct (DebianReleasesMapping !! tReleaseName t); [|done]. cbn [snd].
  repeat match goal with
         | |- context [match ?x with _ => _ end] => destruct x; cbn [snd]
         end; done.
Qed.

Lemma parseTriples_unknown (ts : list triple) (x : string) :
  x ∈ snd (parseTriples ts)
  <-> exists t, t ∈ ts /\ tReleaseName t = x /\ DebianReleasesMapping !! x = None.
Proof.
  unfold parseTriples.
  assert (forall st, x ∈ snd (fold_left tripleStep ts st)
                     <-> x ∈ snd st
                         \/ exists t, t ∈ ts /\ tReleaseName t = x
                                      /\ DebianReleasesMapping !! x = None) as Hfold.
  { induction ts as [|t ts IH]; intros st; cbn [fold_left].
    - split; [by left|]. intros [|(t & Ht & _)]; [done | inversion Ht].
    - rewrite IH, tripleStep_unknown. split.
      + intros [Hx|(t' & Ht' & Hrest)].
        * destruct (DebianReleasesMapping !! tReleaseName t) eqn:Hmap; [by left|].
          apply elem_of_union in Hx as [Hx|Hx]; [|by left].
          apply elem_of_singleton in Hx as ->. right. exists t.
          split; [apply elem_of_cons; by left | done].
        * right. exists t'. split; [apply elem_of_cons; by right | done].
      + intros [Hx|(t' & Ht' & Hn & Hmap)].
        * left. destruct (DebianReleasesMapping !! tReleaseName t); [done|].
          apply elem_of_union. by right.
        * apply elem_of_cons in Ht' as [->|Ht'].
          -- left. rewrite Hn, Hmap. apply elem_of_union. left. by apply elem_of_singleton.
          -- right. by exists t'. }
  rewrite Hfold. cbn [snd]. split; [intros [Hx|H]; [by apply not_elem_of_empty in Hx | done]|].
  by right.
Qed.

Lemma append_length (a b : string) :
  String.length (a +:+ b) = (String.length a + String.length b)%nat.
Proof.
  induction a as [|c a IH]; [done|].
  change (String.length (String c a +:+ b)) with (S (String.length (a +:+ b))).
  by rewrite IH.
Qed.

Lemma append_inv_tail (a b s : string) : a +:+ s = b +:+ s -> a = b.
Proof.
  revert b. induction a as [|c a IH]; intros [|d b] H.
  - done.
  - apply (f_equal String.length) in H. rewrite !append_length in H. cbn in H. lia.
  - apply (f_equal String.length) in H. rewrite !append_length in H. cbn in H. lia.
  - change (String c (a +:+ s) = String d (b +:+ s)) in H.
    injection H as -> H. f_equal. by apply IH.
Qed.

Lemma unknownReleaseNote_inj (x y : string) :
  unknownReleaseNote x = unknownReleaseNote y -> x = y.
Proof.
  unfold unknownReleaseNote. intros H. apply String.app_inj in H.
  by apply append_inv_tail in H.
Qed.

(** The unmapped releases: a release name is reported exactly when a
    release of that name, of whatever advisory and status, is in the
    document and the name is not in the release table; a response whose
    hash differs from the stored one carries one note for each such name,
    and no note twice. *)
Theorem unknown_releases_notes (jsonReader latestKnownHash teed : string)
    (data : jsonData) :
  json_Decode jsonReader = (teed, (data, None)) ->
  Sha256.EncodeToString (Sha256.Sum teed) <> latestKnownHash ->
  (forall x, x ∈ snd (parseDebianJSON data)
             <-> exists pkgName pkgNode vulnName vulnNode releaseNode,
                 (pkgName, pkgNode) ∈ data
                 /\ (vulnName, vulnNode) ∈ pkgNode
                 /\ (x, releaseNode) ∈ Releases vulnNode
                 /\ DebianReleasesMapping !! x = None)
  /\ NoDup (Vulnsrc.Notes (fst (buildResponse jsonReader latestKnownHash)))
  /\ (forall x, unknownReleaseNote x
                ∈ Vulnsrc.Notes (fst (buildResponse jsonReader latestKnownHash))
                <-> x ∈ snd (parseDebianJSON data))
  /\ (forall note, note ∈ Vulnsrc.Notes (fst (buildResponse jsonReader latestKnownHash))
                   -> exists x, note = unknownReleaseNote x).
Proof.
  intros Hdec Hhash.
  assert (Vulnsrc.Notes (fst (buildResponse jsonReader latestKnownHash))
          = unknownReleaseNote <$> elements (snd (parseDebianJSON data))) as ->.
  { unfold buildResponse. rewrite Hdec.
    destruct (String.eqb_spec latestKnownHash (Sha256.EncodeToString (Sha256.Sum teed)));
      [congruence|].
    by destruct (parseDebianJSON data). }
  split; [|split; [|split]].
  - intros x. rewrite parseDebianJSON_triples. cbn [snd]. rewrite parseTriples_unknown.
    split.
    + intros (t & Ht & <- & Hmap). apply elem_of_triples in Ht as (pkgNode & Hp & Hv & Hr).
      by exists (tPkgName t), pkgNode, (tVulnName t), (tVulnNode t), (tReleaseNode t).
    + intros (pkgName & pkgNode & vulnName & vulnNode & releaseNode & Hp & Hv & Hr & Hmap).
      exists {| tPkgName := pkgName; tVulnName := vulnName; tVulnNode := vulnNode;
                tReleaseName := x; tReleaseNode := releaseNode |}.
      split; [|done]. apply elem_of_triples. by exists pkgNode.
  - apply NoDup_fmap_2; [|apply NoDup_elements].
    intros x y. apply unknownReleaseNote_inj.
  - intros x. rewrite list_elem_of_fmap. split.
    + intros (y & Heq & Hy). apply unknownReleaseNote_inj in Heq as ->.
      by apply elem_of_elements.
    + intros Hx. exists x. split; [done | by apply elem_of_elements].
  - intros note Hn. apply list_elem_of_fmap in Hn as (x & -> & _). by exists x.
Qed.

Lemma raised_severity (severity current : Database.Severity) :
  (Database.Compare severity
     (if (Database.Compare severity current >? 0)%Z then severity else current) <= 0)%Z
  /\ (Database.Compare current
       (if (Database.Compare severity current >? 0)%Z then severity else current) <= 0)%Z.
Proof.
  unfold Database.Compare.
  destruct (_ >? 0)%Z eqn:Hc; rewrite Z.gtb_ltb in Hc;
    [apply Z.ltb_lt in Hc | apply Z.ltb_ge in Hc]; lia.
Qed.

Lemma parseTriples_severity_lower (ts : list triple) (t : triple) :
  t ∈ ts -> produced t <> [] ->
  exists v, fst (parseTriples ts) !! tVulnName t = Some v
            /\ (Database.Compare (SeverityFromUrgency (Urgency (tReleaseNode t)))
                  (Database.Severity_ (Database.Vuln v)) <= 0)%Z.
Proof.
  unfold parseTriples.
  set (Q := fun (m : gmap string Database.VulnerabilityWithAffected) (t : triple) =>
              exists v, m !! tVulnName t = Some v
                        /\ (Database.Compare (SeverityFromUrgency (Urgency (tReleaseNode t)))
                              (Database.Severity_ (Database.Vuln v)) <= 0)%Z).
  assert (forall m unk t' t0, Q m t0 -> Q (fst (tripleStep (m, unk) t')) t0) as Hkeep.
  { intros m unk t' t0 (v0 & Hv0 & Hle).
    destruct (tripleStep_insert m unk t')
      as [->|(v' & release & _ & _ & _ & -> & Hsev & _)]; [by exists v0|].
    destruct (decide (tVulnName t0 = tVulnName t')) as [Heq|Hne].
    - exists v'. rewrite Heq, lookup_insert_eq. split; [done|].
      rewrite Heq in Hv0. rewrite Hv0 in Hsev. cbn in Hsev. rewrite Hsev.
      pose proof (raised_severity (SeverityFromUrgency (Urgency (tReleaseNode t')))
                    (Database.Severity_ (Database.Vuln v0))) as [_ Hup].
      unfold Database.Compare in *. lia.
    - exists v0. by rewrite lookup_insert_ne. }
  assert (forall m unk t', produced t' <> [] -> Q (fst (tripleStep (m, unk) t')) t') as Hnew.
  { intros m unk t' Hprod.
    destruct (tripleStep_insert m unk t')
      as [Hsame|(v' & release & _ & _ & _ & Hins & Hsev & _)].
    - exfalso. pose proof (tripleStep_affected (m, unk) t' (tVulnName t')) as Haff.
      rewrite Hsame, decide_True in Haff by done. cbn [fst] in Haff.
      apply (f_equal length) in Haff. rewrite length_app in Haff.
      destruct (produced t'); [done|]. cbn in Haff. lia.
    - exists v'. rewrite Hins, lookup_insert_eq. split; [done|].
      rewrite Hsev. cbn zeta. apply raised_severity. }
  assert (forall l st t0,
             (Q (fst st) t0 \/ (t0 ∈ l /\ produced t0 <> [])) ->
             Q (fst (fold_left tripleStep l st)) t0) as Hfold.
  { intros l. induction l as [|t' l IH]; intros st t0 H; cbn [fold_left].
    - destruct H as [H|[H _]]; [done | inversion H].
    - apply IH. destruct st as [m unk]. destruct H as [H|[Hin Hprod]].
      + left. by apply Hkeep.
      + apply elem_of_cons in Hin as [->|Hin]; [left; by apply Hnew | by right]. }
  intros Ht Hprod. apply Hfold. by right.
Qed.

Lemma parseTriples_severity_upper (ts : list triple) (n : string)
    (v : Database.VulnerabilityWithAffected) :
  fst (parseTriples ts) !! n = Some v ->
  Database.Severity_ (Database.Vuln v) = Database.UnknownSeverity
  \/ exists t, t ∈ ts /\ tVulnName t = n
                /\ is_Some (DebianReleasesMapping !! tReleaseName t)
                /\ Status (tReleaseNode t) <> "undetermined"
                /\ Database.Severity_ (Database.Vuln v)
                   = SeverityFromUrgency (Urgency (tReleaseNode t)).
Proof.
  revert n v. apply fold_tripleStep_inv. intros m unk t n v Ht Hm.
  destruct (tripleStep_insert m unk t)
    as [->|(v' & release & Hmap & _ & Hu & -> & Hsev & _)]; [apply Hm|].
  destruct (decide (n = tVulnName t)) as [->|Hne].
  - rewrite lookup_insert_eq. intros [= <-]. rewrite Hsev. cbn zeta.
    destruct (_ >? 0)%Z.
    + right. exists t. by repeat split.
    + destruct (m !! tVulnName t) as [v0|] eqn:H0; cbn; [by apply (Hm _ _ H0) | by left].
  - rewrite lookup_insert_ne by done. apply Hm.
Qed.

(** The severity of an emitted advisory lies between two bounds: it is at
    least the severity of the urgency of every release of the advisory
    that yields a feature, and it is Unknown or the severity of the
    urgency of some mapped release of the advisory whose status is
    determined. *)
Theorem batch_severity_bounds (data : jsonData) (v : Database.VulnerabilityWithAffected) :
  v ∈ fst (parseDebianJSON data) ->
  (forall pkgName pkgNode vulnNode releaseName releaseNode release version,
      (pkgName, pkgNode) ∈ data ->
      (Database.Name (Database.Vuln v), vulnNode) ∈ pkgNode ->
      (releaseName, releaseNode) ∈ Releases vulnNode ->
      DebianReleasesMapping !! releaseName = Some release ->
      releaseVersion releaseNode version ->
      version <> "" ->
      (Database.Compare (SeverityFromUrgency (Urgency releaseNode))
         (Database.Severity_ (Database.Vuln v)) <= 0)%Z)
  /\ (Database.Severity_ (Database.Vuln v) = Database.UnknownSeverity
      \/ exists pkgName pkgNode vulnNode releaseName releaseNode,
          (pkgName, pkgNode) ∈ data
          /\ (Database.Name (Database.Vuln v), vulnNode) ∈ pkgNode
          /\ (releaseName, releaseNode) ∈ Releases vulnNode
          /\ is_Some (DebianReleasesMapping !! releaseName)
          /\ Status releaseNode <> "undetermined"
          /\ Database.Severity_ (Database.Vuln v)
             = SeverityFromUrgency (Urgency releaseNode)).
Proof.
  intros Hv.
  destruct (batch_name_link data v Hv) as [Hcve _].
  apply elem_of_parseDebianJSON in Hv as [n Hn].
  destruct (parseTriples_wellFormed _ _ _ Hn) as [Hname _]. rewrite Hname in *.
  split.
  - intros pkgName pkgNode vulnNode releaseName releaseNode release version
           Hp Hvuln Hr Hmap Hver Hne.
    set (t := {| tPkgName := pkgName; tVulnName := n; tVulnNode := vulnNode;
                 tReleaseName := releaseName; tReleaseNode := releaseNode |}).
    destruct (parseTriples_severity_lower (triples data) t) as (v0 & Hv0 & Hle).
    + apply elem_of_triples. by exists pkgNode.
    + intros Hnil.
      assert (releaseFeature pkgName release version ∈ produced t) as Hin
        by (apply produced_elem; by exists release, version).
      rewrite Hnil in Hin. inversion Hin.
    + cbn in Hv0, Hle. by simplify_eq.
  - destruct (parseTriples_severity_upper _ _ _ Hn)
      as [Hu|(t & Ht & Hvn & Hmap & Hst & Hsev)]; [by left|].
    right. apply elem_of_triples in Ht as (pkgNode & Hp & Hvuln & Hr).
    exists (tPkgName t), pkgNode, (tVulnNode t), (tReleaseName t), (tReleaseNode t).
    rewrite <- Hvn. by repeat split.
Qed.

Lemma buildResponse_cases (jsonReader latestKnownHash : string) :
  (forall resp,
      buildResponse jsonReader latestKnownHash = (resp, None) ->
      Vulnsrc.FlagName resp = updaterFlag
      /\ String.length (Vulnsrc.FlagValue resp) = 64%nat
      /\ exists teed data,
          json_Decode jsonReader = (teed, (data, None))
          /\ Vulnsrc.FlagValue resp = Sha256.EncodeToString (Sha256.Sum teed))
  /\ (forall resp err,
        buildResponse jsonReader latestKnownHash = (resp, Some err) ->
        err = ErrCouldNotParse
        /\ resp = Vulnsrc.emptyResponse
        /\ exists teed partial e, json_Decode jsonReader = (teed, (partial, Some e))).
Proof.
  unfold buildResponse.
  destruct (json_Decode jsonReader) as [teed [data [e|]]] eqn:Hdec.
  - split; [done|]. intros resp err [= <- <-]. repeat split; auto.
    by exists teed, data, e.
  - split; [|intros resp err H; destruct (String.eqb _ _); [done|];
              by destruct (parseDebianJSON data)].
    intros resp H.
    assert (Vulnsrc.FlagName resp = updaterFlag
            /\ Vulnsrc.FlagValue resp = Sha256.EncodeToString (Sha256.Sum teed))
      as [Hname Hvalue].
    { destruct (String.eqb _ _); [by injection H as <-|].
      destruct (parseDebianJSON data). by injection H as <-. }
    split; [done|]. split.
    + rewrite Hvalue, EncodeToString_length, Sum_length. reflexivity.
    + by exists teed, data.
Qed.

(** What [buildResponse] returns.  Without error the response carries the
    flag of the updater and, as its value, the hexadecimal digest of the
    bytes read, 64 characters long; the only error is the parse error,
    for a document that does not decode, and it comes with the empty
    response, without a watermark. *)
Theorem buildResponse_flag (jsonReader latestKnownHash : string) :
  (forall resp,
      buildResponse jsonReader latestKnownHash = (resp, None) ->
      Vulnsrc.FlagName resp = updaterFlag
      /\ String.length (Vulnsrc.FlagValue resp) = 64%nat
      /\ exists teed data,
          json_Decode jsonReader = (teed, (data, None))
          /\ Vulnsrc.FlagValue resp = Sha256.EncodeToString (Sha256.Sum teed))
  /\ (forall resp err,
        buildResponse jsonReader latestKnownHash = (resp, Some err) ->
        err = ErrCouldNotParse
        /\ resp = Vulnsrc.emptyResponse
        /\ exists teed partial e, json_Decode jsonReader = (teed, (partial, Some e))).
Proof. apply buildResponse_cases. Qed.

Lemma buildResponse_again (jsonReader latestKnownHash : string)
    (resp : Vulnsrc.UpdateResponse) :
  buildResponse jsonReader latestKnownHash = (resp, None) ->
  buildResponse jsonReader (Vulnsrc.FlagValue resp)
  = ({| Vulnsrc.FlagName := updaterFlag;
        Vulnsrc.FlagValue := Vulnsrc.FlagValue resp;
        Vulnsrc.Notes := [];
        Vulnsrc.Vulnerabilities := [] |}, None).
Proof.
  intros H.
  destruct (proj1 (buildResponse_cases jsonReader latestKnownHash) resp H)
    as (_ & _ & teed & data & Hdec & Hvalue).
  unfold buildResponse. rewrite Hdec, Hvalue, String.eqb_refl. reflexivity.
Qed.

(** The errors of the Debian [Update]: an error of the datastore is
    returned as it is; the download error is returned exactly for a failed
    fetch or a status that is not 2xx, the parse error exactly for a
    fetched document that does not decode; the response that comes with
    an error is empty. *)
Theorem Debian_Update_errors (datastore : Datastore) (flagValue : string) (found : bool) :
  (forall err,
      FindKeyValueAndRollback datastore updaterFlag = (flagValue, found, Some err) ->
      Update datastore = (Vulnsrc.emptyResponse, Some err))
  /\ (FindKeyValueAndRollback datastore updaterFlag = (flagValue, found, None) ->
      (Update datastore = (Vulnsrc.emptyResponse, Some ErrCouldNotDownload)
       <-> GetWithUserAgent url = None
           \/ exists r, GetWithUserAgent url = Some r /\ Status2xx r = false)
      /\ (Update datastore = (Vulnsrc.emptyResponse, Some ErrCouldNotParse)
          <-> exists r teed partial e,
              GetWithUserAgent url = Some r /\ Status2xx r = true
              /\ json_Decode (Body r) = (teed, (partial, Some e)))
      /\ (forall resp err, Update datastore = (resp, Some err) ->
           resp = Vulnsrc.emptyResponse
           /\ (err = ErrCouldNotDownload \/ err = ErrCouldNotParse))).
Proof.
  unfold Update. split; [by intros err ->|]. intros ->.
  destruct (GetWithUserAgent url) as [r|] eqn:Hget.
  2:{ split; [|split].
      - split; [by left | done].
      - split; [done|]. by intros (r & ? & ? & ? & ? & _).
      - intros resp err [= <- <-]. split; [done | by left]. }
  destruct (Status2xx r) eqn:H2xx; cbn [negb].
  2:{ split; [|split].
      - split; [|done]. intros _. right. by exists r.
      - split; [done|]. intros (r' & ? & ? & ? & [= <-] & ? & _). congruence.
      - intros resp err [= <- <-]. split; [done | by left]. }
  pose proof (buildResponse_cases (Body r) (if negb found then "" else flagValue))
    as [Hok Herr].
  destruct (buildResponse (Body r) (if negb found then "" else flagValue))
    as [resp [e|]] eqn:Hbuild.
  - destruct (Herr resp e eq_refl) as (-> & -> & teed & partial & e' & Hdec).
    split; [|split].
    + split; [done|]. intros [?|(r' & [= <-] & ?)]; congruence.
    + split; [|done]. intros _. by exists r, teed, partial, e'.
    + intros resp err [= <- <-]. split; [done | by right].
  - destruct (Hok resp eq_refl) as (_ & _ & teed & data & Hdec & _).
    split; [|split].
    + split; [done|]. intros [?|(r' & [= <-] & ?)]; congruence.
    + split; [done|]. intros (r' & ? & ? & ? & [= <-] & _ & Hdec'). congruence.
    + done.
Qed.

(** The same document twice: when a run returned a response without
    error and its watermark is stored, the next run, the tracker serving
    the same document, returns an empty batch, no note and the same
    watermark. *)
Theorem Debian_Update_rerun (datastore datastore' : Datastore)
    (resp : Vulnsrc.UpdateResponse) :
  Update datastore = (resp, None) ->
  FindKeyValueAndRollback datastore' updaterFlag = (Vulnsrc.FlagValue resp, true, None) ->
  Update datastore'
  = ({| Vulnsrc.FlagName := updaterFlag;
        Vulnsrc.FlagValue := Vulnsrc.FlagValue resp;
        Vulnsrc.Notes := [];
        Vulnsrc.Vulnerabilities := [] |}, None).
Proof.
  unfold Update. intros Hrun ->. cbn [negb].
  destruct (FindKeyValueAndRollback datastore updaterFlag) as [[latestHash ok] [err|]];
    [done|].
  destruct (GetWithUserAgent url) as [r|]; [|done].
  destruct (negb (Status2xx r)); [done|].
  destruct (buildResponse (Body r) (if negb ok then "" else latestHash))
    as [resp' [e|]] eqn:Hbuild; [done|].
  injection Hrun as ->.
  by rewrite (buildResponse_again _ _ _ Hbuild).
Qed.

(** The first run: when the datastore holds no hash, a document that is
    fetched and decodes is always parsed, whatever value the datastore
    returned beside its answer, since no digest is the empty string: the
    batch is the batch of the document, the notes are those of its
    unmapped releases and the watermark is the digest of the bytes
    read. *)
Theorem Debian_Update_first_run (datastore : Datastore) (flagValue : string)
    (r : Response) (teed : string) (data : jsonData) :
  FindKeyValueAndRollback datastore updaterFlag = (flagValue, false, None) ->
  GetWithUserAgent url = Some r ->
  Status2xx r = true ->
  json_Decode (Body r) = (teed, (data, None)) ->
  Update datastore
  = ({| Vulnsrc.FlagName := updaterFlag;
        Vulnsrc.FlagValue := Sha256.EncodeToString (Sha256.Sum teed);
        Vulnsrc.Notes := unknownReleaseNote <$> elements (snd (parseDebianJSON data));
        Vulnsrc.Vulnerabilities := fst (parseDebianJSON data) |}, None).
Proof.
  intros Hstore Hget H2xx Hdec. unfold Update, buildResponse.
  rewrite Hstore, Hget, H2xx. cbn [negb]. rewrite Hdec.
  destruct (String.eqb "" (Sha256.EncodeToString (Sha256.Sum teed))) eqn:Heq.
  - apply String.eqb_eq in Heq.
    pose proof (EncodeToString_length (Sha256.Sum teed)) as Hlen.
    rewrite <- Heq, Sum_length in Hlen. discriminate.
  - by destruct (parseDebianJSON data).
Qed.

(** No vulnerability of the batch is of severity Critical: the urgencies
    of the tracker reach severity High at most. *)
Theorem batch_never_critical (data : jsonData) (v : Database.VulnerabilityWithAffected) :
  v ∈ fst (parseDebianJSON data) ->
  (Database.Compare (Database.Severity_ (Database.Vuln v)) Database.HighSeverity <= 0)%Z
  /\ Database.Severity_ (Database.Vuln v) <> Database.CriticalSeverity.
Proof.
  intros Hv. apply elem_of_parseDebianJSON in Hv as [n Hn].
  assert (forall urgency,
             SeverityFromUrgency urgency <> Database.CriticalSeverity) as Hrange.
  { intros urgency. unfold SeverityFromUrgency.
    repeat match goal with
           | |- context [if ?b then _ else _] => destruct b
           end; discriminate. }
  assert (Database.Severity_ (Database.Vuln v) <> Database.CriticalSeverity) as Hne.
  { destruct (parseTriples_severity_upper _ _ _ Hn) as [->|(t & _ & _ & _ & _ & ->)];
      [discriminate | apply Hrange]. }
  split; [|done].
  destruct (Database.Severity_ (Database.Vuln v)); try done; vm_compute; discriminate.
Qed.

Lemma producedFor_permutation (n : string) (ts1 ts2 : list triple) :
  map tripleKey ts1 ≡ₚ map tripleKey ts2 ->
  producedFor n ts1 ≡ₚ producedFor n ts2.
Proof.
  set (rebuild := fun k : string * string * string * string * jsonRel =>
         {| tPkgName := k.1.1.1.1; tVulnName := k.1.1.1.2;
            tVulnNode := {| Description := k.1.1.2; Releases := [] |};
            tReleaseName := k.1.2; tReleaseNode := k.2 |}).
  assert (forall ts, producedFor n ts
                     = flat_map (fun k => if decide (n = tVulnName (rebuild k))
                                          then produced (rebuild k) else [])
                                (map tripleKey ts)) as Hkey.
  { induction ts as [|t ts IH]; [done|].
    cbn [producedFor flat_map map]. fold (producedFor n ts). rewrite IH. f_equal. }
  intros Hperm. rewrite !Hkey. by apply Permutation_flat_map.
Qed.

(** The features do not depend on the order of the visit, up to their
    own order: when two documents have the same triples, in whatever
    order, each vulnerability of the batch of one has a vulnerability of
    the same name in the batch of the other whose features are a
    permutation of its features, and the same release names are reported
    as unmapped. *)
Theorem batch_order_independent (data1 data2 : jsonData) :
  map tripleKey (triples data1) ≡ₚ map tripleKey (triples data2) ->
  (forall v1, v1 ∈ fst (parseDebianJSON data1) ->
     exists v2, v2 ∈ fst (parseDebianJSON data2)
                /\ Database.Name (Database.Vuln v2) = Database.Name (Database.Vuln v1)
                /\ Database.Affected v2 ≡ₚ Database.Affected v1)
  /\ snd (parseDebianJSON data1) = snd (parseDebianJSON data2).
Proof.
  intros Hperm. split.
  - intros v1 Hv1. pose proof (batch_affected data1 v1 Hv1) as Haff.
    pose proof (parseDebianJSON_affected_nonempty data1 v1 Hv1) as Hne.
    pose proof (producedFor_permutation (Database.Name (Database.Vuln v1)) _ _ Hperm) as Hp.
    rewrite <- Haff in Hp.
    rewrite <- parseTriples_affected in Hp. unfold affectedOf in Hp.
    destruct (fst (parseTriples (triples data2)) !! Database.Name (Database.Vuln v1))
      as [v2|] eqn:Hv2.
    + exists v2. split; [apply elem_of_parseDebianJSON; by eexists|].
      split; [by apply (parseTriples_wellFormed _ _ _ Hv2) | done].
    + apply Permutation_nil_r in Hp. done.
  - apply set_eq. intros x. rewrite !parseDebianJSON_triples. cbn [snd].
    rewrite !parseTriples_unknown.
    assert (forall ts, (exists t, t ∈ ts /\ tReleaseName t = x
                                 /\ DebianReleasesMapping !! x = None)
                       <-> (exists k, k ∈ map tripleKey ts /\ k.1.2 = x)
                           /\ DebianReleasesMapping !! x = None) as Hk.
    { intros ts. split.
      - intros (t & Ht & Hn & Hmap). split; [|done]. exists (tripleKey t).
        split; [|done]. apply list_elem_of_fmap. by exists t.
      - intros [(k & Hin & Hn) Hmap]. apply list_elem_of_fmap in Hin as (t & -> & Ht).
        by exists t. }
    rewrite !Hk. split; intros [(k & Hin & Hn) Hmap]; (split; [|done]); exists k;
      (split; [|done]); [by rewrite <- Hperm | by rewrite Hperm].
Qed.

End Canonical.

(** *** The properties on the fixture tracker *)

(** The feature of the release resolved in a version. *)
Lemma batch_feature_origin_witness :
  exists pkgName pkgNode vulnNode releaseName releaseNode release,
    (pkgName, pkgNode) ∈ Fixtures.document Fixtures.releasesMixed
    /\ ("CVE-1", vulnNode) ∈ pkgNode
    /\ (releaseName, releaseNode) ∈ Releases vulnNode
    /\ String.prefix "CVE-" "CVE-1" = true
    /\ Fixtures.releases !! releaseName = Some release
    /\ ((Status releaseNode = "open" /\ "1.0-1" = "#MAXV#")
        \/ (Status releaseNode = "resolved"
            /\ Valid (Versionfmt := Fixtures.versionfmt) "dpkg" (FixedVersion releaseNode)
               = true
            /\ FixedVersion releaseNode <> "0"
            /\ "1.0-1" = FixedVersion releaseNode))
    /\ "1.0-1" <> ""
    /\ "a" = pkgName
    /\ Database.SourcePackage = Database.SourcePackage
    /\ {| Database.NsName := "debian:9"; Database.VersionFormat := "dpkg" |}
       = {| Database.NsName := "debian:" +:+ release; Database.VersionFormat := "dpkg" |}
    /\ "1.0-1" = "1.0-1".
Proof.
  apply (batch_feature_origin (vf := Fixtures.versionfmt)
           (env := Fixtures.mixedSurroundings)
           (Fixtures.document Fixtures.releasesMixed) Fixtures.mixedVulnerability
           {| Database.FeatureType_ := Database.SourcePackage;
              Database.FeatureName := "a";
              Database.AffectedVersion := "1.0-1";
              Database.FixedInVersion := "1.0-1";
              Database.AfNamespace := {|
                Database.NsName := "debian:9";
                Database.VersionFormat := "dpkg" |} |}).
  - apply list_elem_of_In. vm_compute. left. reflexivity.
  - apply list_elem_of_In. vm_compute. right. left. reflexivity.
Defined.

(** The release of stretch, resolved in version 1.0-1. *)
Lemma resolved_triple_feature_witness :
  exists v,
    v ∈ fst (parseDebianJSON (vf := Fixtures.versionfmt) (env := Fixtures.mixedSurroundings)
               (Fixtures.document Fixtures.releasesMixed))
    /\ Database.Name (Database.Vuln v) = "CVE-1"
    /\ {| Database.FeatureType_ := Database.SourcePackage;
          Database.FeatureName := "a";
          Database.AffectedVersion := "1.0-1";
          Database.FixedInVersion := "1.0-1";
          Database.AfNamespace := {|
            Database.NsName := "debian:9";
            Database.VersionFormat := "dpkg" |} |}
       ∈ Database.Affected v.
Proof.
  apply (resolved_triple_feature (vf := Fixtures.versionfmt)
           (env := Fixtures.mixedSurroundings)
           (Fixtures.document Fixtures.releasesMixed)
           "a"
           [("CVE-1", {| Description := "x  y "; Releases := Fixtures.releasesMixed |})]
           "CVE-1"
           {| Description := "x  y "; Releases := Fixtures.releasesMixed |}
           "stretch" (Fixtures.rel "resolved" "1.0-1" "high") "9").
  - apply list_elem_of_In. simpl. left. reflexivity.
  - apply list_elem_of_In. simpl. left. reflexivity.
  - apply list_elem_of_In. simpl. right. left. reflexivity.
  - reflexivity.
  - reflexivity.
  - simpl. discriminate.
  - simpl. discriminate.
  - vm_compute. reflexivity.
  - reflexivity.
Defined.

(** The advisory of the fixture document is emitted for its open release. *)
Lemma batch_names_witness :
  exists v,
    v ∈ fst (parseDebianJSON (vf := Fixtures.versionfmt) (env := Fixtures.mixedSurroundings)
               (Fixtures.document Fixtures.releasesMixed))
    /\ Database.Name (Database.Vuln v) = "CVE-1".
Proof.
  apply (batch_names (vf := Fixtures.versionfmt) (env := Fixtures.mixedSurroundings)
           (Fixtures.document Fixtures.releasesMixed) "CVE-1").
  exists "a",
    [("CVE-1", {| Description := "x  y "; Releases := Fixtures.releasesMixed |})],
    {| Description := "x  y "; Releases := Fixtures.releasesMixed |},
    "jessie", (Fixtures.rel "open" "" "low"), "8", "#MAXV#".
  split; [apply list_elem_of_In; simpl; left; reflexivity|].
  split; [apply list_elem_of_In; simpl; left; reflexivity|].
  split; [apply list_elem_of_In; simpl; left; reflexivity|].
  split; [reflexivity|]. split; [vm_compute; reflexivity|].
  split; [left; split; reflexivity | discriminate].
Defined.

(** The name and the link of the fixture vulnerability. *)
Lemma batch_names_links_witness :
  String.prefix "CVE-" (Database.Name (Database.Vuln Fixtures.mixedVulnerability)) = true
  /\ Database.Link (Database.Vuln Fixtures.mixedVulnerability)
     = "https://security-tracker.debian.org/tracker" +:+ "/"
       +:+ Database.Name (Database.Vuln Fixtures.mixedVulnerability).
Proof.
  apply (proj2 (batch_names_links (vf := Fixtures.versionfmt)
                  (env := Fixtures.mixedSurroundings)
                  (Fixtures.document Fixtures.releasesMixed))).
  apply list_elem_of_In. vm_compute. left. reflexivity.
Defined.

(** The note for the release that the table does not map. *)
Lemma unknown_releases_notes_witness :
  unknownReleaseNote "potato"
  ∈ Vulnsrc.Notes (fst (buildResponse (vf := Fixtures.versionfmt)
                          (env := Fixtures.mixedSurroundings) Fixtures.mixedBody "")).
Proof.
  destruct (unknown_releases_notes (vf := Fixtures.versionfmt)
              (env := Fixtures.mixedSurroundings)
              Fixtures.mixedBody "" Fixtures.mixedBody
              (Fixtures.document Fixtures.releasesMixed))
    as (Hunknown & _ & Hnote & _).
  - vm_compute. reflexivity.
  - vm_compute. discriminate.
  - apply Hnote, Hunknown.
    exists "a",
      [("CVE-1", {| Description := "x  y "; Releases := Fixtures.releasesMixed |})],
      "CVE-1", {| Description := "x  y "; Releases := Fixtures.releasesMixed |},
      (Fixtures.rel "open" "" "medium").
    split; [apply list_elem_of_In; simpl; left; reflexivity|].
    split; [apply list_elem_of_In; simpl; left; reflexivity|].
    split; [apply list_elem_of_In; simpl; right; right; left; reflexivity|].
    vm_compute. reflexivity.
Defined.

(** The severity of the fixture vulnerability is at least the severity of
    its release of urgency high. *)
Lemma batch_severity_bounds_witness :
  (Database.Compare (SeverityFromUrgency "high")
     (Database.Severity_ (Database.Vuln Fixtures.mixedVulnerability)) <= 0)%Z.
Proof.
  destruct (batch_severity_bounds (vf := Fixtures.versionfmt)
              (env := Fixtures.mixedSurroundings)
              (Fixtures.document Fixtures.releasesMixed) Fixtures.mixedVulnerability)
    as [Hlower _].
  - apply list_elem_of_In. vm_compute. left. reflexivity.
  - apply (Hlower "a"
             [("CVE-1", {| Description := "x  y "; Releases := Fixtures.releasesMixed |})]
             {| Description := "x  y "; Releases := Fixtures.releasesMixed |}
             "stretch" (Fixtures.rel "resolved" "1.0-1" "high") "9" "1.0-1").
    + apply list_elem_of_In. simpl. left. reflexivity.
    + apply list_elem_of_In. simpl. left. reflexivity.
    + apply list_elem_of_In. simpl. right. left. reflexivity.
    + vm_compute. reflexivity.
    + right. split; [reflexivity|]. split; [reflexivity|].
      split; [simpl; discriminate | reflexivity].
    + discriminate.
Defined.

(** The watermark of the response to the fixture document. *)
Lemma buildResponse_flag_witness :
  Vulnsrc.FlagName Fixtures.mixedResponse = "debianUpdater"
  /\ String.length (Vulnsrc.FlagValue Fixtures.mixedResponse) = 64%nat.
Proof.
  destruct (proj1 (buildResponse_flag (vf := Fixtures.versionfmt)
                     (env := Fixtures.mixedSurroundings) Fixtures.mixedBody "")
              Fixtures.mixedResponse) as (Hname & Hlength & _).
  - vm_compute. reflexivity.
  - split; [exact Hname | exact Hlength].
Defined.

(** The run that follows the first run on the fixture tracker. *)
Lemma Debian_Update_rerun_witness :
  Update (vf := Fixtures.versionfmt) (http := Fixtures.trackerHttp Fixtures.mixedBody)
    (env := Fixtures.mixedSurroundings)
    (Fixtures.datastoreWith (Vulnsrc.FlagValue Fixtures.mixedResponse))
  = ({| Vulnsrc.FlagName := updaterFlag;
        Vulnsrc.FlagValue := Vulnsrc.FlagValue Fixtures.mixedResponse;
        Vulnsrc.Notes := [];
        Vulnsrc.Vulnerabilities := [] |}, None).
Proof.
  apply (Debian_Update_rerun (vf := Fixtures.versionfmt)
           (http := Fixtures.trackerHttp Fixtures.mixedBody)
           (env := Fixtures.mixedSurroundings) Fixtures.emptyDatastore
           (Fixtures.datastoreWith (Vulnsrc.FlagValue Fixtures.mixedResponse))
           Fixtures.mixedResponse).
  - vm_compute. reflexivity.
  - reflexivity.
Defined.

(** The first run on the fixture tracker. *)
Lemma Debian_Update_first_run_witness :
  Update (vf := Fixtures.versionfmt) (http := Fixtures.trackerHttp Fixtures.mixedBody)
    (env := Fixtures.mixedSurroundings) Fixtures.emptyDatastore
  = ({| Vulnsrc.FlagName := updaterFlag;
        Vulnsrc.FlagValue := Sha256.EncodeToString (Sha256.Sum Fixtures.mixedBody);
        Vulnsrc.Notes :=
          unknownReleaseNote
          <$> elements (snd (parseDebianJSON (vf := Fixtures.versionfmt)
                               (env := Fixtures.mixedSurroundings)
                               (Fixtures.document Fixtures.releasesMixed)));
        Vulnsrc.Vulnerabilities :=
          fst (parseDebianJSON (vf := Fixtures.versionfmt)
                 (env := Fixtures.mixedSurroundings)
                 (Fixtures.document Fixtures.releasesMixed)) |}, None).
Proof.
  apply (Debian_Update_first_run (vf := Fixtures.versionfmt)
           (http := Fixtures.trackerHttp Fixtures.mixedBody)
           (env := Fixtures.mixedSurroundings) Fixtures.emptyDatastore ""
           (Fixtures.ok Fixtures.mixedBody) Fixtures.mixedBody
           (Fixtures.document Fixtures.releasesMixed)).
  - reflexivity.
  - reflexivity.
  - reflexivity.
  - vm_compute. reflexivity.
Defined.

(** The severity of the fixture vulnerability. *)
Lemma batch_never_critical_witness :
  (Database.Compare (Database.Severity_ (Database.Vuln Fixtures.mixedVulnerability))
     Database.HighSeverity <= 0)%Z.
Proof.
  apply (batch_never_critical (vf := Fixtures.versionfmt)
           (env := Fixtures.mixedSurroundings)
           (Fixtures.document Fixtures.releasesMixed) Fixtures.mixedVulnerability).
  apply list_elem_of_In. vm_compute. left. reflexivity.
Defined.

(** A tracker that serves a body the decoder does not know. *)
Lemma Debian_Update_errors_witness :
  Update (vf := Fixtures.versionfmt) (http := Fixtures.trackerHttp "garbage")
    (env := Fixtures.mixedSurroundings) Fixtures.emptyDatastore
  = (Vulnsrc.emptyResponse, Some ErrCouldNotParse).
Proof.
  destruct (Debian_Update_errors (vf := Fixtures.versionfmt)
              (http := Fixtures.trackerHttp "garbage")
              (env := Fixtures.mixedSurroundings) Fixtures.emptyDatastore "" false)
    as [_ Hfetched].
  destruct (Hfetched eq_refl) as (_ & Hparse & _).
  apply Hparse.
  exists (Fixtures.ok "garbage"), "garbage", [], (ErrOther "invalid character").
  split; [reflexivity|]. split; reflexivity.
Defined.

(** The fixture document visited in its two orders. *)
Lemma batch_order_independent_witness :
  exists v2,
    v2 ∈ fst (parseDebianJSON (vf := Fixtures.versionfmt)
                (env := Fixtures.trackerSurroundings)
                (Fixtures.document Fixtures.releasesResolvedFirst))
    /\ Database.Name (Database.Vuln v2)
       = Database.Name (Database.Vuln Fixtures.debianVulnerability)
    /\ Database.Affected v2 ≡ₚ Database.Affected Fixtures.debianVulnerability.
Proof.
  destruct (batch_order_independent (vf := Fixtures.versionfmt)
              (env := Fixtures.trackerSurroundings)
              (Fixtures.document Fixtures.releasesOpenFirst)
              (Fixtures.document Fixtures.releasesResolvedFirst)) as [Hbatch _].
  - vm_compute. apply perm_swap.
  - apply Hbatch. apply list_elem_of_In. vm_compute. left. reflexivity.
Defined.

End DebianProperties.
